(** * Demo-site directory scripts: a shallow embedding

    The three scripts under [scripts/] (create_company.py,
    archive_company.py, generate_sites.py) are modelled as pure functions
    over explicit state:

    - Python [str] values are lists of Unicode code points ([pystr]), so
      that [len] counts code points as Python does;
    - JSON documents are an inductive type whose objects are association
      lists (a Python dict keeps insertion order, and [json.dumps] prints
      in that order);
    - raising code returns a [result], either [Ok v] or [Raise e];
    - the file system, the clock, the HTTP service and the random source
      are explicit arguments. *)

From Stdlib Require Import ZArith NArith QArith String Ascii List Lia Bool DecimalString.
From stdpp Require Import base list option.

Import ListNotations.
Local Open Scope N_scope.

Set Warnings "-register-all".

(** ** Python text *)

Module Text.

(** A Python string: a sequence of code points. *)
Definition pystr := list N.

(** An ASCII literal of the source. *)
Definition lit (s : string) : pystr :=
  List.map N_of_ascii (list_ascii_of_string s).

Definition in_range (lo hi c : N) : bool := (lo <=? c) && (c <=? hi).

(** [str.isspace] on one code point: the characters Python treats as
    whitespace in [str.strip], [str.split] and the regex class [\s]. *)
Definition isspace (c : N) : bool :=
  in_range 9 13 c || in_range 28 32 c || (c =? 133) || (c =? 160)
  || (c =? 5760) || in_range 8192 8202 c || (c =? 8232) || (c =? 8233)
  || (c =? 8239) || (c =? 8287) || (c =? 12288).

Fixpoint lstrip (s : pystr) : pystr :=
  match s with
  | [] => []
  | c :: r => if isspace c then lstrip r else s
  end.

Fixpoint rstrip (s : pystr) : pystr :=
  match s with
  | [] => []
  | c :: r =>
      match rstrip r with
      | [] => if isspace c then [] else [c]
      | r' => c :: r'
      end
  end.

(** [s.strip()] *)
Definition strip (s : pystr) : pystr := rstrip (lstrip s).

Definition is_upper_ascii (c : N) : bool := in_range 65 90 c.
Definition is_lower_ascii (c : N) : bool := in_range 97 122 c.
Definition is_digit (c : N) : bool := in_range 48 57 c.

Definition ascii_lower (c : N) : N :=
  if is_upper_ascii c then c + 32 else c.

Definition ascii_upper (c : N) : N :=
  if is_lower_ascii c then c - 32 else c.

(** [s.lower()].  CPython lowers a string code point by code point; an
    ASCII code point always becomes its ASCII lower case.  What a code
    point above 127 becomes comes from the Unicode tables and, for the
    Greek capital sigma, from the text around it: that part is the
    argument [lower_ext seen rest c], where [seen] is the text before
    [c] and [rest] the text after it. *)
Section Lower.
Variable lower_ext : pystr -> pystr -> N -> pystr.

Fixpoint lower_from (seen s : pystr) : pystr :=
  match s with
  | [] => []
  | c :: r =>
      (if c <? 128 then [ascii_lower c] else lower_ext seen r c)
        ++ lower_from (seen ++ [c]) r
  end.

Definition lower (s : pystr) : pystr := lower_from [] s.
End Lower.

(** [s.replace(old, new)] for a one-character [old]. *)
Definition replace1 (old : N) (new : pystr) (s : pystr) : pystr :=
  List.flat_map (fun c => if c =? old then new else [c]) s.

(** [s.startswith(p)] *)
Fixpoint startswith (p s : pystr) : bool :=
  match p, s with
  | [], _ => true
  | _ :: _, [] => false
  | a :: p', b :: s' => (a =? b) && startswith p' s'
  end.

Definition eqb (a b : pystr) : bool := bool_decide (a = b).

(** Truth value of a string: non-empty. *)
Definition nonempty (s : pystr) : bool :=
  match s with [] => false | _ => true end.

(** [s.split()]: the maximal runs of non-whitespace. *)
Fixpoint split_ws_aux (cur : pystr) (s : pystr) : list pystr :=
  match s with
  | [] => match cur with [] => [] | _ => [rev cur] end
  | c :: r =>
      if isspace c
      then match cur with
           | [] => split_ws_aux [] r
           | _ => rev cur :: split_ws_aux [] r
           end
      else split_ws_aux (c :: cur) r
  end.

Definition split_ws (s : pystr) : list pystr := split_ws_aux [] s.

(** [sep.join(parts)] *)
Fixpoint join (sep : pystr) (parts : list pystr) : pystr :=
  match parts with
  | [] => []
  | [p] => p
  | p :: rest => p ++ sep ++ join sep rest
  end.

(** [s.replace(old, new)] for a non-empty [old]: the occurrences are
    taken from the left and do not overlap.  [skip] counts the
    characters of the occurrence just replaced that are still to pass. *)
Fixpoint replace_from (old new : pystr) (skip : nat) (s : pystr) : pystr :=
  match s with
  | [] => []
  | c :: r =>
      match skip with
      | S k => replace_from old new k r
      | O =>
          if startswith old s
          then new ++ replace_from old new (length old - 1) r
          else c :: replace_from old new 0 r
      end
  end.

Definition replace (old new s : pystr) : pystr := replace_from old new 0 s.

(** [needle in s] *)
Fixpoint contains (needle s : pystr) : bool :=
  startswith needle s
  || match s with
     | [] => false
     | _ :: r => contains needle r
     end.

(** The order of [sorted] on strings: lexicographic on code points. *)
Fixpoint leb (a b : pystr) : bool :=
  match a, b with
  | [], _ => true
  | _ :: _, [] => false
  | x :: a', y :: b' => (x <? y) || ((x =? y) && leb a' b')
  end.

Fixpoint insert_sorted (x : pystr) (l : list pystr) : list pystr :=
  match l with
  | [] => [x]
  | y :: r => if leb x y then x :: l else y :: insert_sorted x r
  end.

(** [sorted(l)] *)
Definition sorted (l : list pystr) : list pystr :=
  fold_right insert_sorted [] l.

End Text.

Import Text.

(** ** create_company.py: [slugify] *)

Module Slug.

Definition hyphen : N := 45.
Definition ampersand : N := 38.

(** The class [[a-z0-9]]. *)
Definition is_alnum (c : N) : bool := is_lower_ascii c || is_digit c.

(** [re.sub(r"[^a-z0-9]+", "-", s)]: every maximal run of characters
    outside [[a-z0-9]] becomes one hyphen.  [in_run] records that the
    run being read has already produced its hyphen. *)
Fixpoint sub_runs (in_run : bool) (s : pystr) : pystr :=
  match s with
  | [] => []
  | c :: r =>
      if is_alnum c then c :: sub_runs false r
      else if in_run then sub_runs true r
      else hyphen :: sub_runs true r
  end.

Fixpoint drop_hyphens (s : pystr) : pystr :=
  match s with
  | [] => []
  | c :: r => if c =? hyphen then drop_hyphens r else s
  end.

(** [re.sub(r"(^-+|-+$)", "", s)] on a text without line breaks (the
    previous substitution leaves none): the hyphens at the start and the
    hyphens at the end are removed. *)
Definition sub_edges (s : pystr) : pystr :=
  rev (drop_hyphens (rev (drop_hyphens s))).

Section Slugify.
Variable lower_ext : pystr -> pystr -> N -> pystr.

(** The text [slugify] has before its final [or "company"]. *)
Definition slug_core (s : pystr) : pystr :=
  let s := lower lower_ext (strip s) in
  let s := replace1 ampersand (lit "and") s in
  let s := sub_runs false s in
  sub_edges s.

Definition slugify (s : pystr) : pystr :=
  match slug_core s with
  | [] => lit "company"
  | r => r
  end.
End Slugify.

(** The slug format: lower-case letters, digits and hyphens. *)
Definition is_slug_char (c : N) : bool := is_alnum c || (c =? hyphen).

End Slug.

(** ** Exceptions and results *)

Inductive exn : Type :=
| ValueError (msg : pystr)
| FileNotFoundError (msg : pystr)
| FileExistsError
| AttributeError
| TypeError
| HTTPError
| NotADirectoryError
| JSONDecodeError.

Inductive result (A : Type) : Type :=
| Ok (a : A)
| Raise (e : exn).

Arguments Ok {A} a.
Arguments Raise {A} e.

Definition is_ok {A} (r : result A) : bool :=
  match r with Ok _ => true | Raise _ => false end.

(** ** JSON documents as Python reads them *)

Module Json.

Inductive json : Type :=
| JNull
| JBool (b : bool)
| JNum (z : Z)
| JStr (s : pystr)
| JArr (l : list json)
| JObj (d : list (pystr * json)).

(** A Python dict with string keys, in insertion order. *)
Definition dict := list (pystr * json).

(** [d.get(k)]: [None] is Python's [None] result for a missing key. *)
Fixpoint dict_get (k : pystr) (d : dict) : option json :=
  match d with
  | [] => None
  | (k', v) :: r => if Text.eqb k k' then Some v else dict_get k r
  end.

(** [d[k] = v]: an existing key keeps its place, a new key goes last. *)
Fixpoint dict_set (k : pystr) (v : json) (d : dict) : dict :=
  match d with
  | [] => [(k, v)]
  | (k', v') :: r =>
      if Text.eqb k k' then (k, v) :: r else (k', v') :: dict_set k v r
  end.

(** [d.setdefault(k, v)] *)
Definition dict_setdefault (k : pystr) (v : json) (d : dict) : dict :=
  match dict_get k d with
  | Some _ => d
  | None => dict_set k v d
  end.

(** Python's truth value of a decoded JSON value. *)
Definition truthy (v : json) : bool :=
  match v with
  | JNull => false
  | JBool b => b
  | JNum z => negb (z =? 0)%Z
  | JStr s => nonempty s
  | JArr l => match l with [] => false | _ => true end
  | JObj d => match d with [] => false | _ => true end
  end.

(** [x.get(k)] on a decoded value: only a dict has [get]. *)
Definition py_get (k : pystr) (v : json) : result (option json) :=
  match v with
  | JObj d => Ok (dict_get k d)
  | _ => Raise AttributeError
  end.

(** [x == s] for a string [s]. *)
Definition eq_str (v : option json) (s : pystr) : bool :=
  match v with
  | Some (JStr t) => Text.eqb t s
  | _ => false
  end.

(** [for x in v]: the items a [for] loop sees, or [TypeError]. *)
Definition py_iter (v : json) : result (list json) :=
  match v with
  | JArr l => Ok l
  | JObj d => Ok (List.map (fun kv => JStr (fst kv)) d)
  | JStr s => Ok (List.map (fun c => JStr [c]) s)
  | _ => Raise TypeError
  end.

End Json.

Import Json.

(** ** Regular expressions of the scripts *)

Module Regex.

Definition newline : N := 10.

Section IgnoreCase.
(** The simple Unicode lower-case mapping above ASCII. *)
Variable tolower_ext : N -> N.

Definition uni_tolower (c : N) : N :=
  if c <? 128 then ascii_lower c else tolower_ext c.

(** The code points the regex engine adds to a lower-case ASCII letter
    under IGNORECASE: dotless i for [i], long s for [s]. *)
Definition ci_fix (lo t : N) : bool :=
  ((lo =? 105) && (t =? 305)) || ((lo =? 115) && (t =? 383)).

(** A literal pattern character [p] against the text character [c]. *)
Definition lit_ci (p c : N) : bool :=
  if is_upper_ascii p || is_lower_ascii p
  then let lo := ascii_lower p in
       let t := uni_tolower c in
       (t =? lo) || ci_fix lo t
  else c =? p.

(** A literal word of the pattern at the start of the text: what is
    left of the text after it. *)
Fixpoint match_lit (pat s : pystr) : option pystr :=
  match pat, s with
  | [], _ => Some s
  | _ :: _, [] => None
  | p :: pat', c :: s' => if lit_ci p c then match_lit pat' s' else None
  end.

(** The class [[a-z0-9\-]] under IGNORECASE. *)
Definition id_class (c : N) : bool :=
  let t := uni_tolower c in
  is_lower_ascii t || is_digit t || (t =? 45) || (t =? 305) || (t =? 383).
End IgnoreCase.

(** The class [.]: anything but a line feed. *)
Definition dot_class (c : N) : bool := negb (c =? newline).

(** [(C+)] at the start of the text: the longest run of [C]. *)
Fixpoint run (cls : N -> bool) (s : pystr) : pystr :=
  match s with
  | [] => []
  | c :: r => if cls c then c :: run cls r else []
  end.

Definition run1 (cls : N -> bool) (s : pystr) : option pystr :=
  match run cls s with
  | [] => None
  | r => Some r
  end.

(** [\s*(C+)] at the start of the text, greedy with backtracking: the
    white space is consumed as far as possible, and given back one
    character at a time while the group cannot start. *)
Fixpoint ws_then (cls : N -> bool) (s : pystr) : option pystr :=
  match s with
  | [] => None
  | c :: r =>
      if isspace c
      then match ws_then cls r with
           | Some g => Some g
           | None => run1 cls s
           end
      else run1 cls s
  end.

(** [re.search]: the match at the leftmost position that has one. *)
Fixpoint search {A} (m : pystr -> option A) (s : pystr) : option A :=
  match m s with
  | Some x => Some x
  | None => match s with
            | [] => None
            | _ :: r => search m r
            end
  end.

(** [re.sub(r"[ \t]+", " ", s)] *)
Fixpoint sub_blanks (in_run : bool) (s : pystr) : pystr :=
  match s with
  | [] => []
  | c :: r =>
      if (c =? 32) || (c =? 9)
      then if in_run then sub_blanks true r else 32 :: sub_blanks true r
      else c :: sub_blanks false r
  end.

(** [re.sub(r"\n{3,}", "\n\n", s)]: [seen] counts the line feeds of the
    run being read; a run keeps at most two. *)
Fixpoint sub_newlines (seen : nat) (s : pystr) : pystr :=
  match s with
  | [] => []
  | c :: r =>
      if c =? newline
      then if (seen <? 2)%nat then c :: sub_newlines (S seen) r
           else sub_newlines (S seen) r
      else c :: sub_newlines 0 r
  end.

End Regex.

Import Regex.

(** ** The world outside the scripts *)

Module World.

(** A child of the repository root: a plain file, or a folder with the
    text of its [index.html] when it has one. *)
Inductive node : Type :=
| File
| Dir (index_html : option pystr).

(** The part of the repository the scripts touch. *)
Record fs : Type := mkFs {
  root : list (pystr * node);      (* the children of ROOT, by name *)
  sites_file : option pystr;       (* the text of assets/sites.json *)
  screenshots : list pystr         (* the slugs with a saved screenshot *)
}.

(** What [BeautifulSoup] finds in a page. *)
Record page : Type := mkPage {
  title_text : option pystr;       (* soup.title.get_text(" ", strip=True) *)
  meta_content : option pystr;     (* content of <meta name="description"> *)
  og_content : option pystr;       (* content of <meta property="og:image"> *)
  main_text : pystr                (* main.get_text("\n", strip=True) *)
}.

(** A response of the text-generation service; its body is the decoded
    JSON document. *)
Record response : Type := mkResponse {
  status_code : Z;
  retry_after : option pystr;      (* resp.headers.get("retry-after") *)
  body : json
}.

Inductive post_result : Type :=
| Response (r : response)
| RequestException.

(** What the headless browser does with a URL. *)
Inductive browse : Type :=
| NoBrowser                        (* the import of playwright fails *)
| BrowserThrows (saved : bool)     (* an exception, with or without an image on disk *)
| Loaded (status : Z) (content : pystr).

Inductive event : Type :=
| EvPrint (s : pystr)
| EvGet (url : pystr)
| EvPost (attempt : nat)
| EvSleep (seconds : Q)
| EvMkdir (path : pystr)
| EvCopyTree (dst : pystr)
| EvWrite (path : pystr) (content : pystr)
| EvUnlink (path : pystr).

(** Everything a run depends on and does not decide itself. *)
Record env : Type := mkEnv {
  lower_ext : pystr -> pystr -> N -> pystr;  (* str.lower above ASCII *)
  tolower_ext : N -> N;                      (* regex case folding above ASCII *)
  title_ext : bool -> N -> pystr;            (* str.title above ASCII *)
  cased_ext : N -> bool;                     (* cased code points above ASCII *)
  environ : pystr -> option pystr;           (* os.environ *)
  today : pystr;                             (* utcnow().strftime("%Y-%m-%d") *)
  http_get : pystr -> result page;           (* requests.get, raise_for_status, parse *)
  http_post : nat -> post_result;            (* the n-th requests.post *)
  jitter : nat -> Q;                         (* the n-th random.uniform(0, 0.75) *)
  py_float : pystr -> option Q;              (* float(s), None when it raises *)
  browser : pystr -> browse;
  json_dumps : json -> pystr;                (* json.dumps(v, indent=2, ensure_ascii=False) *)
  json_loads : pystr -> option json          (* json.loads, None when it raises *)
}.

(** The same surroundings on another day. *)
Definition set_today (d : pystr) (E : env) : env :=
  mkEnv (lower_ext E) (tolower_ext E) (title_ext E) (cased_ext E) (environ E) d
        (http_get E) (http_post E) (jitter E) (py_float E) (browser E)
        (json_dumps E) (json_loads E).

Record world : Type := mkWorld {
  w_fs : fs;
  w_trace : list event             (* oldest first *)
}.

(** A computation that reads and changes the world and may raise. *)
Definition M (A : Type) : Type := world -> result A * world.

Definition ret {A} (a : A) : M A := fun w => (Ok a, w).
Definition raise {A} (e : exn) : M A := fun w => (Raise e, w).

Definition bind {A B} (m : M A) (k : A -> M B) : M B :=
  fun w => match m w with
           | (Ok a, w') => k a w'
           | (Raise e, w') => (Raise e, w')
           end.

Definition emit (e : event) : M unit :=
  fun w => (Ok tt, mkWorld (w_fs w) (w_trace w ++ [e])).

Definition get_fs : M fs := fun w => (Ok (w_fs w), w).

Definition put_fs (f : fs) : M unit :=
  fun w => (Ok tt, mkWorld f (w_trace w)).

Definition lift {A} (r : result A) : M A := fun w => (r, w).

(** [os.getenv(k, "")] *)
Definition getenv (E : env) (k : pystr) : pystr :=
  match environ E k with Some v => v | None => [] end.

Fixpoint lookup_node (name : pystr) (l : list (pystr * node)) : option node :=
  match l with
  | [] => None
  | (n, x) :: r => if Text.eqb name n then Some x else lookup_node name r
  end.

(** [path.exists()] for a child of ROOT. *)
Definition exists_in_root (name : pystr) (f : fs) : bool :=
  match lookup_node name (root f) with Some _ => true | None => false end.

(** The file system once the assets folder has been made. *)
Definition with_assets (f : fs) : fs :=
  mkFs (root f ++ [(lit "assets", Dir None)]) (sites_file f) (screenshots f).

(** [ASSETS_DIR.mkdir(parents=True, exist_ok=True)] *)
Definition mkdir_assets : M unit :=
  bind get_fs (fun f =>
  match lookup_node (lit "assets") (root f) with
  | Some (Dir _) => ret tt
  | Some File => raise FileExistsError
  | None =>
      bind (emit (EvMkdir (lit "assets"))) (fun _ => put_fs (with_assets f))
  end).

(** [SITES_FILE.write_text(text)] *)
Definition write_sites (text : pystr) : M unit :=
  bind get_fs (fun f =>
  bind (emit (EvWrite (lit "assets/sites.json") text)) (fun _ =>
  put_fs (mkFs (root f) (Some text) (screenshots f)))).

End World.

Import World.

Declare Scope py_scope.
Delimit Scope py_scope with py.
Notation "'let!' x ':=' m 'in' k" := (bind m (fun x => k))
  (at level 10, x name, m at level 100, k at level 200) : py_scope.
Notation "'do!' m 'in' k" := (bind m (fun _ => k))
  (at level 10, m at level 100, k at level 200) : py_scope.
Local Open Scope py_scope.

(** ** create_company.py *)

Module Create.

Definition S3_BASE : pystr :=
  lit "https://sfdcdemoimages.s3.eu-west-1.amazonaws.com".

Record CompanyRequest : Type := mkRequest {
  name : pystr;
  website : pystr;
  tone : pystr
}.

Definition em_dash : N := 8212.
Definition ellipsis : N := 8230.

(** [s[:m]] *)
Definition slice_to (s : pystr) (m : Z) : pystr :=
  if (m <? 0)%Z
  then take (Z.to_nat (Z.of_nat (length s) + m)) s
  else take (Z.to_nat m) s.

(** [re.match(r"^https?://", url, flags=re.I)] *)
Definition has_scheme (E : env) (url : pystr) : bool :=
  match match_lit (tolower_ext E) (lit "http://") url with
  | Some _ => true
  | None =>
      match match_lit (tolower_ext E) (lit "https://") url with
      | Some _ => true
      | None => false
      end
  end.

Definition with_scheme (E : env) (url : pystr) : pystr :=
  if has_scheme E url then url else lit "https://" ++ url.

Section WithEnv.
Variable E : env.

(** The inner [find] of [parse_issue_body]: the pattern
    [\*\*<field>:\*\*\s*(.+)] under IGNORECASE, searched in the body;
    the group is stripped, and no match gives the empty text. *)
Definition field_at (field : pystr) (s : pystr) : option pystr :=
  match match_lit (tolower_ext E) (lit "**" ++ field ++ lit ":**") s with
  | Some rest => ws_then dot_class rest
  | None => None
  end.

Definition find (body : pystr) (field : pystr) : pystr :=
  match search (field_at field) body with
  | Some g => strip g
  | None => []
  end.

Definition parse_issue_body (body : pystr) : result CompanyRequest :=
  let name := find body (lit "Company name") in
  let website := find body (lit "Website") in
  let tone := match find body (lit "Tone") with
              | [] => lit "Professional"
              | t => t
              end in
  if negb (nonempty name)
  then Raise (ValueError (lit "Could not parse **Company name:** from issue body"))
  else
    let website := if Text.eqb website (lit "-") then [] else website in
    Ok (mkRequest name website tone).

(** The clean-up of the extracted text: blanks and blank lines are
    collapsed, the ends stripped, and the text clamped. *)
Definition collapse_text (text : pystr) : pystr :=
  strip (sub_newlines 0 (sub_blanks false text)).

Definition clamp_text (max_chars : Z) (text : pystr) : pystr :=
  if (Z.of_nat (length text) >? max_chars)%Z
  then slice_to text max_chars ++ [ellipsis]
  else text.

(** [fetch_site_text(url, max_chars)].  The value returned is a Python
    tuple, modelled as the list of its components: the early return
    for an empty URL has three of them, the return at the end has
    four. *)
Definition fetch_site_text (url : pystr) (max_chars : Z) : M (list pystr) :=
  if negb (nonempty url) then ret [[]; []; []]
  else
    let url := with_scheme E url in
    do! emit (EvGet url) in
    let! p := lift (http_get E url) in
    let title := strip (match title_text p with Some t => t | None => [] end) in
    let meta_desc := match meta_content p with
                     | Some (c :: r) => strip (c :: r)
                     | _ => []
                     end in
    let og_image := match og_content p with
                    | Some (c :: r) => strip (c :: r)
                    | _ => []
                    end in
    let text := clamp_text max_chars (collapse_text (main_text p)) in
    ret [title; meta_desc; text; og_image].

(** [a, b, c, d = t] *)
Definition unpack4 (t : list pystr) : result (pystr * pystr * pystr * pystr) :=
  match t with
  | [a; b; c; d] => Ok (a, b, c, d)
  | _ =>
      if (length t <? 4)%nat
      then Raise (ValueError (lit "not enough values to unpack (expected 4, got "
                                ++ [48 + N.of_nat (length t)] ++ lit ")"))
      else Raise (ValueError (lit "too many values to unpack (expected 4)"))
  end.

(** *** [openai_summary] *)

(** The inner [fallback]. *)
Definition fallback (company : CompanyRequest) (title meta_desc : pystr) : pystr :=
  if nonempty meta_desc && (40 <=? length (strip meta_desc))%nat
  then strip meta_desc
  else if nonempty title
  then name company ++ lit " " ++ [em_dash]
         ++ lit " demo environment based on publicly available information."
  else lit "Demo environment for this company.".

(** [a or b] on the results of [dict.get]. *)
Definition py_or (a b : option json) : option json :=
  match a with
  | Some v => if truthy v then a else b
  | None => b
  end.

(** The texts of one output item: the inner loop over
    [item.get("content", [])]. *)
Fixpoint content_parts (cs : list json) : result (list json) :=
  match cs with
  | [] => Ok []
  | JObj d :: rest =>
      let ty := dict_get (lit "type") d in
      if eq_str ty (lit "output_text") || eq_str ty (lit "text")
      then
        let t := py_or (py_or (dict_get (lit "text") d) (dict_get (lit "value") d))
                       (Some (JStr [])) in
        match content_parts rest with
        | Raise e => Raise e
        | Ok ps =>
            match t with
            | Some v => if truthy v then Ok (v :: ps) else Ok ps
            | None => Ok ps
            end
        end
      else content_parts rest
  | _ :: _ => Raise AttributeError
  end.

(** The loop over [data.get("output", [])]. *)
Fixpoint output_parts (items : list json) : result (list json) :=
  match items with
  | [] => Ok []
  | JObj d :: rest =>
      if negb (eq_str (dict_get (lit "type") d) (lit "message"))
      then output_parts rest
      else
        match py_iter (match dict_get (lit "content") d with
                       | Some v => v
                       | None => JArr []
                       end) with
        | Raise e => Raise e
        | Ok cs =>
            match content_parts cs with
            | Raise e => Raise e
            | Ok ps =>
                match output_parts rest with
                | Raise e => Raise e
                | Ok qs => Ok (ps ++ qs)
                end
            end
        end
  | _ :: _ => Raise AttributeError
  end.

(** [" ".join(parts)]: every part must be a string. *)
Fixpoint join_parts (parts : list json) : result (list pystr) :=
  match parts with
  | [] => Ok []
  | JStr s :: rest =>
      match join_parts rest with
      | Ok l => Ok (s :: l)
      | Raise e => Raise e
      end
  | _ :: _ => Raise TypeError
  end.

(** The success branch: from the decoded body to the summary text. *)
Definition extract_summary (data : json) : result pystr :=
  match py_get (lit "output") data with
  | Raise e => Raise e
  | Ok out =>
      match py_iter (match out with Some v => v | None => JArr [] end) with
      | Raise e => Raise e
      | Ok items =>
          match output_parts items with
          | Raise e => Raise e
          | Ok parts =>
              match join_parts parts with
              | Raise e => Raise e
              | Ok strs =>
                  Ok (strip (join (lit " ") (split_ws (join (lit " ") strs))))
              end
          end
      end
  end.

Definition max_attempts : nat := 5.
Definition base_sleep : Q := 3 # 2.

(** [(base_sleep * (2 ** (attempt - 1))) + random.uniform(0, 0.75)] *)
Definition backoff (attempt : nat) : Q :=
  (base_sleep * inject_Z (2 ^ Z.of_nat (attempt - 1)) + jitter E attempt)%Q.

(** [time.sleep(x)]: a negative length is a [ValueError]. *)
Definition sleep (x : Q) : M unit :=
  if Qle_bool 0 x then emit (EvSleep x)
  else raise (ValueError (lit "sleep length must be non-negative")).

Definition retryable (status : Z) : bool :=
  ((status =? 429) || (status =? 500) || (status =? 502)
   || (status =? 503) || (status =? 504))%Z.

(** The value of [sleep_s] after the header has been looked at. *)
Definition retry_hint (r : response) : option Q :=
  match retry_after r with
  | Some (c :: h) => py_float E (c :: h)
  | _ => None
  end.

(** The [for attempt in range(1, max_attempts + 1)] loop, over the
    attempts still to make; [fb] is the value of [fallback()]. *)
Fixpoint attempts (fb : pystr) (todo : list nat) : M pystr :=
  match todo with
  | [] => ret fb
  | attempt :: rest =>
      do! emit (EvPost attempt) in
      match http_post E attempt with
      | Response resp =>
          if ((200 <=? status_code resp) && (status_code resp <? 300))%Z
          then
            let! summary := lift (extract_summary (body resp)) in
            ret (if nonempty summary then summary else fb)
          else if retryable (status_code resp)
          then
            if (attempt <? max_attempts)%nat
            then
              do! sleep (match retry_hint resp with
                         | Some s => s
                         | None => backoff attempt
                         end) in
              attempts fb rest
            else ret fb
          else ret fb
      | RequestException =>
          if (attempt <? max_attempts)%nat
          then do! sleep (backoff attempt) in attempts fb rest
          else ret fb
      end
  end.

Definition openai_summary (company : CompanyRequest)
    (title meta_desc page_text : pystr) : M pystr :=
  let fb := fallback company title meta_desc in
  let api_key := strip (getenv E (lit "OPENAI_API_KEY")) in
  if negb (nonempty api_key) then ret fb
  else attempts fb (seq 1 max_attempts).

(** *** [maybe_take_screenshot] *)

Definition deny_markers : list pystr :=
  [lit "access denied"; lit "you don't have permission"; lit "request blocked";
   lit "service unavailable"; lit "verify you are human"; lit "captcha";
   lit "cloudflare"; lit "akamai"; lit "reference #"].

Definition screenshot_file (slug : pystr) : pystr :=
  lit "assets/screenshots/" ++ slug ++ lit ".png".

(** [if out_path.exists(): out_path.unlink(missing_ok=True)] *)
Definition unlink_screenshot (slug : pystr) (saved : bool) : M unit :=
  let! f := get_fs in
  if saved || existsb (Text.eqb slug) (screenshots f)
  then
    do! emit (EvUnlink (screenshot_file slug)) in
    put_fs (mkFs (root f) (sites_file f)
                 (List.filter (fun x => negb (Text.eqb slug x)) (screenshots f)))
  else ret tt.

Definition maybe_take_screenshot (company_slug url : pystr) : M (option pystr) :=
  if negb (nonempty url) then ret None
  else
    let url := with_scheme E url in
    do! mkdir_assets in
    match browser E url with
    | NoBrowser => ret None
    | BrowserThrows saved =>
        do! unlink_screenshot company_slug saved in ret None
    | Loaded status content =>
        if ((status =? 401) || (status =? 403))%Z then ret None
        else if existsb (fun m => contains m (lower (lower_ext E) content)) deny_markers
        then do! unlink_screenshot company_slug false in ret None
        else
          let! f := get_fs in
          do! emit (EvWrite (screenshot_file company_slug) []) in
          do! put_fs (mkFs (root f) (sites_file f)
                        (company_slug
                           :: List.filter (fun x => negb (Text.eqb company_slug x))
                                (screenshots f))) in
          ret (Some (lit "/assets/screenshots/" ++ company_slug ++ lit ".png"))
    end.

(** *** [render_from_template] *)

(** The text up to the first occurrence of [close]. *)
Fixpoint find_close (close s : pystr) : option pystr :=
  if startswith close s then Some []
  else match s with
       | [] => None
       | c :: r => match find_close close r with
                   | Some inner => Some (c :: inner)
                   | None => None
                   end
       end.

(** The pattern [{#IF_X}(.*?){/IF_X}] at the start of the text. *)
Definition match_block (opening close s : pystr) : option pystr :=
  if startswith opening s then find_close close (drop (length opening) s)
  else None.

(** [pattern.sub(repl, html)] of [strip_block]; [skip] counts the
    characters of the block just replaced that are still to pass. *)
Fixpoint sub_block (opening close : pystr) (keep : bool) (skip : nat)
    (s : pystr) : pystr :=
  match s with
  | [] => []
  | c :: r =>
      match skip with
      | S k => sub_block opening close keep k r
      | O =>
          match match_block opening close s with
          | Some inner =>
              (if keep then inner else [])
                ++ sub_block opening close keep
                     (length opening + length inner + length close - 1) r
          | None => c :: sub_block opening close keep 0 r
          end
      end
  end.

Definition strip_block (block_name : pystr) (keep : bool) (html : pystr) : pystr :=
  sub_block (lit "{#IF_" ++ block_name ++ lit "}")
            (lit "{/IF_" ++ block_name ++ lit "}") keep 0 html.

Definition or_empty (o : option pystr) : pystr :=
  match o with Some s => s | None => [] end.

Definition render_from_template (template_html : pystr) (company : CompanyRequest)
    (slug summary : pystr) (screenshot_path : option pystr) : pystr :=
  let has_website := nonempty (website company) in
  let has_screenshot := nonempty (or_empty screenshot_path) in
  let html := strip_block (lit "WEBSITE") has_website template_html in
  let html := strip_block (lit "SCREENSHOT") has_screenshot html in
  let replacements :=
    [(lit "{{COMPANY_NAME}}", name company);
     (lit "{{COMPANY_WEBSITE}}", website company);
     (lit "{{COMPANY_SUMMARY}}", summary);
     (lit "{{COMPANY_TONE}}", tone company);
     (lit "{{LOGO_URL}}", S3_BASE ++ lit "/" ++ slug ++ lit "/logo.png");
     (lit "{{S3_BUCKET_HINT}}", lit "s3://sfdcdemoimages/" ++ slug ++ lit "/");
     (lit "{{S3_LOGO_HINT}}", slug ++ lit "/logo.png");
     (lit "{{SCREENSHOT_PATH}}", or_empty screenshot_path)] in
  fold_left (fun h kv => replace (fst kv) (snd kv) h) replacements html.

(** *** [upsert_sites_json] *)

(** The loop that looks for the entry: the index and the dict of the
    first element whose ["id"] equals the slug.  An element that is not
    a dict has no [get]. *)
Fixpoint find_site (slug : pystr) (i : nat) (sites : list json)
    : result (option (nat * dict)) :=
  match sites with
  | [] => Ok None
  | JObj d :: rest =>
      if eq_str (dict_get (lit "id") d) slug then Ok (Some (i, d))
      else find_site slug (S i) rest
  | _ :: _ => Raise AttributeError
  end.

(** The dict created when no entry has the id. *)
Definition new_entry (company_slug : pystr) : dict :=
  [(lit "id", JStr company_slug);
   (lit "path", JStr (lit "/" ++ company_slug ++ lit "/"))].

(** The four assignments to [existing]. *)
Definition fill_entry (company_slug company_name summary : pystr) (d : dict) : dict :=
  let d := dict_set (lit "name") (JStr company_name) d in
  let d := dict_set (lit "description") (JStr summary) d in
  let d := dict_setdefault (lit "tag") (JStr (lit "Demo")) d in
  dict_setdefault (lit "logoUrl")
    (JStr (S3_BASE ++ lit "/" ++ company_slug ++ lit "/logo.png")) d.

(** The manifest the run starts from: the decoded file, or the fresh
    one when the file is missing or does not decode. *)
Definition initial_manifest (f : fs) : json :=
  let fresh := JObj [(lit "updated", JStr (today E)); (lit "sites", JArr [])] in
  match sites_file f with
  | Some text => match json_loads E text with
                 | Some v => v
                 | None => fresh
                 end
  | None => fresh
  end.

(** The manifest after the update, before it is printed. *)
Definition upsert_value (company_slug company_name summary : pystr) (data : json)
    : result json :=
  match data with
  | JObj top =>
      let sites := match dict_get (lit "sites") top with
                   | Some (JArr l) => l
                   | _ => []
                   end in
      match find_site company_slug 0 sites with
      | Raise e => Raise e
      | Ok found =>
          let sites' :=
            match found with
            | Some (i, d) =>
                <[i := JObj (fill_entry company_slug company_name summary d)]> sites
            | None =>
                sites ++ [JObj (fill_entry company_slug company_name summary
                                  (new_entry company_slug))]
            end in
          Ok (JObj (dict_set (lit "sites") (JArr sites')
                      (dict_set (lit "updated") (JStr (today E)) top)))
      end
  | _ => Raise AttributeError
  end.

Definition upsert_sites_json (company_slug company_name summary : pystr) : M unit :=
  do! mkdir_assets in
  let! f := get_fs in
  let! data := lift (upsert_value company_slug company_name summary
                       (initial_manifest f)) in
  write_sites (json_dumps E data ++ [newline]).

(** *** [main] *)

Definition template_name : pystr := lit "company-template".

Definition set_node (nm : pystr) (x : node) (l : list (pystr * node))
    : list (pystr * node) :=
  if existsb (fun e => Text.eqb nm (fst e)) l
  then List.map (fun e => if Text.eqb nm (fst e) then (nm, x) else e) l
  else l ++ [(nm, x)].

(** [shutil.copytree(TEMPLATE_DIR, company_dir)] *)
Definition copytree (slug : pystr) : M unit :=
  let! f := get_fs in
  match lookup_node template_name (root f) with
  | Some (Dir idx) =>
      do! emit (EvCopyTree slug) in
      put_fs (mkFs (set_node slug (Dir idx) (root f)) (sites_file f) (screenshots f))
  | Some File => raise NotADirectoryError
  | None => raise (FileNotFoundError template_name)
  end.

Definition read_template : M pystr :=
  let! f := get_fs in
  match lookup_node template_name (root f) with
  | Some (Dir (Some html)) => ret html
  | _ => raise (FileNotFoundError (template_name ++ lit "/index.html"))
  end.

Definition write_index (slug html : pystr) : M unit :=
  let! f := get_fs in
  do! emit (EvWrite (slug ++ lit "/index.html") html) in
  put_fs (mkFs (set_node slug (Dir (Some html)) (root f))
               (sites_file f) (screenshots f)).

Definition main : M Z :=
  let issue_body := getenv E (lit "ISSUE_BODY") in
  if negb (nonempty (strip issue_body))
  then do! emit (EvPrint (lit "ISSUE_BODY is empty; nothing to do.")) in ret 0%Z
  else
    let! req := lift (parse_issue_body issue_body) in
    let slug := Slug.slugify (lower_ext E) (name req) in
    let! f := get_fs in
    if exists_in_root slug f
    then do! emit (EvPrint (lit "Company folder already exists: " ++ slug)) in ret 0%Z
    else if negb (exists_in_root template_name f)
    then raise (FileNotFoundError (lit "Template folder not found: " ++ template_name))
    else
      do! copytree slug in
      let! fetched := fetch_site_text (website req) 12000 in
      let! fields := lift (unpack4 fetched) in
      let '(title, meta_desc, page_text, og_image) := fields in
      let! summary := openai_summary req title meta_desc page_text in
      let! shot := maybe_take_screenshot slug (website req) in
      let screenshot_path :=
        if negb (nonempty (or_empty shot)) && nonempty og_image
        then Some og_image else shot in
      let! template_html := read_template in
      let out_html := render_from_template template_html req slug summary
                        screenshot_path in
      do! write_index slug out_html in
      do! upsert_sites_json slug (name req) summary in
      do! emit (EvPrint (lit "Created " ++ slug ++ lit "/ with summary and assets updates.")) in
      do! (if nonempty (or_empty screenshot_path)
           then emit (EvPrint (lit "Screenshot: " ++ or_empty screenshot_path))
           else ret tt) in
      ret 0%Z.

End WithEnv.

End Create.

(** ** archive_company.py *)

Module Archive.

Inductive action : Type := ArchiveAction | RestoreAction.

(** The text of an action, as the script holds it. *)
Definition action_text (a : action) : pystr :=
  match a with
  | ArchiveAction => lit "archive"
  | RestoreAction => lit "restore"
  end.

(** The label of the id field, as the pattern spells it. *)
Definition id_label : pystr := lit "**Company id:**".

Definition parse_error : exn :=
  ValueError (lit "Could not parse action or **Company id:** from issue.").

Definition not_found (company_id : pystr) : exn :=
  ValueError (lit "Company id '" ++ company_id ++ lit "' not found in assets/sites.json").

Section WithEnv.
Variable E : env.

(** The pattern [\*\*Company id:\*\*\s*([a-z0-9\-]+)] under IGNORECASE
    at the start of the text. *)
Definition id_at (s : pystr) : option pystr :=
  match match_lit (tolower_ext E) id_label s with
  | Some rest => ws_then (id_class (tolower_ext E)) rest
  | None => None
  end.

Definition title_action (title : pystr) : option action :=
  let low := lower (lower_ext E) title in
  if startswith (lit "archive company:") low then Some ArchiveAction
  else if startswith (lit "restore company:") low then Some RestoreAction
  else None.

Definition parse_issue (issue_title issue_body : pystr) : result (action * pystr) :=
  let title := strip issue_title in
  let body := strip issue_body in
  let action := title_action title in
  let company_id := match search id_at body with
                    | Some g => strip g
                    | None => []
                    end in
  match action with
  | Some a => if nonempty company_id then Ok (a, company_id) else Raise parse_error
  | None => Raise parse_error
  end.

(** The loop over the entries: the list after the flag of the first
    entry with that id has been set, or [None] when no entry has it.
    An element that is not a dict has no [get]. *)
Fixpoint set_archived (company_id : pystr) (flag : bool) (sites : list json)
    : result (option (list json)) :=
  match sites with
  | [] => Ok None
  | JObj d :: rest =>
      if eq_str (dict_get (lit "id") d) company_id
      then Ok (Some (JObj (dict_set (lit "archived") (JBool flag) d) :: rest))
      else match set_archived company_id flag rest with
           | Ok (Some rest') => Ok (Some (JObj d :: rest'))
           | Ok None => Ok None
           | Raise e => Raise e
           end
  | _ :: _ => Raise AttributeError
  end.

Definition main : M Z :=
  let issue_title := getenv E (lit "ISSUE_TITLE") in
  let issue_body := getenv E (lit "ISSUE_BODY") in
  let! parsed := lift (parse_issue issue_title issue_body) in
  let '(act, company_id) := parsed in
  let! f := get_fs in
  match sites_file f with
  | None =>
      raise (FileNotFoundError
               (lit "assets/sites.json not found. Run generate_sites.py at least once."))
  | Some text =>
      match json_loads E text with
      | None => raise JSONDecodeError
      | Some (JObj top) =>
          match (match dict_get (lit "sites") top with
                 | Some v => v
                 | None => JArr []
                 end) with
          | JArr sites =>
              let flag := match act with
                          | ArchiveAction => true
                          | RestoreAction => false
                          end in
              let! updated := lift (set_archived company_id flag sites) in
              match updated with
              | None => raise (not_found company_id)
              | Some sites' =>
                  let data := dict_set (lit "sites") (JArr sites')
                                (dict_set (lit "updated") (JStr (today E)) top) in
                  do! write_sites (json_dumps E (JObj data) ++ [newline]) in
                  do! emit (EvPrint (List.map ascii_upper (action_text act)
                                       ++ lit " OK: " ++ company_id)) in
                  ret 0%Z
              end
          | _ =>
              raise (ValueError
                       (lit "assets/sites.json has invalid format (sites is not a list)."))
          end
      | Some _ => raise AttributeError
      end
  end.

End WithEnv.

End Archive.

(** ** generate_sites.py *)

Module Generate.

Definition S3_BASE : pystr :=
  lit "https://sfdcdemoimages.s3.eu-west-1.amazonaws.com".

Definition EXCLUDE : list pystr := [lit ".github"; lit "assets"; lit "scripts"].

(** [detect_company_dirs()]: the folders of ROOT, outside [EXCLUDE],
    that hold an [index.html], sorted. *)
Definition detect_company_dirs (f : fs) : list pystr :=
  sorted
    (List.flat_map
       (fun e => match snd e with
                 | Dir (Some _) =>
                     if existsb (Text.eqb (fst e)) EXCLUDE then [] else [fst e]
                 | _ => []
                 end)
       (root f)).

Section WithEnv.
Variable E : env.

(** [d.title()]: a cased character is put in title case when the
    character before it is not cased, in lower case otherwise.  On
    ASCII the cased characters are the letters; above ASCII the
    Unicode tables decide. *)
Fixpoint title_from (prev_cased : bool) (s : pystr) : pystr :=
  match s with
  | [] => []
  | c :: r =>
      if c <? 128
      then (if prev_cased then ascii_lower c else ascii_upper c)
             :: title_from (is_upper_ascii c || is_lower_ascii c) r
      else title_ext E prev_cased c ++ title_from (cased_ext E c) r
  end.

(** [out[k] = d] *)
Definition existing_set (k : pystr) (d : dict) (out : list (pystr * dict))
    : list (pystr * dict) :=
  if existsb (fun e => Text.eqb k (fst e)) out
  then List.map (fun e => if Text.eqb k (fst e) then (k, d) else e) out
  else out ++ [(k, d)].

(** The loop of [load_existing] over the entries: [out[_id] = s] for
    every entry with a true ["id"].  Only string keys can answer the
    look-ups by folder name, so only they are kept; a list or a dict as
    key is unhashable, and an element that is not a dict has no [get]. *)
Fixpoint index_sites (out : list (pystr * dict)) (sites : list json)
    : result (list (pystr * dict)) :=
  match sites with
  | [] => Ok out
  | JObj d :: rest =>
      match dict_get (lit "id") d with
      | Some (JStr (c :: k)) => index_sites (existing_set (c :: k) d out) rest
      | Some (JArr (_ :: _)) | Some (JObj (_ :: _)) => Raise TypeError
      | _ => index_sites out rest
      end
  | _ :: _ => Raise AttributeError
  end.

(** [load_existing()]: any exception gives the empty mapping. *)
Definition load_existing (f : fs) : list (pystr * dict) :=
  match sites_file f with
  | None => []
  | Some text =>
      match json_loads E text with
      | Some (JObj top) =>
          match py_iter (match dict_get (lit "sites") top with
                         | Some v => v
                         | None => JArr []
                         end) with
          | Ok sites => match index_sites [] sites with
                        | Ok out => out
                        | Raise _ => []
                        end
          | Raise _ => []
          end
      | _ => []
      end
  end.

(** [existing.get(d, {})] *)
Fixpoint existing_get (d : pystr) (existing : list (pystr * dict)) : dict :=
  match existing with
  | [] => []
  | (k, v) :: r => if Text.eqb d k then v else existing_get d r
  end.

(** [old.get(k) or default] *)
Definition get_or (k : pystr) (default : json) (old : dict) : json :=
  match dict_get k old with
  | Some v => if truthy v then v else default
  | None => default
  end.

(** The entry built for the folder [d]. *)
Definition site_dict (existing : list (pystr * dict)) (d : pystr) : dict :=
  let old := existing_get d existing in
    [(lit "id", JStr d);
     (lit "name", get_or (lit "name") (JStr (title_from false (replace1 45 (lit " ") d))) old);
     (lit "path", JStr (lit "/" ++ d ++ lit "/"));
     (lit "description", match dict_get (lit "description") old with
                         | Some v => v
                         | None => JStr []
                         end);
     (lit "tag", get_or (lit "tag") (JStr (lit "Demo")) old);
     (lit "logoUrl", get_or (lit "logoUrl")
                       (JStr (S3_BASE ++ lit "/" ++ d ++ lit "/logo.png")) old);
     (lit "archived", JBool (match dict_get (lit "archived") old with
                             | Some v => truthy v
                             | None => false
                             end))].

Definition site_entry (existing : list (pystr * dict)) (d : pystr) : json :=
  JObj (site_dict existing d).

(** The list of entries of the new manifest. *)
Definition build_sites (f : fs) : list json :=
  List.map (site_entry (load_existing f)) (detect_company_dirs f).

Definition manifest (sites : list json) : json :=
  JObj [(lit "updated", JStr (today E)); (lit "sites", JArr sites)].

(** The document one run prints, from the file system it finds. *)
Definition output (f : fs) : json := manifest (build_sites f).

Definition main : M unit :=
  do! mkdir_assets in
  let! f := get_fs in
  write_sites (json_dumps E (output f) ++ [newline]).

End WithEnv.

End Generate.


(** ** Properties the statements below talk about *)

Module Props.

(** A character of the slug format. *)
Definition slug_ok (c : N) : Prop := Slug.is_slug_char c = true.

(** The slug format: not empty, lower-case letters, digits and hyphens
  only, no hyphen at either end. *)
Definition slug_format (r : pystr) : Prop :=
r <> [] /\ Forall slug_ok r /\ head r <> Some Slug.hyphen
/\ list.last r <> Some Slug.hyphen.


(** The number of requests in a trace. *)
Fixpoint posts (tr : list event) : nat :=
match tr with
| [] => 0
| EvPost _ :: r => S (posts r)
| _ :: r => posts r
end.

(** An entry of the manifest with another id. *)
Definition other_entry (company_id : pystr) (s : json) : Prop :=
exists d, s = JObj d /\ eq_str (dict_get (lit "id") d) company_id = false.

(** No two [x] in a row. *)
Fixpoint no_pair (x : N) (s : pystr) : bool :=
  match s with
  | [] => true
  | a :: r =>
      match r with
      | b :: _ => negb ((a =? x) && (b =? x))
      | [] => true
      end && no_pair x r
  end.

(** No three [x] in a row. *)
Fixpoint no_triple (x : N) (s : pystr) : bool :=
  match s with
  | [] => true
  | a :: r =>
      match r with
      | b :: c :: _ => negb ((a =? x) && (b =? x) && (c =? x))
      | _ => true
      end && no_triple x r
  end.

(** An ASCII character that is neither a letter, nor a digit, nor the
    ampersand: punctuation, a control character or a blank. *)
Definition ascii_mark (c : N) : bool :=
  (c <? 128)
  && negb (is_upper_ascii c || is_lower_ascii c || is_digit c || (c =? Slug.ampersand)).

(** A trace of the retry loop: requests with one sleep between each two,
    and nothing else. *)
Fixpoint polling (tr : list event) : bool :=
  match tr with
  | [] => true
  | EvPost _ :: r =>
      match r with
      | [] => true
      | EvSleep _ :: r' => match r' with [] => false | _ => true end && polling r'
      | _ => false
      end
  | _ => false
  end.

(** A service that is down: every request fails in the network or gets
    a retryable status with no retry-after hint. *)
Definition unavailable (E : env) : Prop :=
  forall n,
    http_post E n = RequestException
    \/ exists r, http_post E n = Response r
                 /\ Create.retryable (status_code r) = true
                 /\ retry_after r = None.

(** The opening brace, with which every placeholder and every block
    marker of a template starts. *)
Definition brace : N := 123.

(** A text without an opening brace. *)
Definition plain (s : pystr) : Prop := Forall (fun c => c <> brace) s.

(** A list of names in ascending order, as [sorted] orders them. *)
Fixpoint ascending (l : list pystr) : bool :=
  match l with
  | [] => true
  | a :: r =>
      match r with
      | b :: _ => Text.leb a b
      | [] => true
      end && ascending r
  end.

(** An entry that [load_existing] can index: a dict whose ["id"] is not a
    list or a dict with elements (those cannot be keys of a dict). *)
Definition indexable (s : json) : bool :=
  match s with
  | JObj d =>
      match dict_get (lit "id") d with
      | Some (JArr (_ :: _)) | Some (JObj (_ :: _)) => false
      | _ => true
      end
  | _ => false
  end.

(** The ["id"] of an entry. *)
Definition entry_id (s : json) : option json :=
  match s with
  | JObj d => dict_get (lit "id") d
  | _ => None
  end.

(** The entry the regeneration gives a folder it knows nothing about. *)
Definition default_entry (E : env) (d : pystr) : json :=
  JObj [(lit "id", JStr d);
        (lit "name", JStr (Generate.title_from E false (replace1 45 (lit " ") d)));
        (lit "path", JStr (lit "/" ++ d ++ lit "/"));
        (lit "description", JStr []);
        (lit "tag", JStr (lit "Demo"));
        (lit "logoUrl", JStr (Generate.S3_BASE ++ lit "/" ++ d ++ lit "/logo.png"));
        (lit "archived", JBool false)].

(** A text of ASCII characters. *)
Definition ascii_text (s : pystr) : Prop := Forall (fun c => c < 128) s.

(** A service that never answers with success and never sends a
    retry-after header: every request fails in the network or gets a
    status outside 200..299. *)
Definition refusing (E : env) : Prop :=
  forall n,
    match http_post E n with
    | RequestException => True
    | Response r =>
        ((200 <=? status_code r) && (status_code r <? 300))%Z = false
        /\ retry_after r = None
    end.

(** Random draws as [random.uniform(0, 0.75)] makes them. *)
Definition drawn (E : env) : Prop :=
  forall n, (0 <= jitter E n)%Q /\ (jitter E n <= 3 # 4)%Q.

(** A trace in which no line is printed. *)
Definition silent (tr : list event) : Prop :=
  Forall (fun e => match e with EvPrint _ => False | _ => True end) tr.

End Props.

Import Props.

(** ** Concrete surroundings, for the examples *)

Module Sample.

Definition quote (s : pystr) : pystr := [34] ++ s ++ [34].

(** A compact printer of JSON documents. *)
Fixpoint show (v : json) : pystr :=
match v with
| JNull => lit "null"
| JBool true => lit "true"
| JBool false => lit "false"
| JNum z => lit (DecimalString.NilZero.string_of_int (Z.to_int z))
| JStr s => quote s
| JArr l =>
    lit "["
    ++ (fix items (l : list json) : pystr :=
          match l with
          | [] => []
          | x :: r => show x ++ match r with [] => [] | _ => lit "," ++ items r end
          end) l
    ++ lit "]"
| JObj d =>
    lit "{"
    ++ (fix fields (d : list (pystr * json)) : pystr :=
          match d with
          | [] => []
          | (k, x) :: r =>
              quote k ++ lit ":" ++ show x
              ++ match r with [] => [] | _ => lit "," ++ fields r end
          end) d
    ++ lit "}"
end.

(** A reader that knows the documents of a given list. *)
Fixpoint read (known : list json) (text : pystr) : option json :=
match known with
| [] => None
| v :: r => if Text.eqb text (show v ++ [newline]) then Some v else read r text
end.

Fixpoint assoc (vars : list (pystr * pystr)) (k : pystr) : option pystr :=
match vars with
| [] => None
| (k', v) :: r => if Text.eqb k k' then Some v else assoc r k
end.

(** Surroundings with the given variables, date, page, responses, number
  reader and known documents; code points above ASCII are left as they
  are, the random draws are zero and there is no browser. *)
Definition surroundings (vars : list (pystr * pystr)) (day : pystr)
  (get : pystr -> result page) (post : nat -> post_result)
  (float : pystr -> option Q) (known : list json) : env :=
mkEnv (fun _ _ c => [c]) (fun c => c) (fun _ c => [c]) (fun _ => false)
      (assoc vars) day get post (fun _ => 0%Q) float (fun _ => NoBrowser)
      show (read known).

Definition no_page : pystr -> result page := fun _ => Raise HTTPError.
Definition no_service : nat -> post_result := fun _ => RequestException.
Definition no_float : pystr -> option Q := fun _ => None.

Definition line_feed : string := String (Ascii.ascii_of_nat 10) EmptyString.

(** A repository with the template folder only. *)
Definition fresh_repo : fs :=
mkFs [(lit "company-template", Dir (Some (lit "<h1>{{COMPANY_NAME}}</h1>")))] None [].

(** A repository where the company of the examples has its folder. *)
Definition acme_repo : fs :=
mkFs [(lit "company-template", Dir (Some (lit "<h1>{{COMPANY_NAME}}</h1>")));
      (lit "acme-and-co", Dir (Some (lit "<h1>Acme</h1>")));
      (lit "assets", Dir None)]
     None [].

(** Creation of a company without a website. *)
Definition create_env : env :=
surroundings [(lit "ISSUE_BODY", lit "**Company name:** Acme & Co")]
  (lit "2024-05-01") no_page no_service no_float [].

Definition acme_request : Create.CompanyRequest :=
Create.mkRequest (lit "Acme & Co") [] (lit "Professional").

(** A service that answers the first request with 429 and a negative
  retry-after hint. *)
Definition hurried_env : env :=
surroundings [(lit "OPENAI_API_KEY", lit "sk-test")] (lit "2024-05-01") no_page
  (fun _ => Response (mkResponse 429 (Some (lit "-1")) JNull))
  (fun s => if Text.eqb s (lit "-1") then Some (-1)%Q else None) [].

(** A body of the shape the script reads. *)
Definition answer : json :=
JObj [(lit "output",
       JArr [JObj [(lit "type", JStr (lit "message"));
                   (lit "content",
                    JArr [JObj [(lit "type", JStr (lit "output_text"));
                                (lit "text", JStr (lit "Acme  makes anvils."))]])]])].

(** A service that is busy twice, asks for two seconds each time, and
  then answers. *)
Definition patient_env : env :=
surroundings [(lit "OPENAI_API_KEY", lit "sk-test")] (lit "2024-05-01") no_page
  (fun n => if (n <? 3)%nat
            then Response (mkResponse 503 (Some (lit "2")) JNull)
            else Response (mkResponse 200 None answer))
  (fun s => if Text.eqb s (lit "2") then Some 2%Q else None) [].

(** A meta description of forty characters, thirty-nine without the
  space at its end. *)
Definition padded_meta : pystr := repeat 97 39 ++ [32].

(** A manifest with one entry, and the issue that archives another. *)
Definition one_entry : dict :=
[(lit "id", JStr (lit "acme")); (lit "name", JStr (lit "Acme"));
 (lit "tag", JStr (lit "Partner")); (lit "archived", JBool false)].

Definition one_manifest : json :=
JObj [(lit "updated", JStr (lit "2024-04-30")); (lit "sites", JArr [JObj one_entry])].

Definition manifest_repo : fs :=
mkFs [(lit "acme", Dir (Some (lit "<h1>Acme</h1>"))); (lit "assets", Dir None)]
     (Some (show one_manifest ++ [newline])) [].

Definition archive_env : env :=
surroundings [(lit "ISSUE_TITLE", lit "Archive company: Globex");
              (lit "ISSUE_BODY", lit "**Company id:** globex")]
  (lit "2024-05-01") no_page no_service no_float [one_manifest].


(** A page whose text is twenty thousand letters, and one whose text is
  twenty thousand characters of which all but two are blanks. *)
Definition long_page : page :=
mkPage None None None (repeat 120 (Z.to_nat 20000)).

Definition sparse_page : page :=
mkPage None None None ([120] ++ repeat 32 (Z.to_nat 19998) ++ [121]).

Definition long_env : env :=
surroundings [] (lit "2024-05-01") (fun _ => Ok long_page) no_service no_float [].

Definition sparse_env : env :=
surroundings [] (lit "2024-05-01") (fun _ => Ok sparse_page) no_service no_float [].

(** Surroundings for two regenerations in a row: the reader knows the
  document the first one prints. *)
Definition regen_repo : fs :=
mkFs [(lit "zeta", Dir (Some (lit "<h1>Zeta</h1>")));
      (lit "acme-and-co", Dir (Some (lit "<h1>Acme</h1>")));
      (lit "scripts", Dir None); (lit "README.md", File)]
     None [].

Definition regen_env : env :=
surroundings [] (lit "2024-05-01") no_page no_service no_float
  [Generate.output
     (surroundings [] (lit "2024-05-01") no_page no_service no_float []) regen_repo].

(** A name of punctuation marks only. *)
Definition marks_only : pystr := lit " ?! -- (#%) ".

(** An issue whose name stands on the line after its label. *)
Definition late_name_body : pystr :=
  lit ("**company NAME:**" ++ line_feed ++ "  Acme & Co " ++ line_feed
       ++ "**Website:** -").

(** Creation of a company whose website cannot be fetched. *)
Definition offline_env : env :=
  surroundings
    [(lit "ISSUE_BODY",
      lit ("**Company name:** Acme & Co" ++ line_feed ++ "**Website:** acme.com"))]
    (lit "2024-05-01") no_page no_service no_float [].

Definition offline_request : Create.CompanyRequest :=
  Create.mkRequest (lit "Acme & Co") (lit "acme.com") (lit "Professional").

(** A page with a short text, some of it blank. *)
Definition short_page : page := mkPage None None None (lit "x   y").

Definition short_env : env :=
  surroundings [] (lit "2024-05-01") (fun _ => Ok short_page) no_service no_float [].

(** A key, and a service that cannot be reached. *)
Definition down_env : env :=
  surroundings [(lit "OPENAI_API_KEY", lit "sk-test")] (lit "2024-05-01") no_page
    no_service no_float [].

(** A browser that gets a block page, and a repository that holds an
    older image of the company. *)
Definition blocked_env : env :=
  mkEnv (fun _ _ c => [c]) (fun c => c) (fun _ c => [c]) (fun _ => false)
        (assoc []) (lit "2024-05-01") no_page no_service (fun _ => 0%Q) no_float
        (fun _ => Loaded 200 (lit "<h1>Access Denied</h1>"))
        show (read []).

Definition stale_repo : fs :=
  mkFs [(lit "company-template", Dir (Some (lit "<h1>{{COMPANY_NAME}}</h1>")));
        (lit "assets", Dir None)]
       None [lit "acme-and-co"].

(** A browser that loads the page. *)
Definition browsing_env : env :=
  mkEnv (fun _ _ c => [c]) (fun c => c) (fun _ c => [c]) (fun _ => false)
        (assoc []) (lit "2024-05-01") no_page no_service (fun _ => 0%Q) no_float
        (fun _ => Loaded 200 (lit "<h1>Acme</h1>"))
        show (read []).

(** The issue that archives the company of the manifest. *)
Definition archive_acme_env : env :=
  surroundings [(lit "ISSUE_TITLE", lit "Archive company: Acme");
                (lit "ISSUE_BODY", lit "**Company id:** acme")]
    (lit "2024-05-01") no_page no_service no_float [one_manifest].

(** A repository with the assets folder and a manifest that does not
    decode. *)
Definition corrupt_repo : fs :=
  mkFs [(lit "acme", Dir (Some (lit "<h1>Acme</h1>"))); (lit "assets", Dir None)]
       (Some (lit "{")) [].

(** The manifest after the company has been archived, the repository
    that holds it, and surroundings whose reader knows it. *)
Definition archived_manifest : json :=
  JObj [(lit "updated", JStr (lit "2024-05-01"));
        (lit "sites", JArr [JObj (dict_set (lit "archived") (JBool true) one_entry)])].

Definition archived_repo : fs :=
  mkFs [(lit "acme", Dir (Some (lit "<h1>Acme</h1>"))); (lit "assets", Dir None)]
       (Some (show archived_manifest ++ [newline])) [].

Definition archived_env : env :=
  surroundings [] (lit "2024-05-02") no_page no_service no_float [archived_manifest].

(** A manifest one of whose entries is a number. *)
Definition damaged_manifest : json :=
  JObj [(lit "updated", JStr (lit "2024-05-01"));
        (lit "sites", JArr [JObj one_entry; JNum 7])].

Definition damaged_repo : fs :=
  mkFs [(lit "acme", Dir (Some (lit "<h1>Acme</h1>"))); (lit "assets", Dir None)]
       (Some (show damaged_manifest ++ [newline])) [].

Definition damaged_env : env :=
  surroundings [] (lit "2024-05-02") no_page no_service no_float [damaged_manifest].

(** A meta description of forty letters. *)
Definition forty_meta : pystr := repeat 97 40.

(** Creation of a company whose website answers, with no key for the
    summary service and no browser. *)
Definition online_env : env :=
  surroundings
    [(lit "ISSUE_BODY",
      lit ("**Company name:** Acme & Co" ++ line_feed ++ "**Website:** acme.com"))]
    (lit "2024-05-01") (fun _ => Ok short_page) no_service no_float [].

(** A key, and a service that is busy once and then refuses the
    request. *)
Definition refused_env : env :=
  surroundings [(lit "OPENAI_API_KEY", lit "sk-test")] (lit "2024-05-01") no_page
    (fun n => if (n <? 2)%nat
              then Response (mkResponse 503 None JNull)
              else Response (mkResponse 401 None JNull))
    no_float [].

End Sample.

(** ** Tactics *)

(** Two different literal keys. *)
Ltac lit_ne := let H := fresh in intros H; vm_compute in H; discriminate H.

(** Comparisons of literal keys, evaluated. *)
Ltac eqb_lit :=
  repeat match goal with
         | |- context [Text.eqb (lit ?a) (lit ?b)] =>
             let v := eval vm_compute in (Text.eqb (lit a) (lit b)) in
             change (Text.eqb (lit a) (lit b)) with v
         end.

(** A field of an entry built by the regeneration. *)
Ltac site_field := unfold Generate.site_dict; cbn [dict_get]; eqb_lit; reflexivity.

(** Boolean comparisons of code points among the hypotheses, as
    propositions. *)
Ltac code_points :=
  repeat match goal with
         | H : (_ && _) = true |- _ => apply andb_true_iff in H as [? ?]
         | H : (_ || _) = false |- _ => apply orb_false_iff in H as [? ?]
         | H : negb _ = true |- _ => apply negb_true_iff in H
         | H : negb _ = false |- _ => apply negb_false_iff in H
         | H : (_ <=? _) = true |- _ => apply N.leb_le in H
         | H : (_ <=? _) = false |- _ => apply N.leb_gt in H
         | H : (_ <? _) = true |- _ => apply N.ltb_lt in H
         | H : (_ <? _) = false |- _ => apply N.ltb_ge in H
         | H : (_ =? _) = true |- _ => apply N.eqb_eq in H
         | H : (_ =? _) = false |- _ => apply N.eqb_neq in H
         | H : (_ && _) = false |- _ => apply andb_false_iff in H as [?|?]
         | H : (_ || _) = true |- _ => apply orb_true_iff in H as [?|?]
         end.

(** A property of every character of a concrete text, checked
    character by character. *)
Ltac each_char :=
  match goal with
  | |- Forall _ ?s =>
      let v := eval vm_compute in s in
      change s with v; repeat (apply Forall_cons; [reflexivity|]); apply Forall_nil
  end.

(** A concrete text without a given character, checked character by
    character. *)
Ltac plain_chars :=
  match goal with
  | |- Forall _ ?s =>
      let v := eval vm_compute in s in
      change s with v; repeat (apply Forall_cons; [discriminate|]); apply Forall_nil
  end.

(** A key that starts at no position of a literal, whatever follows the
    literal: one case per position. *)
Ltac literal_pass :=
  let i := fresh "i" in
  let Hi := fresh "Hi" in
  intros i Hi;
  match type of Hi with
  | (_ < length ?l)%nat =>
      let n := eval vm_compute in (length l) in
      change (length l) with n in Hi
  end;
  repeat (destruct i as [|i]; [reflexivity|]);
  lia.

(** * Lemmas *)
(** ** Facts about texts *)

Section TextFacts.

Lemma eqb_eq (a b : pystr) : Text.eqb a b = true <-> a = b.
Proof. unfold Text.eqb. apply bool_decide_eq_true. Qed.

Lemma eqb_neq (a b : pystr) : Text.eqb a b = false <-> a <> b.
Proof. unfold Text.eqb. apply bool_decide_eq_false. Qed.

Lemma eqb_refl (a : pystr) : Text.eqb a a = true.
Proof. by apply eqb_eq. Qed.

Lemma lstrip_all_space (s : pystr) :
  lstrip s = [] -> Forall (fun c => isspace c = true) s.
Proof.
  induction s as [|c r IH]; simpl; [constructor|].
  destruct (isspace c) eqn:Hc; [|discriminate].
  intros H. constructor; auto.
Qed.

Lemma lstrip_suffix (s : pystr) : exists p, s = p ++ lstrip s.
Proof.
  induction s as [|c r [p Hp]]; simpl.
  - by exists [].
  - destruct (isspace c).
    + exists (c :: p). simpl. by f_equal.
    + by exists [].
Qed.

Lemma lstrip_head (s : pystr) c r : lstrip s = c :: r -> isspace c = false.
Proof.
  induction s as [|x s IH]; simpl; [discriminate|].
  destruct (isspace x) eqn:Hx; [exact IH|].
  intros H. by inversion H; subst.
Qed.

(** Stripping on the left goes through a text that starts with something
    else than white space. *)
Lemma lstrip_app (a r : pystr) c :
  head r = Some c -> isspace c = false -> lstrip (a ++ r) = lstrip a ++ r.
Proof.
  intros Hr Hc. induction a as [|x a IH]; simpl.
  - destruct r as [|y r]; simpl in *; [discriminate|].
    inversion Hr; subst. by rewrite Hc.
  - destruct (isspace x); [exact IH | reflexivity].
Qed.

Lemma lstrip_id (s : pystr) c :
  head s = Some c -> isspace c = false -> lstrip s = s.
Proof.
  destruct s as [|x s]; simpl; [discriminate|].
  intros H Hc. inversion H; subst. by rewrite Hc.
Qed.

Lemma lstrip_snoc (a : pystr) c :
  lstrip (a ++ [c])
  = match lstrip a with
    | [] => if isspace c then [] else [c]
    | r => r ++ [c]
    end.
Proof.
  induction a as [|x a IH]; simpl.
  - by destruct (isspace c).
  - destruct (isspace x); [exact IH | reflexivity].
Qed.

(** Stripping on the right is stripping the reversed text on the left. *)
Lemma rstrip_rev (s : pystr) : rstrip s = rev (lstrip (rev s)).
Proof.
  induction s as [|c r IH]; [reflexivity|].
  simpl. rewrite lstrip_snoc, IH.
  destruct (lstrip (rev r)) as [|y t] eqn:Hl; simpl.
  - by destruct (isspace c).
  - rewrite rev_app_distr. simpl.
    destruct (rev t ++ [y]) eqn:Ht; [|reflexivity].
    by destruct (rev t).
Qed.

Lemma strip_all_space (s : pystr) :
  strip s = [] -> Forall (fun c => isspace c = true) s.
Proof.
  unfold strip. rewrite rstrip_rev. intros H.
  assert (Hl : lstrip (rev (lstrip s)) = []).
  { apply (f_equal (@rev N)) in H. rewrite rev_involutive in H. exact H. }
  apply lstrip_all_space in Hl.
  destruct (lstrip s) as [|c r] eqn:Hs.
  - by apply lstrip_all_space.
  - apply lstrip_head in Hs.
    apply Forall_rev in Hl. rewrite rev_involutive in Hl.
    inversion Hl; subst. congruence.
Qed.

End TextFacts.

(** ** [slugify] *)

Section SlugFacts.
Import Slug.

Lemma sub_runs_chars (b : bool) (s : pystr) : Forall slug_ok (sub_runs b s).
Proof.
  revert b. induction s as [|c r IH]; intros b; simpl; [constructor|].
  destruct (is_alnum c) eqn:Hc.
  - constructor; [|apply IH]. unfold slug_ok, is_slug_char. by rewrite Hc.
  - destruct b; [apply IH|]. constructor; [reflexivity | apply IH].
Qed.

Lemma drop_hyphens_suffix (s : pystr) : exists p, s = p ++ drop_hyphens s.
Proof.
  induction s as [|c r [p Hp]]; simpl.
  - by exists [].
  - destruct (c =? hyphen).
    + exists (c :: p). simpl. by f_equal.
    + by exists [].
Qed.

Lemma drop_hyphens_head (s : pystr) : head (drop_hyphens s) <> Some hyphen.
Proof.
  induction s as [|c r IH]; simpl; [discriminate|].
  destruct (c =? hyphen) eqn:Hc; [exact IH|].
  simpl. intros H. inversion H; subst. by rewrite N.eqb_refl in Hc.
Qed.

Lemma drop_hyphens_chars (s : pystr) :
  Forall slug_ok s -> Forall slug_ok (drop_hyphens s).
Proof.
  intros H. destruct (drop_hyphens_suffix s) as [p Hp].
  rewrite Hp in H. by apply Forall_app in H as [_ H].
Qed.

Lemma sub_edges_chars (s : pystr) :
  Forall slug_ok s -> Forall slug_ok (sub_edges s).
Proof.
  intros H. unfold sub_edges.
  apply Forall_rev, drop_hyphens_chars, Forall_rev, drop_hyphens_chars, H.
Qed.

Lemma last_rev (s : pystr) : list.last (rev s) = head s.
Proof. destruct s as [|c r]; [reflexivity|]. simpl. by rewrite last_snoc. Qed.

Lemma head_rev (s : pystr) : head (rev s) = list.last s.
Proof. rewrite <- (rev_involutive s) at 2. by rewrite last_rev. Qed.

Lemma sub_edges_last (s : pystr) : list.last (sub_edges s) <> Some hyphen.
Proof. unfold sub_edges. rewrite last_rev. apply drop_hyphens_head. Qed.

Lemma sub_edges_head (s : pystr) : head (sub_edges s) <> Some hyphen.
Proof.
  unfold sub_edges. rewrite head_rev.
  set (t := drop_hyphens s).
  destruct (drop_hyphens_suffix (rev t)) as [p Hp].
  set (u := drop_hyphens (rev t)) in *.
  assert (Ht : t = rev u ++ rev p).
  { rewrite <- (rev_involutive t), Hp, rev_app_distr. reflexivity. }
  destruct (rev u) as [|c r] eqn:Hu.
  - apply (f_equal (@rev N)) in Hu. rewrite rev_involutive in Hu.
    rewrite Hu. discriminate.
  - rewrite <- (rev_involutive u), Hu, last_rev. simpl.
    pose proof (drop_hyphens_head s) as Hh. fold t in Hh.
    rewrite Ht in Hh. exact Hh.
Qed.

Lemma slugify_cases lower_ext (s : pystr) :
  (slug_core lower_ext s = [] /\ slugify lower_ext s = lit "company")
  \/ (slug_core lower_ext s <> [] /\ slugify lower_ext s = slug_core lower_ext s).
Proof.
  unfold slugify. destruct (slug_core lower_ext s); [left | right]; done.
Qed.

Lemma company_format : slug_format (lit "company").
Proof.
  repeat split; try discriminate.
  repeat constructor.
Qed.

Lemma slug_core_format lower_ext (s : pystr) :
  slug_core lower_ext s <> [] -> slug_format (slug_core lower_ext s).
Proof.
  intros Hne. split; [exact Hne|]. unfold slug_core. split; [|split].
  - apply sub_edges_chars, sub_runs_chars.
  - apply sub_edges_head.
  - apply sub_edges_last.
Qed.

Lemma slugify_format_all lower_ext (s : pystr) : slug_format (slugify lower_ext s).
Proof.
  destruct (slugify_cases lower_ext s) as [[_ ->]|[Hne ->]].
  - apply company_format.
  - by apply slug_core_format.
Qed.

Lemma slugify_acme lower_ext :
  slugify lower_ext (lit "Acme & Co") = lit "acme-and-co".
Proof. reflexivity. Qed.

End SlugFacts.

(** ** create_company.py: the start of [main] *)

Section CreateFacts.
Import Create.
Variable E : env.

Lemma star_not_space c : isspace c = true -> (c =? 42) = false.
Proof.
  intros H. destruct (c =? 42) eqn:Hc; [|reflexivity].
  apply N.eqb_eq in Hc. subst. discriminate.
Qed.

Lemma lit_ci_star tl c : lit_ci tl 42 c = (c =? 42).
Proof. reflexivity. Qed.

Lemma field_at_space field (s : pystr) :
  Forall (fun c => isspace c = true) s -> field_at E field s = None.
Proof.
  intros H. unfold field_at.
  change (lit "**") with [42; 42].
  destruct s as [|c r]; [reflexivity|].
  inversion H; subst. simpl.
  by rewrite lit_ci_star, star_not_space.
Qed.

Lemma search_field_space field (s : pystr) :
  Forall (fun c => isspace c = true) s -> search (field_at E field) s = None.
Proof.
  induction s as [|c r IH]; intros H.
  - reflexivity.
  - simpl. rewrite field_at_space by exact H.
    inversion H; subst. by apply IH.
Qed.

(** A body that parses is not blank. *)
Lemma parse_issue_body_nonblank body req :
  parse_issue_body E body = Ok req -> nonempty (strip body) = true.
Proof.
  intros H. destruct (strip body) as [|c r] eqn:Hs; [|reflexivity].
  apply strip_all_space in Hs.
  unfold parse_issue_body, find in H.
  rewrite (search_field_space (lit "Company name")) in H by exact Hs.
  discriminate.
Qed.

Lemma fetch_no_url (max_chars : Z) (w : world) :
  fetch_site_text E [] max_chars w = (Ok [[]; []; []], w).
Proof. reflexivity. Qed.

Lemma unpack4_three (a b c : pystr) :
  unpack4 [a; b; c]
  = Raise (ValueError (lit "not enough values to unpack (expected 4, got 3)")).
Proof. reflexivity. Qed.

Lemma create_no_website_run (w : world) (req : CompanyRequest) idx :
  parse_issue_body E (getenv E (lit "ISSUE_BODY")) = Ok req ->
  website req = [] ->
  exists_in_root (Slug.slugify (lower_ext E) (name req)) (w_fs w) = false ->
  lookup_node template_name (root (w_fs w)) = Some (Dir idx) ->
  Create.main E w
  = (Raise (ValueError (lit "not enough values to unpack (expected 4, got 3)")),
     mkWorld
       (mkFs (set_node (Slug.slugify (lower_ext E) (name req)) (Dir idx) (root (w_fs w)))
             (sites_file (w_fs w)) (screenshots (w_fs w)))
       (w_trace w ++ [EvCopyTree (Slug.slugify (lower_ext E) (name req))])).
Proof.
  intros Hp Hweb Hex Htpl. unfold Create.main.
  rewrite (parse_issue_body_nonblank _ _ Hp). simpl.
  rewrite Hp. unfold bind, lift, get_fs. simpl.
  rewrite Hex. unfold exists_in_root. rewrite Htpl. simpl.
  unfold copytree, bind, get_fs, emit, put_fs. simpl. rewrite Htpl. simpl.
  rewrite Hweb. reflexivity.
Qed.

End CreateFacts.

(** ** create_company.py: [fetch_site_text] and [openai_summary] *)

Section SummaryFacts.
Import Create.
Variable E : env.

Lemma clamp_text_long (t : pystr) :
  (12000 < Z.of_nat (length t))%Z ->
  clamp_text 12000 t = take (Z.to_nat 12000) t ++ [ellipsis]
  /\ Z.of_nat (length (clamp_text 12000 t)) = 12001%Z.
Proof.
  intros H. unfold clamp_text, slice_to.
  replace (Z.of_nat (length t) >? 12000)%Z with true
    by (symmetry; apply Z.gtb_lt; lia).
  replace (12000 <? 0)%Z with false by reflexivity.
  split; [reflexivity|].
  rewrite length_app, length_take. simpl length. lia.
Qed.

Lemma clamp_text_short (t : pystr) :
  (Z.of_nat (length t) <= 12000)%Z -> clamp_text 12000 t = t.
Proof.
  intros H. unfold clamp_text.
  replace (Z.of_nat (length t) >? 12000)%Z with false; [reflexivity|].
  symmetry. rewrite Z.gtb_ltb. apply Z.ltb_ge. lia.
Qed.

Lemma fetch_site_text_run url p (w : world) :
  nonempty url = true ->
  http_get E (with_scheme E url) = Ok p ->
  exists title meta og,
    fetch_site_text E url 12000 w
    = (Ok [title; meta; clamp_text 12000 (collapse_text (main_text p)); og],
       mkWorld (w_fs w) (w_trace w ++ [EvGet (with_scheme E url)])).
Proof.
  intros Hu Hg. unfold fetch_site_text. rewrite Hu. simpl.
  unfold bind, emit, lift. simpl. rewrite Hg.
  eexists _, _, _. reflexivity.
Qed.

(** The fall-back text depends on the stripped description only. *)
Lemma fallback_eq company title meta_desc :
  fallback company title meta_desc
  = if (40 <=? length (strip meta_desc))%nat then strip meta_desc
    else if nonempty title
    then name company ++ lit " " ++ [em_dash]
           ++ lit " demo environment based on publicly available information."
    else lit "Demo environment for this company.".
Proof.
  unfold fallback. destruct meta_desc as [|c r]; reflexivity.
Qed.

Lemma openai_summary_no_key company title meta_desc page_text (w : world) :
  strip (getenv E (lit "OPENAI_API_KEY")) = [] ->
  openai_summary E company title meta_desc page_text w
  = (Ok (fallback company title meta_desc), w).
Proof. intros H. unfold openai_summary. rewrite H. reflexivity. Qed.

Lemma sleep_negative (q : Q) (w : world) :
  (q < 0)%Q ->
  sleep q w = (Raise (ValueError (lit "sleep length must be non-negative")), w).
Proof.
  intros H. unfold sleep.
  destruct (Qle_bool 0 q) eqn:Hq; [|reflexivity].
  apply Qle_bool_iff in Hq. exfalso. by apply (Qlt_not_le _ _ H).
Qed.

Lemma sleep_ok (q : Q) (w : world) :
  (0 <= q)%Q -> sleep q w = (Ok tt, mkWorld (w_fs w) (w_trace w ++ [EvSleep q])).
Proof.
  intros H. unfold sleep. apply Qle_bool_iff in H. rewrite H. reflexivity.
Qed.

(** A success response whose body is not a JSON object. *)
Lemma openai_summary_bad_body company title meta_desc page_text (w : world) hdr l :
  strip (getenv E (lit "OPENAI_API_KEY")) <> [] ->
  http_post E 1 = Response (mkResponse 200 hdr (JArr l)) ->
  openai_summary E company title meta_desc page_text w
  = (Raise AttributeError, mkWorld (w_fs w) (w_trace w ++ [EvPost 1])).
Proof.
  intros Hk Hp. unfold openai_summary.
  destruct (strip (getenv E (lit "OPENAI_API_KEY"))) as [|k ks]; [done|].
  simpl. unfold bind at 1. unfold emit at 1. rewrite Hp. reflexivity.
Qed.

Lemma posts_app (a b : list event) : posts (a ++ b) = (posts a + posts b)%nat.
Proof.
  induction a as [|e a IH]; [reflexivity|].
  destruct e; simpl; rewrite IH; reflexivity.
Qed.

Lemma sleep_trace (q : Q) (w w' : world) r :
  sleep q w = (r, w') ->
  w_fs w' = w_fs w /\ exists tr, w_trace w' = w_trace w ++ tr /\ posts tr = 0%nat.
Proof.
  unfold sleep. destruct (Qle_bool 0 q); intros H; inversion H; subst; simpl.
  - split; [reflexivity|]. by exists [EvSleep q].
  - split; [reflexivity|]. exists []. by rewrite app_nil_r.
Qed.

Lemma attempts_trace fb (todo : list nat) :
  forall (w w' : world) r,
    attempts E fb todo w = (r, w') ->
    w_fs w' = w_fs w
    /\ exists tr, w_trace w' = w_trace w ++ tr /\ (posts tr <= length todo)%nat.
Proof.
  induction todo as [|a rest IH]; intros w w' r H.
  - inversion H; subst. split; [reflexivity|]. exists []. rewrite app_nil_r.
    split; [reflexivity | simpl; lia].
  - simpl in H. unfold bind at 1 in H. unfold emit at 1 in H.
    set (w1 := mkWorld (w_fs w) (w_trace w ++ [EvPost a])) in *.
    assert (Hstop : forall x, (x, w1) = (r, w') ->
              w_fs w' = w_fs w
              /\ exists tr, w_trace w' = w_trace w ++ tr
                            /\ (posts tr <= length (a :: rest))%nat).
    { intros x Hx. inversion Hx; subst. split; [reflexivity|].
      exists [EvPost a]. split; [reflexivity | simpl; lia]. }
    assert (Hgo : forall q, bind (sleep q) (fun _ => attempts E fb rest) w1 = (r, w') ->
              w_fs w' = w_fs w
              /\ exists tr, w_trace w' = w_trace w ++ tr
                            /\ (posts tr <= length (a :: rest))%nat).
    { intros q Hq. unfold bind in Hq.
      destruct (sleep q w1) as [[[]|e] w2] eqn:Hs.
      - apply sleep_trace in Hs as [Hf [t1 [Ht1 Hp1]]].
        apply IH in Hq as [Hf' [t2 [Ht2 Hp2]]].
        split; [by rewrite Hf', Hf|].
        exists ([EvPost a] ++ t1 ++ t2). split.
        + rewrite Ht2, Ht1. subst w1. simpl. by rewrite <- !app_assoc.
        + rewrite !posts_app. simpl. lia.
      - apply sleep_trace in Hs as [Hf [t1 [Ht1 Hp1]]].
        inversion Hq; subst. split; [exact Hf|].
        exists ([EvPost a] ++ t1). split.
        + rewrite Ht1. subst w1. simpl. by rewrite <- !app_assoc.
        + rewrite !posts_app. simpl. lia. }
    destruct (http_post E a) as [resp|].
    + destruct ((200 <=? status_code resp)%Z && (status_code resp <? 300)%Z).
      * unfold bind, lift in H.
        destruct (extract_summary (body resp)); by eapply Hstop.
      * destruct (retryable (status_code resp)); [|by eapply Hstop].
        destruct (a <? max_attempts)%nat; [|by eapply Hstop].
        by eapply Hgo.
    + destruct (a <? max_attempts)%nat; [|by eapply Hstop].
      by eapply Hgo.
Qed.

(** At most five requests are made, and nothing is written. *)
Lemma openai_summary_trace company title meta_desc page_text (w w' : world) r :
  openai_summary E company title meta_desc page_text w = (r, w') ->
  w_fs w' = w_fs w
  /\ exists tr, w_trace w' = w_trace w ++ tr /\ (posts tr <= 5)%nat.
Proof.
  unfold openai_summary.
  destruct (negb (nonempty (strip (getenv E (lit "OPENAI_API_KEY"))))).
  - intros H. inversion H; subst. split; [reflexivity|].
    exists []. rewrite app_nil_r. split; [reflexivity | simpl; lia].
  - intros H. by apply attempts_trace in H.
Qed.

Lemma backoff_nonneg (attempt : nat) :
  (0 <= jitter E attempt)%Q -> (0 <= backoff E attempt)%Q.
Proof.
  intros Hj. unfold backoff, base_sleep.
  replace 0%Q with (0 + 0)%Q by reflexivity.
  apply Qplus_le_compat; [|exact Hj].
  apply Qmult_le_0_compat; [discriminate|].
  change 0%Q with (inject_Z 0). rewrite <- Zle_Qle.
  apply Z.pow_nonneg. lia.
Qed.

End SummaryFacts.

Example patient_summary :
  Create.openai_summary Sample.patient_env Sample.acme_request [] [] []
    (mkWorld Sample.fresh_repo [])
  = (Ok (lit "Acme makes anvils."),
     mkWorld Sample.fresh_repo
       [EvPost 1; EvSleep 2; EvPost 2; EvSleep 2; EvPost 3]).
Proof. vm_compute. reflexivity. Qed.


(** ** archive_company.py: [parse_issue] *)

Section StripFacts.

Lemma lstrip_spaces (s : pystr) :
  Forall (fun c => isspace c = true) s -> lstrip s = [].
Proof.
  induction 1 as [|c r Hc _ IH]; simpl; [reflexivity|]. by rewrite Hc.
Qed.

Lemma head_app_ne (a b : pystr) : a <> [] -> head (a ++ b) = head a.
Proof. destruct a; [done | reflexivity]. Qed.

Lemma last_head_rev (s : pystr) : head (rev s) = list.last s.
Proof.
  induction s as [|c r IH] using rev_ind; [reflexivity|].
  by rewrite rev_app_distr, last_snoc.
Qed.

(** Stripping leaves alone a middle part that neither starts nor ends
    with white space. *)
Lemma strip_middle (a m b : pystr) x y :
  head m = Some x -> isspace x = false ->
  list.last m = Some y -> isspace y = false ->
  strip (a ++ m ++ b) = lstrip a ++ m ++ rstrip b.
Proof.
  intros Hx Hxs Hy Hys.
  assert (Hm : m <> []) by (intros ->; discriminate).
  unfold strip.
  rewrite (lstrip_app a (m ++ b) x); [| by rewrite head_app_ne | exact Hxs].
  rewrite !rstrip_rev. rewrite !rev_app_distr, <- app_assoc.
  rewrite (lstrip_app (rev b) (rev m ++ rev (lstrip a)) y); [| |exact Hys].
  - by rewrite !rev_app_distr, !rev_involutive, <- app_assoc.
  - rewrite head_app_ne; [by rewrite last_head_rev|].
    intros H. apply Hm. apply (f_equal (@rev N)) in H.
    by rewrite rev_involutive in H.
Qed.

Lemma rstrip_prefix (s : pystr) : exists q, s = rstrip s ++ q.
Proof.
  rewrite rstrip_rev. destruct (lstrip_suffix (rev s)) as [p Hp].
  exists (rev p). rewrite <- rev_app_distr, <- Hp. by rewrite rev_involutive.
Qed.

Lemma strip_infix (s : pystr) : exists p q, s = p ++ strip s ++ q.
Proof.
  unfold strip. destruct (lstrip_suffix s) as [p Hp].
  destruct (rstrip_prefix (lstrip s)) as [q Hq].
  exists p, q. by rewrite <- Hq.
Qed.

End StripFacts.

Section RegexFacts.
Variable tl : N -> N.

Lemma lit_ci_variant (p c : N) :
  ascii_lower c = ascii_lower p -> lit_ci tl p c = true.
Proof.
  unfold lit_ci, uni_tolower, ascii_lower, is_upper_ascii, is_lower_ascii, in_range.
  intros H.
  repeat match goal with
         | H : context [N.leb ?a ?b] |- _ => destruct (N.leb_spec a b)
         | |- context [N.leb ?a ?b] => destruct (N.leb_spec a b)
         | |- context [N.ltb ?a ?b] => destruct (N.ltb_spec a b)
         end; simpl in *;
    rewrite ?orb_true_iff, ?N.eqb_eq; try lia; left; lia.
Qed.

Lemma match_lit_variant (pat lab rest : pystr) :
  List.map ascii_lower lab = List.map ascii_lower pat ->
  match_lit tl pat (lab ++ rest) = Some rest.
Proof.
  revert lab. induction pat as [|p pat IH]; intros [|c lab] H;
    try discriminate; [reflexivity|].
  simpl in *. inversion H as [[Hc Hr]].
  rewrite (lit_ci_variant p c Hc). by apply IH.
Qed.

(** A literal that fails on a text at least as long as itself fails on
    every extension of the text. *)
Lemma match_lit_none_app (pat a b : pystr) :
  (length pat <= length a)%nat ->
  match_lit tl pat a = None -> match_lit tl pat (a ++ b) = None.
Proof.
  revert a. induction pat as [|p pat IH]; intros [|c a] Hl H; simpl in *;
    try discriminate; try lia.
  destruct (lit_ci tl p c); [|reflexivity]. apply IH; [lia | exact H].
Qed.


Lemma run_exact (cls : N -> bool) (x post : pystr) :
  Forall (fun c => cls c = true) x ->
  (post = [] \/ exists c, head post = Some c /\ cls c = false) ->
  run cls (x ++ post) = x.
Proof.
  intros Hx Hp. induction Hx as [|c r Hc _ IH]; simpl.
  - destruct Hp as [->|[c [Hh Hc]]]; [reflexivity|].
    destruct post as [|d post]; [discriminate|].
    simpl in Hh. inversion Hh; subst. simpl. by rewrite Hc.
  - rewrite Hc. by rewrite IH.
Qed.

Lemma ws_then_skip (cls : N -> bool) (ws s g : pystr) x :
  Forall (fun c => isspace c = true) ws ->
  head s = Some x -> isspace x = false ->
  run1 cls s = Some g ->
  ws_then cls (ws ++ s) = Some g.
Proof.
  intros Hws Hx Hxs Hr. induction Hws as [|c r Hc _ IH]; simpl.
  - destruct s as [|y s]; [discriminate|].
    simpl in Hx. inversion Hx; subst. simpl. rewrite Hxs. exact Hr.
  - rewrite Hc. by rewrite IH.
Qed.

Lemma search_skip {A} (m : pystr -> option A) (a s : pystr) :
  (forall i, (i < length a)%nat -> m (drop i (a ++ s)) = None) ->
  search m (a ++ s) = search m s.
Proof.
  induction a as [|c a IH]; intros H; [reflexivity|].
  assert (H0 : m ((c :: a) ++ s) = None) by (apply (H 0%nat); simpl; lia).
  simpl in *. rewrite H0.
  apply IH. intros i Hi. apply (H (S i)). lia.
Qed.

Lemma search_here {A} (m : pystr -> option A) (s : pystr) x :
  m s = Some x -> search m s = Some x.
Proof. intros H. destruct s; simpl; by rewrite H. Qed.


End RegexFacts.

Section ParseIssueFacts.
Import Archive.
Variable E : env.

Lemma isspace_lower (c : N) : isspace (ascii_lower c) = isspace c.
Proof.
  unfold ascii_lower, is_upper_ascii, in_range.
  destruct (N.leb_spec 65 c); [|reflexivity].
  destruct (N.leb_spec c 90); [|reflexivity]. simpl.
  unfold isspace, in_range.
  repeat match goal with
         | |- context [N.leb ?a ?b] => destruct (N.leb_spec a b); try lia
         | |- context [N.eqb ?a ?b] => destruct (N.eqb_spec a b); try lia
         end; reflexivity.
Qed.

Lemma map_head (f : N -> N) (s : pystr) : head (List.map f s) = f <$> head s.
Proof. by destruct s. Qed.

Lemma map_last (f : N -> N) (s : pystr) : list.last (List.map f s) = f <$> list.last s.
Proof.
  induction s as [|c r IH] using rev_ind; [reflexivity|].
  rewrite List.map_app. simpl. by rewrite !last_snoc.
Qed.

Lemma ascii_lower_ascii (c : N) : ascii_lower c < 128 -> c < 128.
Proof.
  unfold ascii_lower, is_upper_ascii, in_range.
  destruct (N.leb_spec 65 c); destruct (N.leb_spec c 90); simpl; lia.
Qed.

Lemma lower_from_ascii (seen p r : pystr) :
  Forall (fun c => ascii_lower c < 128) p ->
  lower_from (lower_ext E) seen (p ++ r)
  = List.map ascii_lower p ++ lower_from (lower_ext E) (seen ++ p) r.
Proof.
  intros H. revert seen. induction H as [|c p Hc _ IH]; intros seen; simpl.
  - by rewrite app_nil_r.
  - apply ascii_lower_ascii in Hc. apply N.ltb_lt in Hc. rewrite Hc. simpl.
    rewrite IH, <- app_assoc. reflexivity.
Qed.

Lemma startswith_app (p x : pystr) : startswith p (p ++ x) = true.
Proof.
  induction p as [|c p IH]; [reflexivity|]. simpl. by rewrite N.eqb_refl.
Qed.

Lemma Forall_map_ascii (p q : pystr) :
  List.map ascii_lower p = q -> Forall (fun c => c < 128) q ->
  Forall (fun c => ascii_lower c < 128) p.
Proof.
  intros <- H. induction p as [|c p IH]; [constructor|].
  simpl in H. inversion H; subst. constructor; auto.
Qed.

(** The title part of the parser: a case variant of the prefix, after
    any white space, selects the action. *)
Lemma title_action_variant (act : action) (lead p rest : pystr) :
  Forall (fun c => isspace c = true) lead ->
  List.map ascii_lower p = action_text act ++ lit " company:" ->
  title_action E (strip (lead ++ p ++ rest)) = Some act.
Proof.
  intros Hlead Hp.
  assert (Hh : exists x, head p = Some x /\ isspace x = false).
  { pose proof (map_head ascii_lower p) as H. rewrite Hp in H.
    destruct (head p) as [x|]; [|by destruct act].
    exists x. split; [reflexivity|]. rewrite <- isspace_lower.
    by destruct act; inversion H. }
  assert (Hl : exists y, list.last p = Some y /\ isspace y = false).
  { pose proof (map_last ascii_lower p) as H. rewrite Hp in H.
    destruct (list.last p) as [y|]; [|by destruct act].
    exists y. split; [reflexivity|]. rewrite <- isspace_lower.
    by destruct act; inversion H. }
  destruct Hh as [x [Hx Hxs]]. destruct Hl as [y [Hy Hys]].
  rewrite (strip_middle lead p rest x y Hx Hxs Hy Hys).
  rewrite (lstrip_spaces lead Hlead). simpl.
  unfold title_action, lower.
  rewrite lower_from_ascii.
  2:{ apply (Forall_map_ascii _ _ Hp). destruct act; repeat constructor. }
  rewrite Hp. destruct act.
  - change (action_text ArchiveAction ++ lit " company:") with (lit "archive company:").
    by rewrite startswith_app.
  - change (action_text RestoreAction ++ lit " company:") with (lit "restore company:").
    rewrite startswith_app. reflexivity.
Qed.

Lemma slug_char_range (c : N) :
  Slug.is_slug_char c = true ->
  (97 <= c /\ c <= 122) \/ (48 <= c /\ c <= 57) \/ c = 45.
Proof.
  unfold Slug.is_slug_char, Slug.is_alnum, Slug.hyphen,
    is_lower_ascii, is_digit, in_range.
  rewrite !orb_true_iff, !andb_true_iff, !N.leb_le, N.eqb_eq. tauto.
Qed.

Lemma slug_char_id_class (c : N) :
  Slug.is_slug_char c = true -> id_class (tolower_ext E) c = true.
Proof.
  intros H. apply slug_char_range in H.
  assert (Hl : uni_tolower (tolower_ext E) c = c).
  { unfold uni_tolower, ascii_lower, is_upper_ascii, in_range.
    destruct (N.ltb_spec c 128); [|lia].
    destruct (N.leb_spec 65 c); destruct (N.leb_spec c 90); simpl; lia. }
  unfold id_class. rewrite Hl.
  unfold is_lower_ascii, is_digit, in_range.
  repeat match goal with
         | |- context [N.leb ?a ?b] => destruct (N.leb_spec a b); try lia
         | |- context [N.eqb ?a ?b] => destruct (N.eqb_spec a b); try lia
         end; simpl; try reflexivity; try lia.
Qed.

Lemma slug_char_not_space (c : N) :
  Slug.is_slug_char c = true -> isspace c = false.
Proof.
  intros H. apply slug_char_range in H.
  unfold isspace, in_range.
  repeat match goal with
         | |- context [N.leb ?a ?b] => destruct (N.leb_spec a b); try lia
         | |- context [N.eqb ?a ?b] => destruct (N.eqb_spec a b); try lia
         end; simpl; try reflexivity; try lia.
Qed.

End ParseIssueFacts.

Section ParseIssueMain.
Import Archive.
Variable E : env.

Lemma id_class_newline : id_class (tolower_ext E) newline = false.
Proof. reflexivity. Qed.

Lemma strip_slug (x : pystr) :
  Forall slug_ok x -> strip x = x.
Proof.
  intros H. destruct x as [|c r] eqn:Hx; [reflexivity|]. rewrite <- Hx.
  assert (Hh : exists a, head x = Some a /\ isspace a = false).
  { subst. exists c. inversion H; subst. split; [reflexivity|].
    by apply slug_char_not_space. }
  assert (Hl : exists b, list.last x = Some b /\ isspace b = false).
  { destruct (list.last x) as [b|] eqn:Hb.
    - exists b. split; [reflexivity|]. apply slug_char_not_space.
      rewrite <- Hx in H. rewrite Forall_forall in H. apply H.
      by apply list_elem_of_In, last_Some_elem_of.
    - apply last_None in Hb. congruence. }
  destruct Hh as [a [Ha Has]]. destruct Hl as [b [Hb Hbs]].
  pose proof (strip_middle [] x [] a b Ha Has Hb Hbs) as Hs.
  simpl in Hs. rewrite app_nil_r in Hs. exact Hs.
Qed.

Lemma id_at_label (lab ws x post : pystr) :
  List.map ascii_lower lab = List.map ascii_lower id_label ->
  Forall (fun c => isspace c = true) ws ->
  x <> [] -> Forall slug_ok x ->
  (post = [] \/ head post = Some newline) ->
  id_at E (lab ++ ws ++ x ++ post) = Some x.
Proof.
  intros Hlab Hws Hne Hx Hpost. unfold id_at.
  rewrite (match_lit_variant _ _ _ _ Hlab).
  destruct x as [|c r] eqn:Hxe; [done|]. rewrite <- Hxe in *.
  apply (ws_then_skip _ ws (x ++ post) x c); auto.
  - subst. reflexivity.
  - apply slug_char_not_space. subst. by inversion Hx.
  - unfold run1. rewrite run_exact.
    + subst. reflexivity.
    + eapply List.Forall_impl; [|exact Hx]. intros a Ha. by apply slug_char_id_class.
    + destruct Hpost as [->|Hp]; [by left|]. right.
      exists newline. split; [exact Hp | apply id_class_newline].
Qed.

Lemma id_at_before (pre lab tail : pystr) :
  length lab = length id_label ->
  (forall i, (i < length pre)%nat ->
             match_lit (tolower_ext E) id_label (drop i (pre ++ lab)) = None) ->
  forall i, (i < length pre)%nat -> id_at E (drop i (pre ++ lab ++ tail)) = None.
Proof.
  intros Hlen H i Hi. unfold id_at.
  rewrite app_assoc, skipn_app.
  rewrite match_lit_none_app; [reflexivity| |by apply H].
  rewrite length_skipn, length_app. lia.
Qed.

(** The parser on an issue whose first labelled line carries the id. *)
Lemma parse_issue_first (act : action) (lead p rest pre lab ws x post : pystr) :
  Forall (fun c => isspace c = true) lead ->
  List.map ascii_lower p = action_text act ++ lit " company:" ->
  List.map ascii_lower lab = List.map ascii_lower id_label ->
  Forall (fun c => isspace c = true) ws ->
  x <> [] -> Forall slug_ok x ->
  (post = [] \/ head post = Some newline) ->
  (forall i, (i < length pre)%nat ->
             match_lit (tolower_ext E) id_label (drop i (pre ++ lab)) = None) ->
  parse_issue E (lead ++ p ++ rest) (pre ++ lab ++ ws ++ x ++ post) = Ok (act, x).
Proof.
  intros Hlead Hp Hlab Hws Hne Hx Hpost Hfirst. unfold parse_issue.
  rewrite (title_action_variant E act lead p rest Hlead Hp).
  assert (Hlen : length lab = length id_label).
  { apply (f_equal (@length N)) in Hlab. by rewrite !length_map in Hlab. }
  (* the body after stripping *)
  assert (Hh : exists a, head (lab ++ ws ++ x) = Some a /\ isspace a = false).
  { pose proof (map_head ascii_lower lab) as H. rewrite Hlab in H.
    change (head (List.map ascii_lower id_label)) with (Some 42) in H.
    destruct lab as [|a lab]; [discriminate|]. exists a. split; [reflexivity|].
    rewrite <- isspace_lower. simpl in H. by inversion H. }
  assert (Hl : exists b, list.last (lab ++ ws ++ x) = Some b /\ isspace b = false).
  { rewrite !app_assoc. rewrite last_app.
    destruct (list.last x) as [b|] eqn:Hb.
    - exists b. split; [reflexivity|]. apply slug_char_not_space.
      rewrite Forall_forall in Hx. apply Hx.
      by apply list_elem_of_In, last_Some_elem_of.
    - apply last_None in Hb. congruence. }
  destruct Hh as [a [Ha Has]]. destruct Hl as [b [Hb Hbs]].
  replace (pre ++ lab ++ ws ++ x ++ post) with (pre ++ (lab ++ ws ++ x) ++ post)
    by (by rewrite <- !app_assoc).
  rewrite (strip_middle pre (lab ++ ws ++ x) post a b Ha Has Hb Hbs).
  rewrite <- !app_assoc.
  destruct (lstrip_suffix pre) as [q Hq].
  set (lp := lstrip pre) in *. clearbody lp. subst pre.
  assert (Hpost' : rstrip post = [] \/ head (rstrip post) = Some newline).
  { destruct Hpost as [->|Hpn]; [by left|].
    destruct (rstrip_prefix post) as [t Ht].
    destruct (rstrip post) as [|d r]; [by left|]. right.
    rewrite Ht in Hpn. exact Hpn. }
  rewrite search_skip.
  - rewrite (search_here _ _ x); [|by apply id_at_label].
    rewrite (strip_slug x Hx).
    destruct x; [done | reflexivity].
  - intros i Hi. apply id_at_before; [exact Hlen| |exact Hi].
    intros j Hj.
    specialize (Hfirst (length q + j)%nat).
    rewrite <- app_assoc in Hfirst.
    rewrite skipn_app in Hfirst.
    replace (length q + j - length q)%nat with j in Hfirst by lia.
    rewrite skipn_all2, app_nil_l in Hfirst by lia.
    apply Hfirst. rewrite length_app. lia.
Qed.



End ParseIssueMain.

(** ** Dicts *)

Section DictFacts.

Lemma dict_get_set_eq (k : pystr) (v : json) (d : dict) :
  dict_get k (dict_set k v d) = Some v.
Proof.
  induction d as [|[k' v'] r IH]; simpl.
  - by rewrite eqb_refl.
  - destruct (Text.eqb k k') eqn:Hk; simpl; rewrite ?eqb_refl, ?Hk; auto.
Qed.

Lemma dict_get_set_ne (k k' : pystr) (v : json) (d : dict) :
  k <> k' -> dict_get k' (dict_set k v d) = dict_get k' d.
Proof.
  intros Hne. induction d as [|[k0 v0] r IH]; simpl.
  - apply eqb_neq in Hne. destruct (Text.eqb k' k) eqn:H; [|reflexivity].
    apply eqb_eq in H. subst. by rewrite eqb_refl in Hne.
  - destruct (Text.eqb k k0) eqn:Hk; simpl.
    + apply eqb_eq in Hk. subst k0.
      destruct (Text.eqb k' k) eqn:H; [|reflexivity].
      apply eqb_eq in H. congruence.
    + destruct (Text.eqb k' k0); auto.
Qed.

Lemma dict_get_setdefault_eq (k : pystr) (v : json) (d : dict) :
  dict_get k (dict_setdefault k v d) = Some (default v (dict_get k d)).
Proof.
  unfold dict_setdefault. destruct (dict_get k d) as [x|] eqn:H; simpl.
  - exact H.
  - apply dict_get_set_eq.
Qed.

Lemma dict_get_setdefault_ne (k k' : pystr) (v : json) (d : dict) :
  k <> k' -> dict_get k' (dict_setdefault k v d) = dict_get k' d.
Proof.
  intros Hne. unfold dict_setdefault. destruct (dict_get k d); [reflexivity|].
  by apply dict_get_set_ne.
Qed.

End DictFacts.

(** ** archive_company.py: [main] *)

Section ArchiveFacts.
Import Archive.
Variable E : env.

Lemma set_archived_absent company_id flag (sites : list json) :
  Forall (other_entry company_id) sites ->
  set_archived company_id flag sites = Ok None.
Proof.
  induction 1 as [|s r [d [-> Hd]] _ IH]; simpl; [reflexivity|].
  by rewrite Hd, IH.
Qed.

(** No failing run of the script writes anything. *)
Lemma archive_error_no_write (w w' : world) e :
  Archive.main E w = (Raise e, w') -> w' = w.
Proof.
  unfold Archive.main, bind, lift, get_fs, raise.
  destruct (parse_issue _ _ _) as [[act cid]|e0]; [|by inversion 1].
  destruct (sites_file (w_fs w)) as [text|]; [|by inversion 1].
  destruct (json_loads E text) as [[| | | | |top]|]; try by inversion 1.
  destruct (match dict_get (lit "sites") top with Some v => v | None => JArr [] end);
    try by inversion 1.
  destruct (set_archived _ _ _) as [[sites'|]|e0]; try by inversion 1.
Qed.

End ArchiveFacts.

(** ** create_company.py: [upsert_sites_json] *)

Section UpsertFacts.
Import Create.
Variable E : env.

Lemma find_site_first (slug : pystr) (sites : list json) :
  forall (i k : nat) (d : dict),
    sites !! i = Some (JObj d) ->
    eq_str (dict_get (lit "id") d) slug = true ->
    (forall j s, (j < i)%nat -> sites !! j = Some s -> other_entry slug s) ->
    find_site slug k sites = Ok (Some ((k + i)%nat, d)).
Proof.
  induction sites as [|s r IH]; intros i k d Hi Hd Hmin; [done|].
  destruct i as [|i]; simpl in Hi.
  - inversion Hi; subst. simpl. rewrite Hd. by rewrite Nat.add_0_r.
  - destruct (Hmin 0%nat s) as [d0 [-> Hd0]]; [lia | reflexivity |].
    simpl. rewrite Hd0.
    rewrite (IH i (S k) d Hi Hd).
    + do 3 f_equal. lia.
    + intros j s Hj Hs. apply (Hmin (S j)); [lia | exact Hs].
Qed.

Lemma fill_entry_name slug nm sm d :
  dict_get (lit "name") (fill_entry slug nm sm d) = Some (JStr nm).
Proof.
  unfold fill_entry.
  rewrite !dict_get_setdefault_ne by lit_ne.
  rewrite dict_get_set_ne by lit_ne. apply dict_get_set_eq.
Qed.

Lemma fill_entry_description slug nm sm d :
  dict_get (lit "description") (fill_entry slug nm sm d) = Some (JStr sm).
Proof.
  unfold fill_entry.
  rewrite !dict_get_setdefault_ne by lit_ne. apply dict_get_set_eq.
Qed.

Lemma fill_entry_tag slug nm sm d :
  dict_get (lit "tag") (fill_entry slug nm sm d)
  = Some (default (JStr (lit "Demo")) (dict_get (lit "tag") d)).
Proof.
  unfold fill_entry.
  rewrite dict_get_setdefault_ne by lit_ne.
  rewrite dict_get_setdefault_eq.
  by rewrite !dict_get_set_ne by lit_ne.
Qed.

Lemma fill_entry_logo slug nm sm d :
  dict_get (lit "logoUrl") (fill_entry slug nm sm d)
  = Some (default (JStr (S3_BASE ++ lit "/" ++ slug ++ lit "/logo.png"))
            (dict_get (lit "logoUrl") d)).
Proof.
  unfold fill_entry.
  rewrite dict_get_setdefault_eq.
  rewrite dict_get_setdefault_ne by lit_ne.
  by rewrite !dict_get_set_ne by lit_ne.
Qed.

Lemma fill_entry_other slug nm sm d k :
  k <> lit "name" -> k <> lit "description" ->
  k <> lit "tag" -> k <> lit "logoUrl" ->
  dict_get k (fill_entry slug nm sm d) = dict_get k d.
Proof.
  intros H1 H2 H3 H4. unfold fill_entry.
  rewrite !dict_get_setdefault_ne by congruence.
  by rewrite !dict_get_set_ne by congruence.
Qed.

Lemma upsert_existing_run (w : world) slug nm sm idx text top sites i d :
  lookup_node (lit "assets") (root (w_fs w)) = Some (Dir idx) ->
  sites_file (w_fs w) = Some text ->
  json_loads E text = Some (JObj top) ->
  dict_get (lit "sites") top = Some (JArr sites) ->
  sites !! i = Some (JObj d) ->
  eq_str (dict_get (lit "id") d) slug = true ->
  (forall j s, (j < i)%nat -> sites !! j = Some s -> other_entry slug s) ->
  let top' := dict_set (lit "sites")
                (JArr (<[i := JObj (fill_entry slug nm sm d)]> sites))
                (dict_set (lit "updated") (JStr (today E)) top) in
  let text' := json_dumps E (JObj top') ++ [newline] in
  upsert_sites_json E slug nm sm w
  = (Ok tt,
     mkWorld (mkFs (root (w_fs w)) (Some text') (screenshots (w_fs w)))
             (w_trace w ++ [EvWrite (lit "assets/sites.json") text'])).
Proof.
  intros Ha Hf Hl Hs Hi Hd Hmin top' text'.
  unfold upsert_sites_json, bind, mkdir_assets, bind, get_fs, lift. simpl.
  rewrite Ha. simpl.
  unfold initial_manifest. rewrite Hf, Hl.
  unfold upsert_value. rewrite Hs.
  rewrite (find_site_first slug sites i 0 d Hi Hd Hmin). simpl.
  reflexivity.
Qed.

Lemma fill_entry_id slug nm sm (d : dict) :
  dict_get (lit "id") (fill_entry slug nm sm d) = dict_get (lit "id") d.
Proof. apply fill_entry_other; lit_ne. Qed.

(** What [find_site] found is the first entry with the id. *)
Lemma find_site_found (slug : pystr) (sites : list json) :
  forall (k j : nat) (d : dict),
    find_site slug k sites = Ok (Some (j, d)) ->
    exists i, j = (k + i)%nat
              /\ sites !! i = Some (JObj d)
              /\ eq_str (dict_get (lit "id") d) slug = true
              /\ forall i' s, (i' < i)%nat -> sites !! i' = Some s -> other_entry slug s.
Proof.
  induction sites as [|s r IH]; intros k j d H; [discriminate|].
  destruct s as [| | | | |d0]; try discriminate.
  simpl in H. destruct (eq_str (dict_get (lit "id") d0) slug) eqn:Hd0.
  - injection H as <- <-. exists 0%nat. split; [lia|]. split; [reflexivity|].
    split; [exact Hd0|]. intros i' s Hi'. lia.
  - apply IH in H as [i [-> [Hi [Hd Hmin]]]].
    exists (S i). split; [lia|]. split; [exact Hi|]. split; [exact Hd|].
    intros [|i'] s Hlt Hs.
    + injection Hs as <-. by exists d0.
    + apply (Hmin i' s); [lia | exact Hs].
Qed.

Lemma new_entry_id slug :
  eq_str (dict_get (lit "id") (new_entry slug)) slug = true.
Proof.
  unfold new_entry. cbn [dict_get]. rewrite eqb_refl. simpl. apply eqb_refl.
Qed.

End UpsertFacts.

(** ** generate_sites.py *)

Section GenerateFacts.
Import Generate.
Variable E : env.

Lemma existing_get_app_absent k (a b : list (pystr * dict)) :
  existsb (fun e => Text.eqb k (fst e)) a = false ->
  existing_get k (a ++ b) = existing_get k b.
Proof.
  induction a as [|[k0 v0] r IH]; simpl; [reflexivity|].
  destruct (Text.eqb k k0); simpl; [discriminate | exact IH].
Qed.

Lemma existing_get_set_eq k d (out : list (pystr * dict)) :
  existing_get k (existing_set k d out) = d.
Proof.
  unfold existing_set.
  destruct (existsb (fun e => Text.eqb k (fst e)) out) eqn:Hex.
  - induction out as [|[k0 v0] r IH]; simpl in *; [discriminate|].
    destruct (Text.eqb k k0) eqn:Hk; simpl.
    + by rewrite eqb_refl.
    + rewrite Hk. by apply IH.
  - rewrite existing_get_app_absent by exact Hex. simpl. by rewrite eqb_refl.
Qed.

Lemma existing_get_set_ne k k' d (out : list (pystr * dict)) :
  k <> k' -> existing_get k' (existing_set k d out) = existing_get k' out.
Proof.
  intros Hne. unfold existing_set.
  assert (Hkk : Text.eqb k' k = false) by (apply eqb_neq; congruence).
  destruct (existsb (fun e => Text.eqb k (fst e)) out) eqn:Hex.
  - clear Hex. induction out as [|[k0 v0] r IH]; simpl; [reflexivity|].
    destruct (Text.eqb k k0) eqn:Hk; simpl.
    + apply eqb_eq in Hk. subst k0. by rewrite Hkk.
    + destruct (Text.eqb k' k0); auto.
  - clear Hex. induction out as [|[k0 v0] r IH]; simpl.
    + by rewrite Hkk.
    + destruct (Text.eqb k' k0); auto.
Qed.

Lemma site_dict_id ex (d : pystr) :
  dict_get (lit "id") (site_dict E ex d) = Some (JStr d).
Proof. reflexivity. Qed.

(** Indexing the entries built for a list of folders. *)
Lemma index_sites_built ex (dirs : list pystr) :
  Forall (fun d => d <> []) dirs ->
  forall out,
    index_sites out (List.map (site_entry E ex) dirs)
    = Ok (fold_left (fun o d => existing_set d (site_dict E ex d) o) dirs out).
Proof.
  induction 1 as [|d r Hd _ IH]; intros out; [reflexivity|].
  cbn [List.map index_sites site_entry]. rewrite site_dict_id.
  destruct d as [|c k]; [done|]. apply IH.
Qed.

Lemma existing_get_built ex (dirs : list pystr) (x : pystr) :
  forall out,
    existing_get x (fold_left (fun o d => existing_set d (site_dict E ex d) o) dirs out)
    = if bool_decide (x ∈ dirs) then site_dict E ex x else existing_get x out.
Proof.
  induction dirs as [|d r IH]; intros out; cbn [fold_left].
  - case_bool_decide as Hx; [by apply elem_of_nil in Hx | reflexivity].
  - rewrite IH. repeat case_bool_decide; try reflexivity.
    + exfalso. match goal with H : _ ∉ _ |- _ => apply H end. by right.
    + match goal with H : x ∈ d :: r |- _ => apply elem_of_cons in H as [->|?] end;
        [apply existing_get_set_eq | done].
    + apply existing_get_set_ne. intros ->.
      match goal with H : _ ∉ _ :: _ |- _ => apply H end. by left.
Qed.

Lemma get_or_idem k default (old built : dict) :
  dict_get k built = Some (get_or k default old) ->
  get_or k default built = get_or k default old.
Proof.
  intros H. unfold get_or at 1. rewrite H.
  destruct (truthy (get_or k default old)) eqn:Ht; [reflexivity|].
  unfold get_or in *. destruct (dict_get k old) as [v|]; [|reflexivity].
  destruct (truthy v) eqn:Hv; [congruence | reflexivity].
Qed.

Lemma site_dict_name ex (d : pystr) :
  dict_get (lit "name") (site_dict E ex d)
  = Some (get_or (lit "name") (JStr (title_from E false (replace1 45 (lit " ") d)))
            (existing_get d ex)).
Proof. site_field. Qed.

Lemma site_dict_description ex (d : pystr) :
  dict_get (lit "description") (site_dict E ex d)
  = Some (default (JStr []) (dict_get (lit "description") (existing_get d ex))).
Proof.
  unfold site_dict; cbn [dict_get]; eqb_lit.
  by destruct (dict_get (lit "description") (existing_get d ex)).
Qed.

Lemma site_dict_tag ex (d : pystr) :
  dict_get (lit "tag") (site_dict E ex d)
  = Some (get_or (lit "tag") (JStr (lit "Demo")) (existing_get d ex)).
Proof. site_field. Qed.

Lemma site_dict_logo ex (d : pystr) :
  dict_get (lit "logoUrl") (site_dict E ex d)
  = Some (get_or (lit "logoUrl") (JStr (S3_BASE ++ lit "/" ++ d ++ lit "/logo.png"))
            (existing_get d ex)).
Proof. site_field. Qed.

Lemma site_dict_archived ex (d : pystr) :
  dict_get (lit "archived") (site_dict E ex d)
  = Some (JBool (match dict_get (lit "archived") (existing_get d ex) with
                 | Some v => truthy v
                 | None => false
                 end)).
Proof. site_field. Qed.

(** Rebuilding an entry from itself gives the same entry. *)
Lemma site_dict_fixed ex ex' (d : pystr) :
  existing_get d ex' = site_dict E ex d ->
  site_dict E ex' d = site_dict E ex d.
Proof.
  intros H. unfold site_dict at 1. rewrite H.
  rewrite (get_or_idem (lit "name") _ (existing_get d ex)) by apply site_dict_name.
  rewrite (get_or_idem (lit "tag") _ (existing_get d ex)) by apply site_dict_tag.
  rewrite (get_or_idem (lit "logoUrl") _ (existing_get d ex)) by apply site_dict_logo.
  rewrite site_dict_description, site_dict_archived.
  unfold site_dict.
  by destruct (dict_get (lit "description") (existing_get d ex)).
Qed.

Lemma build_fixed ex ex' (dirs : list pystr) :
  Forall (fun d => existing_get d ex' = site_dict E ex d) dirs ->
  List.map (site_entry E ex') dirs = List.map (site_entry E ex) dirs.
Proof.
  induction 1 as [|d r Hd _ IH]; [reflexivity|]. simpl.
  unfold site_entry at 1 3. by rewrite (site_dict_fixed ex ex' d Hd), IH.
Qed.

Lemma insert_sorted_Forall (P : pystr -> Prop) x (l : list pystr) :
  P x -> Forall P l -> Forall P (insert_sorted x l).
Proof.
  intros Hx. induction 1 as [|y r Hy Hr IH]; simpl.
  - by repeat constructor.
  - destruct (leb x y); repeat constructor; auto.
Qed.

Lemma sorted_Forall (P : pystr -> Prop) (l : list pystr) :
  Forall P l -> Forall P (sorted l).
Proof.
  induction 1 as [|x r Hx _ IH]; simpl; [constructor|].
  by apply insert_sorted_Forall.
Qed.

Lemma detect_nonempty (f : fs) :
  Forall (fun e => fst e <> []) (root f) ->
  Forall (fun d => d <> []) (detect_company_dirs f).
Proof.
  intros H. unfold detect_company_dirs. apply sorted_Forall.
  induction H as [|[n x] r Hn _ IH]; simpl; [constructor|].
  apply Forall_app. split; [|exact IH].
  destruct x as [|[html|]]; try constructor.
  match goal with |- context [if ?b then _ else _] => destruct b end;
    repeat constructor.
  exact Hn.
Qed.

Lemma detect_with_assets (f : fs) :
  detect_company_dirs (with_assets f) = detect_company_dirs f.
Proof.
  unfold detect_company_dirs, with_assets. simpl.
  by rewrite flat_map_app, app_nil_r.
Qed.

Lemma lookup_node_app_absent nm (a b : list (pystr * node)) :
  lookup_node nm a = None -> lookup_node nm (a ++ b) = lookup_node nm b.
Proof.
  induction a as [|[n x] r IH]; simpl; [reflexivity|].
  destruct (Text.eqb nm n); [discriminate | exact IH].
Qed.

End GenerateFacts.

Section GenerateRuns.
Import Generate.
Variable E : env.

Lemma site_entry_today day ex (x : pystr) :
  site_entry (set_today day E) ex x = site_entry E ex x.
Proof. reflexivity. Qed.

Lemma load_existing_today day (f : fs) :
  load_existing (set_today day E) f = load_existing E f.
Proof. reflexivity. Qed.

Lemma build_sites_today day (f : fs) :
  build_sites (set_today day E) f = build_sites E f.
Proof. reflexivity. Qed.

Lemma build_sites_ext (f g : fs) :
  detect_company_dirs f = detect_company_dirs g ->
  sites_file f = sites_file g ->
  build_sites E f = build_sites E g.
Proof.
  intros Hd Hs. unfold build_sites, load_existing. by rewrite Hd, Hs.
Qed.

(** One run: it succeeds when nothing but a folder is in the way of
    the assets folder, and leaves the printed document in the file. *)
Lemma generate_main_run (w : world) :
  lookup_node (lit "assets") (root (w_fs w)) <> Some File ->
  exists w',
    Generate.main E w = (Ok tt, w')
    /\ sites_file (w_fs w')
       = Some (json_dumps E (manifest E (build_sites E (w_fs w))) ++ [newline])
    /\ detect_company_dirs (w_fs w') = detect_company_dirs (w_fs w)
    /\ lookup_node (lit "assets") (root (w_fs w')) <> Some File.
Proof.
  intros Ha. unfold Generate.main, mkdir_assets, bind, get_fs.
  destruct (lookup_node (lit "assets") (root (w_fs w))) as [[|idx]|] eqn:Hl;
    [done| |].
  - eexists. split; [reflexivity|]. simpl. rewrite Hl. by repeat split.
  - eexists. split; [reflexivity|]. simpl. split; [|split].
    + unfold output. do 4 f_equal.
      apply build_sites_ext; [apply detect_with_assets | reflexivity].
    + apply detect_with_assets.
    + rewrite lookup_node_app_absent by exact Hl. simpl. discriminate.
Qed.

(** The second of two runs in a row rebuilds the entries of the first. *)
Lemma build_sites_again (f g : fs) day :
  Forall (fun e => fst e <> []) (root f) ->
  detect_company_dirs g = detect_company_dirs f ->
  sites_file g
    = Some (json_dumps E (manifest (set_today day E) (build_sites E f)) ++ [newline]) ->
  json_loads E (json_dumps E (manifest (set_today day E) (build_sites E f)) ++ [newline])
    = Some (manifest (set_today day E) (build_sites E f)) ->
  build_sites E g = build_sites E f.
Proof.
  intros Hne Hd Hs Hrt.
  unfold build_sites at 1. rewrite Hd.
  unfold build_sites. apply build_fixed.
  assert (Hex : load_existing E g
                = fold_left (fun o d => existing_set d (site_dict E (load_existing E f) d) o)
                    (detect_company_dirs f) []).
  { unfold load_existing at 1. rewrite Hs, Hrt.
    unfold manifest. cbn [dict_get].
    change (Text.eqb (lit "sites") (lit "updated")) with false.
    change (Text.eqb (lit "sites") (lit "sites")) with true.
    cbn [py_iter]. unfold build_sites.
    rewrite index_sites_built; [reflexivity|].
    by apply detect_nonempty. }
  rewrite Hex. apply Forall_forall. intros d Hin.
  rewrite existing_get_built. rewrite bool_decide_eq_true_2; [reflexivity|].
  by apply list_elem_of_In.
Qed.

End GenerateRuns.

(** ** More about stripping *)

Section StripMore.

Lemma lstrip_lstrip (s : pystr) : lstrip (lstrip s) = lstrip s.
Proof.
  induction s as [|c r IH]; [reflexivity|].
  simpl. destruct (isspace c) eqn:Hc; [exact IH|].
  simpl. by rewrite Hc.
Qed.

Lemma rstrip_rstrip (s : pystr) : rstrip (rstrip s) = rstrip s.
Proof. by rewrite !rstrip_rev, rev_involutive, lstrip_lstrip. Qed.

Lemma rstrip_cons (c : N) (r : pystr) :
  isspace c = false -> exists t, rstrip (c :: r) = c :: t.
Proof.
  intros Hc. simpl. destruct (rstrip r) as [|y t].
  - rewrite Hc. by exists [].
  - by exists (y :: t).
Qed.

Lemma lstrip_rstrip_lstrip (s : pystr) : lstrip (rstrip (lstrip s)) = rstrip (lstrip s).
Proof.
  destruct (lstrip s) as [|c r] eqn:Hs; [reflexivity|].
  pose proof (lstrip_head s c r Hs) as Hc.
  destruct (rstrip_cons c r Hc) as [t Ht]. rewrite Ht.
  simpl. by rewrite Hc.
Qed.

(** Stripping twice is stripping once. *)
Lemma strip_strip (s : pystr) : strip (strip s) = strip s.
Proof. unfold strip. by rewrite lstrip_rstrip_lstrip, rstrip_rstrip. Qed.

Lemma strip_head_kept (c : N) (r : pystr) :
  isspace c = false -> exists t, strip (c :: r) = c :: t.
Proof.
  intros Hc. unfold strip.
  rewrite (lstrip_id (c :: r) c eq_refl Hc). by apply rstrip_cons.
Qed.

Lemma rstrip_length (s : pystr) : (length (rstrip s) <= length s)%nat.
Proof.
  destruct (rstrip_prefix s) as [q Hq]. rewrite Hq at 2. rewrite length_app. lia.
Qed.

End StripMore.

(** ** create_company.py: the ampersand in [slugify] *)

Section SlugAmpersand.
Variable lower_ext : pystr -> pystr -> N -> pystr.

Lemma lower_from_ascii_text (s : pystr) :
  ascii_text s ->
  forall seen, lower_from lower_ext seen s = List.map ascii_lower s.
Proof.
  induction 1 as [|c r Hc _ IH]; intros seen; [reflexivity|].
  simpl. apply N.ltb_lt in Hc. rewrite Hc. simpl. by rewrite IH.
Qed.

Lemma ascii_text_lstrip (s : pystr) : ascii_text s -> ascii_text (lstrip s).
Proof.
  intros H. destruct (lstrip_suffix s) as [p Hp]. unfold ascii_text in *.
  rewrite Hp in H. by apply Forall_app in H as [_ H].
Qed.

Lemma ascii_text_rstrip (s : pystr) : ascii_text s -> ascii_text (rstrip s).
Proof.
  intros H. destruct (rstrip_prefix s) as [q Hq]. unfold ascii_text in *.
  rewrite Hq in H. by apply Forall_app in H as [H _].
Qed.

(** The text [slugify] has after [lower] and [replace], for an ASCII
    text with a word [m] in it that has no white space at its ends. *)
Lemma replaced_middle (a m b : pystr) x y :
  ascii_text a -> ascii_text m -> ascii_text b ->
  head m = Some x -> isspace x = false ->
  list.last m = Some y -> isspace y = false ->
  replace1 Slug.ampersand (lit "and") (lower lower_ext (strip (a ++ m ++ b)))
  = replace1 Slug.ampersand (lit "and") (List.map ascii_lower (lstrip a))
    ++ replace1 Slug.ampersand (lit "and") (List.map ascii_lower m)
    ++ replace1 Slug.ampersand (lit "and") (List.map ascii_lower (rstrip b)).
Proof.
  intros Ha Hm Hb Hx Hxs Hy Hys.
  rewrite (strip_middle a m b x y Hx Hxs Hy Hys).
  unfold lower. rewrite lower_from_ascii_text.
  - rewrite !List.map_app. unfold replace1. by rewrite !flat_map_app.
  - apply Forall_app. split; [by apply ascii_text_lstrip|].
    apply Forall_app. split; [exact Hm | by apply ascii_text_rstrip].
Qed.

Lemma slug_core_ampersand (a b : pystr) :
  ascii_text a -> ascii_text b ->
  Slug.slug_core lower_ext (a ++ [Slug.ampersand] ++ b)
  = Slug.slug_core lower_ext (a ++ lit "and" ++ b).
Proof.
  intros Ha Hb. unfold Slug.slug_core.
  rewrite (replaced_middle a [Slug.ampersand] b Slug.ampersand Slug.ampersand);
    try done; [|by repeat constructor].
  rewrite (replaced_middle a (lit "and") b 97 100);
    try done; by repeat constructor.
Qed.

Lemma slugify_ampersand (a b : pystr) :
  ascii_text a -> ascii_text b ->
  Slug.slugify lower_ext (a ++ [Slug.ampersand] ++ b)
  = Slug.slugify lower_ext (a ++ lit "and" ++ b).
Proof.
  intros Ha Hb. unfold Slug.slugify. by rewrite slug_core_ampersand.
Qed.

End SlugAmpersand.

(** ** create_company.py: a run of [main] that succeeds *)

Section CreateRun.
Import Create.
Variable E : env.

Lemma bind_ok {A B} (m : M A) (k : A -> M B) (w w' : world) (b : B) :
  bind m k w = (Ok b, w') ->
  exists a w1, m w = (Ok a, w1) /\ k a w1 = (Ok b, w').
Proof.
  unfold bind. destruct (m w) as [[a|e] w1]; [|discriminate].
  intros H. by exists a, w1.
Qed.

Lemma lookup_node_app_present nm x (a b : list (pystr * node)) :
  lookup_node nm a = Some x -> lookup_node nm (a ++ b) = Some x.
Proof.
  induction a as [|[n y] r IH]; simpl; [discriminate|].
  destruct (Text.eqb nm n); [done | exact IH].
Qed.

Lemma lookup_set_node_eq nm x (l : list (pystr * node)) :
  lookup_node nm (set_node nm x l) = Some x.
Proof.
  unfold set_node.
  destruct (existsb (fun e => Text.eqb nm (fst e)) l) eqn:Hex.
  - induction l as [|[n z] r IH]; simpl in *; [discriminate|].
    destruct (Text.eqb nm n) eqn:Hn; simpl.
    + by rewrite eqb_refl.
    + rewrite Hn. by apply IH.
  - induction l as [|[n z] r IH]; simpl in *; [by rewrite eqb_refl|].
    destruct (Text.eqb nm n); [discriminate | by apply IH].
Qed.

(** The description that [main] hands to [openai_summary] is the one
    [fetch_site_text] returns, and that one is stripped. *)
Lemma fetch_site_text_description_stripped url max_chars (w w' : world)
    (title meta_desc text og_image : pystr) :
  fetch_site_text E url max_chars w = (Ok [title; meta_desc; text; og_image], w') ->
  strip meta_desc = meta_desc.
Proof.
  unfold fetch_site_text. destruct (nonempty url); [|discriminate].
  cbn [negb]. unfold bind, emit, lift. simpl.
  destruct (http_get E (with_scheme E url)) as [p|e]; [|discriminate].
  unfold ret. intros H. injection H as _ <- _ _.
  destruct (meta_content p) as [[|c r]|]; try reflexivity. apply strip_strip.
Qed.

(** The entry [upsert_value] has written carries the slug, the name and
    the summary. *)
Lemma upsert_value_entry slug nm sm (data d1 : json) :
  upsert_value E slug nm sm data = Ok d1 ->
  exists top sites i d,
    d1 = JObj top
    /\ dict_get (lit "sites") top = Some (JArr sites)
    /\ sites !! i = Some (JObj d)
    /\ dict_get (lit "id") d = Some (JStr slug)
    /\ dict_get (lit "name") d = Some (JStr nm)
    /\ dict_get (lit "description") d = Some (JStr sm).
Proof.
  unfold upsert_value.
  destruct data as [| | | | |top]; try discriminate.
  set (sites := match dict_get (lit "sites") top with
                | Some (JArr l) => l
                | _ => []
                end).
  destruct (find_site slug 0 sites) as [found|e] eqn:Hfind; [|discriminate].
  intros H. injection H as <-.
  assert (Hid : forall d, eq_str (dict_get (lit "id") d) slug = true ->
            dict_get (lit "id") (fill_entry slug nm sm d) = Some (JStr slug)).
  { intros d Hd. rewrite fill_entry_id. unfold eq_str in Hd.
    destruct (dict_get (lit "id") d) as [[| | |t| |]|]; try discriminate.
    apply eqb_eq in Hd. by subst. }
  destruct found as [[j d]|].
  - apply find_site_found in Hfind as [i [Hj [Hi [Hd Hmin]]]].
    simpl in Hj. subst j.
    assert (Hlt : (i < length sites)%nat) by (by eapply lookup_lt_Some).
    eexists _, _, i, (fill_entry slug nm sm d).
    split; [reflexivity|]. split; [apply dict_get_set_eq|].
    split; [by apply list_lookup_insert_eq|].
    split; [by apply Hid|].
    split; [apply fill_entry_name | apply fill_entry_description].
  - eexists _, _, (length sites), (fill_entry slug nm sm (new_entry slug)).
    split; [reflexivity|]. split; [apply dict_get_set_eq|].
    split; [by rewrite lookup_app_r, Nat.sub_diag by lia|].
    split; [apply Hid, new_entry_id|].
    split; [apply fill_entry_name | apply fill_entry_description].
Qed.

Lemma mkdir_assets_keeps (w w' : world) :
  mkdir_assets w = (Ok tt, w') ->
  sites_file (w_fs w') = sites_file (w_fs w)
  /\ forall nm x, lookup_node nm (root (w_fs w)) = Some x ->
                  lookup_node nm (root (w_fs w')) = Some x.
Proof.
  unfold mkdir_assets, bind, get_fs, emit, put_fs, ret, raise.
  destruct (lookup_node (lit "assets") (root (w_fs w))) as [[|idx]|].
  - discriminate.
  - intros H. injection H as <-. by split.
  - intros H. injection H as <-. simpl. split; [reflexivity|].
    intros nm x. apply lookup_node_app_present.
Qed.

Lemma upsert_sites_json_entry slug nm sm (w w' : world) :
  upsert_sites_json E slug nm sm w = (Ok tt, w') ->
  (exists top sites i d,
     sites_file (w_fs w') = Some (json_dumps E (JObj top) ++ [newline])
     /\ dict_get (lit "sites") top = Some (JArr sites)
     /\ sites !! i = Some (JObj d)
     /\ dict_get (lit "id") d = Some (JStr slug)
     /\ dict_get (lit "name") d = Some (JStr nm)
     /\ dict_get (lit "description") d = Some (JStr sm))
  /\ forall k x, lookup_node k (root (w_fs w)) = Some x ->
                 lookup_node k (root (w_fs w')) = Some x.
Proof.
  unfold upsert_sites_json. intros H.
  apply bind_ok in H as ([] & w1 & Hm & H).
  apply mkdir_assets_keeps in Hm as [_ Hroot].
  apply bind_ok in H as (f & w2 & Hf & H).
  unfold get_fs in Hf. injection Hf as <- <-.
  apply bind_ok in H as (data & w3 & Hv & H).
  unfold lift in Hv. injection Hv as Hv <-.
  apply upsert_value_entry in Hv as (top & sites & i & d & -> & Hrest).
  unfold write_sites, bind, get_fs, emit, put_fs in H. simpl in H.
  injection H as <-. simpl. split; [|exact Hroot].
  by exists top, sites, i, d.
Qed.

(** A run of [main] that creates the company files it under the slug:
    the folder with its page, and the entry of the manifest. *)
Lemma create_main_files_slug (w w' : world) (req : CompanyRequest) :
  parse_issue_body E (getenv E (lit "ISSUE_BODY")) = Ok req ->
  exists_in_root (Slug.slugify (lower_ext E) (name req)) (w_fs w) = false ->
  main E w = (Ok 0%Z, w') ->
  (exists html,
     lookup_node (Slug.slugify (lower_ext E) (name req)) (root (w_fs w'))
     = Some (Dir (Some html)))
  /\ exists top sites i d,
       sites_file (w_fs w') = Some (json_dumps E (JObj top) ++ [newline])
       /\ dict_get (lit "sites") top = Some (JArr sites)
       /\ sites !! i = Some (JObj d)
       /\ dict_get (lit "id") d = Some (JStr (Slug.slugify (lower_ext E) (name req)))
       /\ dict_get (lit "name") d = Some (JStr (name req)).
Proof.
  intros Hp Hex. unfold main.
  rewrite (parse_issue_body_nonblank _ _ _ Hp). cbn [negb].
  set (slug := Slug.slugify (lower_ext E) (name req)) in *.
  intros H.
  apply bind_ok in H as (req' & w1 & Hl & H).
  unfold lift in Hl. rewrite Hp in Hl. injection Hl as <- <-.
  apply bind_ok in H as (f & w1 & Hf & H).
  unfold get_fs in Hf. injection Hf as <- <-.
  fold slug in H. rewrite Hex in H.
  destruct (negb (exists_in_root template_name (w_fs w))); [discriminate|].
  apply bind_ok in H as ([] & w1 & _ & H).
  apply bind_ok in H as (fetched & w2 & _ & H).
  apply bind_ok in H as ([[[title meta_desc] page_text] og_image] & w3 & _ & H).
  apply bind_ok in H as (summary & w4 & _ & H).
  apply bind_ok in H as (shot & w5 & _ & H).
  apply bind_ok in H as (template_html & w6 & _ & H).
  apply bind_ok in H as ([] & w7 & Hw & H).
  apply bind_ok in H as ([] & w8 & Hu & H).
  apply bind_ok in H as ([] & w9 & Hp1 & H).
  apply bind_ok in H as ([] & w10 & Hp2 & H).
  unfold ret in H. injection H as <-.
  assert (Hfs : w_fs w10 = w_fs w8).
  { unfold emit in Hp1. injection Hp1 as <-.
    destruct (nonempty (or_empty _)) in Hp2.
    - unfold emit in Hp2. by injection Hp2 as <-.
    - unfold ret in Hp2. by injection Hp2 as <-. }
  rewrite Hfs.
  apply upsert_sites_json_entry in Hu
    as [(top & sites & i & d & Hs & Ht & Hi & Hid & Hn & _) Hroot].
  split.
  - eexists. apply Hroot.
    unfold write_index, bind, get_fs, emit, put_fs in Hw. simpl in Hw.
    injection Hw as <-. simpl. apply lookup_set_node_eq.
  - by exists top, sites, i, d.
Qed.

End CreateRun.

(** * The claims *)

(** C10. For every input text, [slugify] returns a text that is not empty,
    is made of lower-case letters, digits and hyphens only, and has no
    hyphen at either end; it is the fixed text "company" exactly when
    the input reduces to nothing.  The ampersand counts as the word
    "and": in an ASCII name, an ampersand and the word in its place give
    the same slug, and "Acme & Co" gives "acme-and-co".  A run of the
    create script that creates a company files it under that slug: the
    folder with its page has the slug as name, and the entry of the
    manifest that the run writes has the slug as id. *)
Theorem slugify_slug_format (E : env) :
  (forall s : pystr,
     slug_format (Slug.slugify (lower_ext E) s)
     /\ ((nonempty (Slug.slug_core (lower_ext E) s) = false
          /\ Slug.slugify (lower_ext E) s = lit "company")
         \/ (nonempty (Slug.slug_core (lower_ext E) s) = true
             /\ Slug.slugify (lower_ext E) s = Slug.slug_core (lower_ext E) s)))
  /\ (forall a b : pystr,
        ascii_text a -> ascii_text b ->
        Slug.slugify (lower_ext E) (a ++ [Slug.ampersand] ++ b)
        = Slug.slugify (lower_ext E) (a ++ lit "and" ++ b))
  /\ Slug.slugify (lower_ext E) (lit "Acme & Co") = lit "acme-and-co"
  /\ (forall (w w' : world) (req : Create.CompanyRequest),
        Create.parse_issue_body E (getenv E (lit "ISSUE_BODY")) = Ok req ->
        exists_in_root (Slug.slugify (lower_ext E) (Create.name req)) (w_fs w) = false ->
        Create.main E w = (Ok 0%Z, w') ->
        slug_format (Slug.slugify (lower_ext E) (Create.name req))
        /\ (exists html,
              lookup_node (Slug.slugify (lower_ext E) (Create.name req))
                (root (w_fs w'))
              = Some (Dir (Some html)))
        /\ exists top sites i d,
             sites_file (w_fs w') = Some (json_dumps E (JObj top) ++ [newline])
             /\ dict_get (lit "sites") top = Some (JArr sites)
             /\ sites !! i = Some (JObj d)
             /\ dict_get (lit "id") d
                = Some (JStr (Slug.slugify (lower_ext E) (Create.name req)))
             /\ dict_get (lit "name") d = Some (JStr (Create.name req))).
Proof.
  split; [|split; [|split]].
  - intros s. split; [apply slugify_format_all|].
    destruct (slugify_cases (lower_ext E) s) as [[H ->]|[H ->]].
    + left. by rewrite H.
    + right. by destruct (Slug.slug_core (lower_ext E) s).
  - intros a b. apply slugify_ampersand.
  - apply slugify_acme.
  - intros w w' req Hp Hex Hrun. split; [apply slugify_format_all|].
    by apply (create_main_files_slug E w w' req).
Qed.

Lemma slugify_slug_format_witness :
  Slug.slugify (lower_ext Sample.online_env) (lit "R" ++ [Slug.ampersand] ++ lit "D")
  = Slug.slugify (lower_ext Sample.online_env) (lit "R" ++ lit "and" ++ lit "D")
  /\ slug_format (lit "acme-and-co")
  /\ (exists html,
        lookup_node (lit "acme-and-co")
          (root (w_fs (snd (Create.main Sample.online_env
                              (mkWorld Sample.fresh_repo [])))))
        = Some (Dir (Some html)))
  /\ exists top sites i d,
       sites_file (w_fs (snd (Create.main Sample.online_env
                                (mkWorld Sample.fresh_repo []))))
       = Some (json_dumps Sample.online_env (JObj top) ++ [newline])
       /\ dict_get (lit "sites") top = Some (JArr sites)
       /\ sites !! i = Some (JObj d)
       /\ dict_get (lit "id") d = Some (JStr (lit "acme-and-co"))
       /\ dict_get (lit "name") d = Some (JStr (lit "Acme & Co")).
Proof.
  destruct (slugify_slug_format Sample.online_env) as (_ & Hamp & _ & Hrun).
  split.
  - apply Hamp; unfold ascii_text; by repeat constructor.
  - apply (Hrun (mkWorld Sample.fresh_repo []) _ Sample.offline_request).
    + vm_compute. reflexivity.
    + vm_compute. reflexivity.
    + vm_compute. reflexivity.
Defined.

(** C7. When the folder of the company named in the issue already exists,
    the create script returns 0, leaves the file system as it is, and
    does nothing but print one message. *)
Theorem create_existing_folder_no_write (E : env) (w : world)
    (req : Create.CompanyRequest) :
  Create.parse_issue_body E (getenv E (lit "ISSUE_BODY")) = Ok req ->
  exists_in_root (Slug.slugify (lower_ext E) (Create.name req)) (w_fs w) = true ->
  Create.main E w
  = (Ok 0%Z,
     mkWorld (w_fs w)
       (w_trace w ++ [EvPrint (lit "Company folder already exists: "
                                 ++ Slug.slugify (lower_ext E) (Create.name req))])).
Proof.
  intros Hp Hex. unfold Create.main.
  rewrite (parse_issue_body_nonblank _ _ _ Hp). simpl.
  rewrite Hp. unfold bind, lift, get_fs. simpl.
  rewrite Hex. reflexivity.
Qed.

Lemma create_existing_folder_no_write_witness :
  Create.main Sample.create_env (mkWorld Sample.acme_repo [])
  = (Ok 0%Z,
     mkWorld Sample.acme_repo
       [EvPrint (lit "Company folder already exists: acme-and-co")]).
Proof.
  apply (create_existing_folder_no_write Sample.create_env
           (mkWorld Sample.acme_repo []) Sample.acme_request);
    vm_compute; reflexivity.
Defined.

(** C1. With no URL the fetcher returns at once, without a request; what
    it returns has three components, and the create script, which
    unpacks four, raises after it has copied the template folder. *)
Theorem create_without_website_raises (E : env) (w : world)
    (req : Create.CompanyRequest) (idx : option pystr) :
  Create.parse_issue_body E (getenv E (lit "ISSUE_BODY")) = Ok req ->
  Create.website req = [] ->
  exists_in_root (Slug.slugify (lower_ext E) (Create.name req)) (w_fs w) = false ->
  lookup_node Create.template_name (root (w_fs w)) = Some (Dir idx) ->
  Create.fetch_site_text E (Create.website req) 12000 w = (Ok [[]; []; []], w)
  /\ Create.main E w
     = (Raise (ValueError (lit "not enough values to unpack (expected 4, got 3)")),
        mkWorld
          (mkFs (Create.set_node (Slug.slugify (lower_ext E) (Create.name req))
                   (Dir idx) (root (w_fs w)))
                (sites_file (w_fs w)) (screenshots (w_fs w)))
          (w_trace w ++ [EvCopyTree (Slug.slugify (lower_ext E) (Create.name req))])).
Proof.
  intros Hp Hw Hex Ht. split.
  - rewrite Hw. apply fetch_no_url.
  - by apply create_no_website_run.
Qed.

Lemma create_without_website_raises_witness :
  Create.main Sample.create_env (mkWorld Sample.fresh_repo [])
  = (Raise (ValueError (lit "not enough values to unpack (expected 4, got 3)")),
     mkWorld
       (mkFs [(lit "company-template", Dir (Some (lit "<h1>{{COMPANY_NAME}}</h1>")));
              (lit "acme-and-co", Dir (Some (lit "<h1>{{COMPANY_NAME}}</h1>")))]
             None [])
       [EvCopyTree (lit "acme-and-co")]).
Proof.
  apply (create_without_website_raises Sample.create_env
           (mkWorld Sample.fresh_repo []) Sample.acme_request
           (Some (lit "<h1>{{COMPANY_NAME}}</h1>")));
    vm_compute; reflexivity.
Defined.

(** C2. With a key configured, a first answer of status 429 whose
    retry-after hint is a negative number makes [openai_summary] raise:
    the hint is handed to [time.sleep], whose [ValueError] no handler
    catches. *)
Theorem openai_summary_negative_retry_after (E : env)
    (company : Create.CompanyRequest) (title meta_desc page_text : pystr)
    (w : world) (body : json) (c : N) (hint : pystr) (q : Q) :
  strip (getenv E (lit "OPENAI_API_KEY")) <> [] ->
  http_post E 1 = Response (mkResponse 429 (Some (c :: hint)) body) ->
  py_float E (c :: hint) = Some q ->
  (q < 0)%Q ->
  Create.openai_summary E company title meta_desc page_text w
  = (Raise (ValueError (lit "sleep length must be non-negative")),
     mkWorld (w_fs w) (w_trace w ++ [EvPost 1])).
Proof.
  intros Hk Hp Hf Hq. unfold Create.openai_summary.
  destruct (strip (getenv E (lit "OPENAI_API_KEY"))) as [|k ks]; [done|].
  simpl. unfold bind at 1. unfold emit at 1. rewrite Hp. simpl.
  unfold Create.retry_hint. simpl. rewrite Hf.
  unfold bind. rewrite sleep_negative by exact Hq. reflexivity.
Qed.

Lemma openai_summary_negative_retry_after_witness :
  Create.openai_summary Sample.hurried_env Sample.acme_request
    (lit "Acme") [] [] (mkWorld Sample.fresh_repo [])
  = (Raise (ValueError (lit "sleep length must be non-negative")),
     mkWorld Sample.fresh_repo [EvPost 1]).
Proof.
  apply (openai_summary_negative_retry_after Sample.hurried_env Sample.acme_request
           (lit "Acme") [] [] (mkWorld Sample.fresh_repo []) JNull 45 (lit "1") (-1)%Q).
  - vm_compute. discriminate.
  - reflexivity.
  - reflexivity.
  - reflexivity.
Defined.

(** With a description that has white space at an end, the test and the
    value both use the stripped text: forty characters of which the last
    is a space are thirty-nine after stripping, and are not returned.
    [fetch_site_text] never hands such a description to
    [openai_summary]. *)
Remark openai_summary_padded_description :
  fst (Create.openai_summary Sample.create_env Sample.acme_request []
         Sample.padded_meta [] (mkWorld Sample.fresh_repo []))
  = Ok (lit "Demo environment for this company.").
Proof. vm_compute. reflexivity. Qed.

(** C3. With no key configured, [openai_summary] makes no request,
    changes nothing and does not raise.  For a description that is
    stripped of white space at both ends, as is every description that
    [fetch_site_text] returns and [main] hands over
    ([fetch_site_text_description_stripped]), it returns: the
    description when it has at least forty characters; otherwise, when a
    title was found, the sentence that starts with the company name;
    otherwise the fixed sentence. *)
Theorem openai_summary_without_key (E : env) (company : Create.CompanyRequest)
    (title meta_desc page_text : pystr) (w : world) :
  strip (getenv E (lit "OPENAI_API_KEY")) = [] ->
  strip meta_desc = meta_desc ->
  Create.openai_summary E company title meta_desc page_text w
  = (Ok (if (40 <=? length meta_desc)%nat then meta_desc
         else if nonempty title
         then Create.name company ++ lit " " ++ [Create.em_dash]
                ++ lit " demo environment based on publicly available information."
         else lit "Demo environment for this company."),
     w).
Proof.
  intros H Hs. rewrite openai_summary_no_key by exact H.
  by rewrite fallback_eq, Hs.
Qed.

Lemma openai_summary_without_key_witness :
  Create.openai_summary Sample.create_env Sample.acme_request (lit "Acme")
    Sample.forty_meta [] (mkWorld Sample.fresh_repo [])
  = (Ok Sample.forty_meta, mkWorld Sample.fresh_repo []).
Proof.
  apply (openai_summary_without_key Sample.create_env Sample.acme_request (lit "Acme")
           Sample.forty_meta [] (mkWorld Sample.fresh_repo [])).
  - reflexivity.
  - reflexivity.
Defined.

(** C4. When the manifest is a list of entries none of which has the id
    of the issue, the archive script raises the "not found" error and
    leaves the world as it was: nothing is written. *)
Theorem archive_unknown_id_not_found (E : env) (w : world) (act : Archive.action)
    (company_id text : pystr) (top : dict) (sites : list json) :
  Archive.parse_issue E (getenv E (lit "ISSUE_TITLE")) (getenv E (lit "ISSUE_BODY"))
    = Ok (act, company_id) ->
  sites_file (w_fs w) = Some text ->
  json_loads E text = Some (JObj top) ->
  dict_get (lit "sites") top = Some (JArr sites) ->
  Forall (other_entry company_id) sites ->
  Archive.main E w = (Raise (Archive.not_found company_id), w).
Proof.
  intros Hp Hf Hl Hs Hall. unfold Archive.main, bind, lift, get_fs.
  rewrite Hp, Hf, Hl, Hs.
  by rewrite (set_archived_absent _ _ _ Hall).
Qed.

Lemma archive_unknown_id_not_found_witness :
  Archive.main Sample.archive_env (mkWorld Sample.manifest_repo [])
  = (Raise (Archive.not_found (lit "globex")), mkWorld Sample.manifest_repo []).
Proof.
  apply (archive_unknown_id_not_found Sample.archive_env
           (mkWorld Sample.manifest_repo []) Archive.ArchiveAction (lit "globex")
           (Sample.show Sample.one_manifest ++ [newline])
           [(lit "updated", JStr (lit "2024-04-30"));
            (lit "sites", JArr [JObj Sample.one_entry])]
           [JObj Sample.one_entry]).
  - vm_compute. reflexivity.
  - reflexivity.
  - vm_compute. reflexivity.
  - vm_compute. reflexivity.
  - constructor; [|constructor].
    exists Sample.one_entry. split; [reflexivity | vm_compute; reflexivity].
Defined.

(** C5. Two regenerations in a row, on a repository whose folders have
    names and whose assets folder is not a plain file, both succeed and
    print the same list of entries: the two files differ in the date of
    the [updated] field at most.  The JSON library is asked to read back
    the document the first run printed. *)
Theorem regenerate_twice_same_sites (E : env) (d1 d2 : pystr) (w : world) :
  lookup_node (lit "assets") (root (w_fs w)) <> Some File ->
  Forall (fun e => fst e <> []) (root (w_fs w)) ->
  json_loads E (json_dumps E (Generate.output (set_today d1 E) (w_fs w)) ++ [newline])
    = Some (Generate.output (set_today d1 E) (w_fs w)) ->
  exists sites w1 w2,
    Generate.main (set_today d1 E) w = (Ok tt, w1)
    /\ Generate.main (set_today d2 E) w1 = (Ok tt, w2)
    /\ sites_file (w_fs w1)
       = Some (json_dumps E (JObj [(lit "updated", JStr d1); (lit "sites", JArr sites)])
                 ++ [newline])
    /\ sites_file (w_fs w2)
       = Some (json_dumps E (JObj [(lit "updated", JStr d2); (lit "sites", JArr sites)])
                 ++ [newline]).
Proof.
  intros Ha Hne Hrt.
  destruct (generate_main_run (set_today d1 E) w Ha) as [w1 [Hr1 [Hf1 [Hd1 Ha1]]]].
  destruct (generate_main_run (set_today d2 E) w1 Ha1) as [w2 [Hr2 [Hf2 [Hd2 Ha2]]]].
  exists (Generate.build_sites E (w_fs w)), w1, w2.
  split; [exact Hr1|]. split; [exact Hr2|]. split; [exact Hf1|].
  rewrite Hf2. do 4 f_equal.
  rewrite build_sites_today.
  rewrite (build_sites_again E (w_fs w) (w_fs w1) d1 Hne Hd1); [reflexivity| |exact Hrt].
  rewrite Hf1. reflexivity.
Qed.

Lemma regenerate_twice_same_sites_witness :
  exists sites w1 w2,
    Generate.main (set_today (lit "2024-05-01") Sample.regen_env)
      (mkWorld Sample.regen_repo []) = (Ok tt, w1)
    /\ Generate.main (set_today (lit "2024-05-02") Sample.regen_env) w1 = (Ok tt, w2)
    /\ sites_file (w_fs w1)
       = Some (Sample.show (JObj [(lit "updated", JStr (lit "2024-05-01"));
                                  (lit "sites", JArr sites)]) ++ [newline])
    /\ sites_file (w_fs w2)
       = Some (Sample.show (JObj [(lit "updated", JStr (lit "2024-05-02"));
                                  (lit "sites", JArr sites)]) ++ [newline]).
Proof.
  apply (regenerate_twice_same_sites Sample.regen_env (lit "2024-05-01")
           (lit "2024-05-02") (mkWorld Sample.regen_repo [])).
  - vm_compute. discriminate.
  - repeat constructor; vm_compute; discriminate.
  - vm_compute. reflexivity.
Defined.

(** C6. When the manifest holds an entry with the slug (the first one,
    after entries with other ids), [upsert_sites_json] rewrites the file
    with the same entries in the same places, except that this entry has
    the given name and description; its tag and logo URL are the ones it
    had, or the defaults when it had none; its other fields are the ones
    it had. *)
Theorem upsert_existing_entry (E : env) (w : world)
    (slug company_name summary : pystr) (idx : option pystr) (text : pystr)
    (top : dict) (sites : list json) (i : nat) (d : dict) :
  lookup_node (lit "assets") (root (w_fs w)) = Some (Dir idx) ->
  sites_file (w_fs w) = Some text ->
  json_loads E text = Some (JObj top) ->
  dict_get (lit "sites") top = Some (JArr sites) ->
  sites !! i = Some (JObj d) ->
  eq_str (dict_get (lit "id") d) slug = true ->
  (forall j s, (j < i)%nat -> sites !! j = Some s -> other_entry slug s) ->
  exists (top' : dict) (sites' : list json) (d' : dict) (w' : world),
    Create.upsert_sites_json E slug company_name summary w = (Ok tt, w')
    /\ sites_file (w_fs w') = Some (json_dumps E (JObj top') ++ [newline])
    /\ dict_get (lit "sites") top' = Some (JArr sites')
    /\ dict_get (lit "updated") top' = Some (JStr (today E))
    /\ length sites' = length sites
    /\ sites' !! i = Some (JObj d')
    /\ (forall j, j <> i -> sites' !! j = sites !! j)
    /\ dict_get (lit "name") d' = Some (JStr company_name)
    /\ dict_get (lit "description") d' = Some (JStr summary)
    /\ dict_get (lit "tag") d'
       = Some (default (JStr (lit "Demo")) (dict_get (lit "tag") d))
    /\ dict_get (lit "logoUrl") d'
       = Some (default (JStr (Create.S3_BASE ++ lit "/" ++ slug ++ lit "/logo.png"))
                 (dict_get (lit "logoUrl") d))
    /\ (forall k, k <> lit "name" -> k <> lit "description" ->
                  k <> lit "tag" -> k <> lit "logoUrl" ->
                  dict_get k d' = dict_get k d).
Proof.
  intros Ha Hf Hl Hs Hi Hd Hmin.
  eexists _, (<[i := JObj (Create.fill_entry slug company_name summary d)]> sites),
    (Create.fill_entry slug company_name summary d), _.
  split; [by eapply upsert_existing_run|].
  split; [reflexivity|].
  split; [apply dict_get_set_eq|].
  split; [rewrite dict_get_set_ne by lit_ne; apply dict_get_set_eq|].
  split; [apply length_insert|].
  split; [apply list_lookup_insert_eq; by eapply lookup_lt_Some|].
  split; [intros j Hj; apply list_lookup_insert_ne; congruence|].
  split; [apply fill_entry_name|].
  split; [apply fill_entry_description|].
  split; [apply fill_entry_tag|].
  split; [apply fill_entry_logo|].
  intros k. apply fill_entry_other.
Qed.

Lemma upsert_existing_entry_witness :
  exists (top' : dict) (sites' : list json) (d' : dict) (w' : world),
    Create.upsert_sites_json Sample.archive_env (lit "acme") (lit "Acme Ltd")
      (lit "Rockets.") (mkWorld Sample.manifest_repo []) = (Ok tt, w')
    /\ sites_file (w_fs w') = Some (Sample.show (JObj top') ++ [newline])
    /\ dict_get (lit "sites") top' = Some (JArr sites')
    /\ dict_get (lit "updated") top' = Some (JStr (lit "2024-05-01"))
    /\ length sites' = 1%nat
    /\ sites' !! 0%nat = Some (JObj d')
    /\ (forall j, j <> 0%nat -> sites' !! j = [JObj Sample.one_entry] !! j)
    /\ dict_get (lit "name") d' = Some (JStr (lit "Acme Ltd"))
    /\ dict_get (lit "description") d' = Some (JStr (lit "Rockets."))
    /\ dict_get (lit "tag") d' = Some (JStr (lit "Partner"))
    /\ dict_get (lit "logoUrl") d'
       = Some (JStr (Create.S3_BASE ++ lit "/acme/logo.png"))
    /\ (forall k, k <> lit "name" -> k <> lit "description" ->
                  k <> lit "tag" -> k <> lit "logoUrl" ->
                  dict_get k d' = dict_get k Sample.one_entry).
Proof.
  apply (upsert_existing_entry Sample.archive_env (mkWorld Sample.manifest_repo [])
           (lit "acme") (lit "Acme Ltd") (lit "Rockets.") None
           (Sample.show Sample.one_manifest ++ [newline])
           [(lit "updated", JStr (lit "2024-04-30"));
            (lit "sites", JArr [JObj Sample.one_entry])]
           [JObj Sample.one_entry] 0%nat Sample.one_entry).
  - vm_compute. reflexivity.
  - reflexivity.
  - vm_compute. reflexivity.
  - vm_compute. reflexivity.
  - reflexivity.
  - vm_compute. reflexivity.
  - intros j s Hj. lia.
Defined.

(** C9, as stated, fails: a body text of twenty thousand characters that
    are blanks but for the first and the last comes back as three
    characters. *)
Lemma fetch_sparse_text_counterexample :
  ~ (forall (E : env) (url : pystr) (p : page) (w : world),
        nonempty url = true ->
        http_get E (Create.with_scheme E url) = Ok p ->
        Z.of_nat (length (main_text p)) = 20000%Z ->
        exists title meta text og w',
          Create.fetch_site_text E url 12000 w = (Ok [title; meta; text; og], w')
          /\ Z.of_nat (length text) = 12001%Z).
Proof.
  intros H.
  assert (Hsparse : Create.fetch_site_text Sample.sparse_env (lit "acme.com") 12000
                      (mkWorld Sample.fresh_repo [])
                    = (Ok [[]; []; lit "x y"; []],
                       mkWorld Sample.fresh_repo [EvGet (lit "https://acme.com")]))
    by (vm_compute; reflexivity).
  destruct (H Sample.sparse_env (lit "acme.com") Sample.sparse_page
              (mkWorld Sample.fresh_repo []))
    as (title & meta & text & og & w' & Hrun & Hlen).
  - reflexivity.
  - reflexivity.
  - vm_compute. reflexivity.
  - rewrite Hsparse in Hrun. inversion Hrun; subst. discriminate Hlen.
Qed.

(** C9, amended. When the text of the page, after blanks and blank lines
    have been collapsed and the ends stripped, is longer than 12000
    characters (20000, say), the text returned is its first 12000
    characters followed by the one-character ellipsis: 12001 characters
    in all. *)
Theorem fetch_long_text_truncated (E : env) (url : pystr) (p : page) (w : world) :
  nonempty url = true ->
  http_get E (Create.with_scheme E url) = Ok p ->
  (12000 < Z.of_nat (length (Create.collapse_text (main_text p))))%Z ->
  exists title meta og,
    Create.fetch_site_text E url 12000 w
    = (Ok [title; meta;
           take (Z.to_nat 12000) (Create.collapse_text (main_text p))
             ++ [Create.ellipsis];
           og],
       mkWorld (w_fs w) (w_trace w ++ [EvGet (Create.with_scheme E url)]))
    /\ Z.of_nat (length (take (Z.to_nat 12000) (Create.collapse_text (main_text p))
                           ++ [Create.ellipsis])) = 12001%Z.
Proof.
  intros Hu Hg Hl.
  destruct (fetch_site_text_run E url p w Hu Hg) as (title & meta & og & Hrun).
  destruct (clamp_text_long (Create.collapse_text (main_text p)) Hl) as [Hc Hn].
  rewrite Hc in Hrun, Hn.
  exists title, meta, og. split; [exact Hrun | exact Hn].
Qed.

Lemma fetch_long_text_truncated_witness :
  exists title meta og,
    Create.fetch_site_text Sample.long_env (lit "acme.com") 12000
      (mkWorld Sample.fresh_repo [])
    = (Ok [title; meta;
           take (Z.to_nat 12000) (Create.collapse_text (main_text Sample.long_page))
             ++ [Create.ellipsis];
           og],
       mkWorld Sample.fresh_repo [EvGet (lit "https://acme.com")])
    /\ Z.of_nat (length (take (Z.to_nat 12000)
                           (Create.collapse_text (main_text Sample.long_page))
                           ++ [Create.ellipsis])) = 12001%Z.
Proof.
  apply (fetch_long_text_truncated Sample.long_env (lit "acme.com") Sample.long_page
           (mkWorld Sample.fresh_repo [])).
  - reflexivity.
  - reflexivity.
  - vm_compute. reflexivity.
Defined.




(** * Further lemmas *)

(** ** Runs of one character *)

Section Runs.
Variable x : N.

Lemma no_pair_suffix (p s : pystr) :
  no_pair x (p ++ s) = true -> no_pair x s = true.
Proof.
  induction p as [|c p IH]; [done|].
  simpl. intros H. apply andb_true_iff in H as [_ H]. by apply IH.
Qed.

Lemma no_pair_prefix (s q : pystr) :
  no_pair x (s ++ q) = true -> no_pair x s = true.
Proof.
  induction s as [|c s IH]; [done|].
  simpl. intros H. apply andb_true_iff in H as [H1 H2].
  rewrite (IH H2), andb_true_r.
  destruct s as [|b s]; [reflexivity | exact H1].
Qed.

Lemma no_pair_infix (a b : pystr) : no_pair x (a ++ [x; x] ++ b) = false.
Proof.
  destruct (no_pair x (a ++ [x; x] ++ b)) eqn:H; [|reflexivity].
  apply no_pair_suffix in H. simpl in H. by rewrite N.eqb_refl in H.
Qed.

Lemma no_triple_suffix (p s : pystr) :
  no_triple x (p ++ s) = true -> no_triple x s = true.
Proof.
  induction p as [|c p IH]; [done|].
  simpl. intros H. apply andb_true_iff in H as [_ H]. by apply IH.
Qed.

Lemma no_triple_prefix (s q : pystr) :
  no_triple x (s ++ q) = true -> no_triple x s = true.
Proof.
  induction s as [|c s IH]; [done|].
  simpl. intros H. apply andb_true_iff in H as [H1 H2].
  rewrite (IH H2), andb_true_r.
  destruct s as [|b [|d s]]; [reflexivity | reflexivity | exact H1].
Qed.

Lemma no_triple_infix (a b : pystr) : no_triple x (a ++ [x; x; x] ++ b) = false.
Proof.
  destruct (no_triple x (a ++ [x; x; x] ++ b)) eqn:H; [|reflexivity].
  apply no_triple_suffix in H. simpl in H. by rewrite N.eqb_refl in H.
Qed.

End Runs.

(** ** More about [slugify] *)

Section SlugMore.
Import Slug.
Variable lower_ext : pystr -> pystr -> N -> pystr.

Lemma alnum_not_hyphen (c : N) : is_alnum c = true -> (c =? hyphen) = false.
Proof.
  unfold is_alnum, is_lower_ascii, is_digit, in_range, hyphen. intros H.
  destruct (c =? 45) eqn:Hc; [|reflexivity]. code_points; lia.
Qed.

Lemma sub_runs_no_double (s : pystr) :
  forall b,
    no_pair hyphen (sub_runs b s) = true
    /\ (b = true -> head (sub_runs b s) <> Some hyphen).
Proof.
  induction s as [|c r IH]; intros b; simpl; [split; [reflexivity | discriminate]|].
  destruct (is_alnum c) eqn:Hc.
  - destruct (IH false) as [Hn _]. split.
    + simpl. rewrite Hn, (alnum_not_hyphen c Hc). by destruct (sub_runs false r).
    + intros _. simpl. intros H. injection H as ->. discriminate.
  - destruct (IH true) as [Hn Hh]. destruct b; [by split|].
    split; [|discriminate].
    simpl. rewrite Hn. destruct (sub_runs true r) as [|y t] eqn:Hs; [reflexivity|].
    destruct (y =? hyphen) eqn:Hy; [|reflexivity].
    apply N.eqb_eq in Hy. subst y. by destruct (Hh eq_refl).
Qed.

Lemma sub_edges_infix (s : pystr) : exists p q, s = p ++ sub_edges s ++ q.
Proof.
  unfold sub_edges.
  destruct (drop_hyphens_suffix s) as [p Hp].
  destruct (drop_hyphens_suffix (rev (drop_hyphens s))) as [q Hq].
  exists p, (rev q). rewrite <- rev_app_distr, <- Hq, rev_involutive. exact Hp.
Qed.

Lemma slug_core_no_double (s : pystr) :
  no_pair hyphen (slug_core lower_ext s) = true.
Proof.
  unfold slug_core.
  set (t := sub_runs false _).
  destruct (sub_edges_infix t) as [p [q Ht]].
  destruct (sub_runs_no_double (replace1 ampersand (lit "and") (lower lower_ext (strip s)))
              false) as [Hn _].
  fold t in Hn. rewrite Ht in Hn.
  by apply no_pair_suffix, no_pair_prefix in Hn.
Qed.

Lemma slug_ok_cases (c : N) :
  slug_ok c -> (is_alnum c = true /\ c <> hyphen) \/ (is_alnum c = false /\ c = hyphen).
Proof.
  unfold slug_ok, is_slug_char. intros H.
  destruct (is_alnum c) eqn:Hc.
  - left. split; [reflexivity|]. apply alnum_not_hyphen in Hc. by apply N.eqb_neq.
  - right. split; [reflexivity|]. by apply N.eqb_eq.
Qed.

Lemma slug_ok_low (c : N) :
  slug_ok c -> c < 128 /\ ascii_lower c = c /\ c <> ampersand.
Proof.
  intros H. apply slug_char_range in H.
  unfold ascii_lower, is_upper_ascii, in_range, ampersand.
  destruct ((65 <=? c) && (c <=? 90)) eqn:Hu; code_points; lia.
Qed.

Lemma lower_from_slug (s : pystr) :
  Forall slug_ok s -> forall seen, lower_from lower_ext seen s = s.
Proof.
  induction 1 as [|c r Hc Hr IH]; intros seen; [reflexivity|].
  simpl. destruct (slug_ok_low c Hc) as [Hlt [Hlow _]].
  apply N.ltb_lt in Hlt. rewrite Hlt, Hlow, IH. reflexivity.
Qed.

Lemma replace1_slug (s : pystr) :
  Forall slug_ok s -> replace1 ampersand (lit "and") s = s.
Proof.
  induction 1 as [|c r Hc Hr IH]; [reflexivity|].
  unfold replace1 in *. simpl. rewrite IH.
  destruct (slug_ok_low c Hc) as [_ [_ Hne]].
  apply N.eqb_neq in Hne. by rewrite Hne.
Qed.

Lemma sub_runs_slug (s : pystr) :
  Forall slug_ok s -> no_pair hyphen s = true ->
  forall b, (b = true -> head s <> Some hyphen) -> sub_runs b s = s.
Proof.
  induction 1 as [|c r Hc Hr IH]; intros Hn b Hb; [reflexivity|].
  simpl in Hn. apply andb_true_iff in Hn as [Hn1 Hn2].
  simpl. destruct (slug_ok_cases c Hc) as [[Ha Hne]|[Ha ->]]; rewrite Ha.
  - f_equal. by apply IH.
  - destruct b; [by destruct (Hb eq_refl)|].
    f_equal. apply IH; [exact Hn2|].
    intros _ Hh. destruct r as [|y t]; [discriminate|].
    simpl in Hh. injection Hh as ->. discriminate.
Qed.

Lemma drop_hyphens_id (s : pystr) : head s <> Some hyphen -> drop_hyphens s = s.
Proof.
  destruct s as [|c r]; [reflexivity|]. simpl. intros H.
  destruct (c =? hyphen) eqn:Hc; [|reflexivity].
  apply N.eqb_eq in Hc. by subst.
Qed.

Lemma sub_edges_id (s : pystr) :
  head s <> Some hyphen -> list.last s <> Some hyphen -> sub_edges s = s.
Proof.
  intros Hh Hl. unfold sub_edges.
  rewrite (drop_hyphens_id s Hh), drop_hyphens_id, rev_involutive; [reflexivity|].
  by rewrite head_rev.
Qed.

(** A text in the slug format with no two hyphens in a row is its own
    slug. *)
Lemma slugify_fixed (r : pystr) :
  slug_format r -> no_pair hyphen r = true -> slugify lower_ext r = r.
Proof.
  intros [Hne [Hok [Hh Hl]]] Hn.
  unfold slugify, slug_core.
  rewrite (strip_slug r Hok). unfold lower.
  rewrite (lower_from_slug r Hok), (replace1_slug r Hok).
  rewrite (sub_runs_slug r Hok Hn) by discriminate.
  rewrite (sub_edges_id r Hh Hl).
  by destruct r.
Qed.

Lemma slugify_no_double (s : pystr) :
  no_pair hyphen (slugify lower_ext s) = true.
Proof.
  destruct (slugify_cases lower_ext s) as [[_ ->]|[_ ->]].
  - reflexivity.
  - apply slug_core_no_double.
Qed.

Lemma mark_not_alnum (c : N) :
  ascii_mark c = true ->
  c < 128 /\ ascii_lower c = c /\ is_alnum c = false /\ c <> ampersand.
Proof.
  unfold ascii_mark. intros H.
  apply andb_true_iff in H as [Hlt H]. apply negb_true_iff in H.
  apply orb_false_iff in H as [H Hamp].
  apply orb_false_iff in H as [H Hd].
  apply orb_false_iff in H as [Hu Hl].
  split; [by apply N.ltb_lt|].
  split; [unfold ascii_lower; by rewrite Hu|].
  split; [unfold is_alnum; by rewrite Hl, Hd|].
  by apply N.eqb_neq.
Qed.

Lemma sub_runs_marks (s : pystr) :
  Forall (fun c => is_alnum c = false) s -> sub_runs true s = [].
Proof.
  induction 1 as [|c r Hc Hr IH]; [reflexivity|]. simpl. by rewrite Hc.
Qed.

Lemma lower_from_marks (t : pystr) :
  Forall (fun c => ascii_mark c = true) t ->
  forall seen, lower_from lower_ext seen t = t.
Proof.
  induction 1 as [|c r Hc Hr IH]; intros seen; [reflexivity|].
  simpl. destruct (mark_not_alnum c Hc) as [Hlt [Hlow _]].
  apply N.ltb_lt in Hlt. by rewrite Hlt, Hlow, IH.
Qed.

Lemma replace1_marks (t : pystr) :
  Forall (fun c => ascii_mark c = true) t -> replace1 ampersand (lit "and") t = t.
Proof.
  unfold replace1. induction 1 as [|c r Hc Hr IH]; [reflexivity|].
  simpl. rewrite IH.
  destruct (mark_not_alnum c Hc) as [_ [_ [_ Hne]]].
  apply N.eqb_neq in Hne. by rewrite Hne.
Qed.

Lemma slug_core_marks (s : pystr) :
  Forall (fun c => ascii_mark c = true) s -> slug_core lower_ext s = [].
Proof.
  intros H. unfold slug_core.
  destruct (strip_infix s) as [p [q Hs]].
  assert (Ht : Forall (fun c => ascii_mark c = true) (strip s)).
  { rewrite Hs in H. apply Forall_app in H as [_ H]. by apply Forall_app in H as [H _]. }
  clear Hs H. set (t := strip s) in *. clearbody t.
  unfold lower. rewrite (lower_from_marks t Ht), (replace1_marks t Ht).
  destruct Ht as [|c r Hc Hr]; [reflexivity|].
  simpl. destruct (mark_not_alnum c Hc) as [_ [_ [Ha _]]]. rewrite Ha.
  rewrite sub_runs_marks; [reflexivity|].
  eapply List.Forall_impl; [|exact Hr].
  intros a Hma. by destruct (mark_not_alnum a Hma) as [_ [_ [Ha' _]]].
Qed.

End SlugMore.

(** ** create_company.py: the issue body *)

Section ParseBodyMore.
Import Create.
Variable E : env.

Lemma find_stripped (body field : pystr) :
  strip (find E body field) = find E body field.
Proof.
  unfold find. destruct (search (field_at E field) body); [apply strip_strip | reflexivity].
Qed.

Lemma find_at_start (field lab ws x post : pystr) (c : N) :
  List.map ascii_lower lab
    = List.map ascii_lower (lit "**" ++ field ++ lit ":**") ->
  Forall (fun a => isspace a = true) ws ->
  head x = Some c -> isspace c = false ->
  Forall (fun a => a <> newline) x ->
  (post = [] \/ head post = Some newline) ->
  find E (lab ++ ws ++ x ++ post) field = strip x.
Proof.
  intros Hlab Hws Hx Hc Hnl Hpost. unfold find.
  assert (Hat : field_at E field (lab ++ ws ++ x ++ post) = Some x).
  { unfold field_at.
    rewrite (match_lit_variant (tolower_ext E) _ lab (ws ++ x ++ post) Hlab).
    assert (Hrun : run dot_class (x ++ post) = x).
    { apply run_exact.
      - eapply List.Forall_impl; [|exact Hnl].
        intros a Ha. unfold dot_class. apply N.eqb_neq in Ha. by rewrite Ha.
      - destruct Hpost as [->|Hp]; [by left|].
        right. exists newline. split; [exact Hp | reflexivity]. }
    apply (ws_then_skip dot_class ws (x ++ post) x c Hws).
    - destruct x; [discriminate | exact Hx].
    - exact Hc.
    - unfold run1. rewrite Hrun. destruct x; [discriminate | reflexivity]. }
  by rewrite (search_here _ _ x Hat).
Qed.

Lemma lookup_node_existsb nm (l : list (pystr * node)) :
  lookup_node nm l = None -> existsb (fun e => Text.eqb nm (fst e)) l = false.
Proof.
  induction l as [|[n x] r IH]; [reflexivity|].
  simpl. destruct (Text.eqb nm n); [discriminate | exact IH].
Qed.

Lemma lookup_set_node_new nm x (l : list (pystr * node)) :
  lookup_node nm l = None -> lookup_node nm (set_node nm x l) = Some x.
Proof.
  intros H. unfold set_node. rewrite (lookup_node_existsb nm l H).
  rewrite (lookup_node_app_absent nm l _ H). simpl. by rewrite eqb_refl.
Qed.

Lemma lookup_set_node_other nm nm' x (l : list (pystr * node)) :
  lookup_node nm l = None -> nm <> nm' ->
  lookup_node nm' (set_node nm x l) = lookup_node nm' l.
Proof.
  intros H Hne. unfold set_node. rewrite (lookup_node_existsb nm l H).
  clear H. induction l as [|[n y] r IH]; simpl.
  - destruct (Text.eqb nm' nm) eqn:Hq; [|reflexivity].
    apply eqb_eq in Hq. by subst.
  - destruct (Text.eqb nm' n); [reflexivity | exact IH].
Qed.


Lemma clamp_text_length (m : Z) (t : pystr) :
  (0 <= m)%Z -> (Z.of_nat (length (clamp_text m t)) <= m + 1)%Z.
Proof.
  intros Hm. unfold clamp_text, slice_to.
  destruct (Z.of_nat (length t) >? m)%Z eqn:Hgt.
  - replace (m <? 0)%Z with false by (symmetry; apply Z.ltb_ge; lia).
    rewrite length_app, length_take. simpl length. lia.
  - rewrite Z.gtb_ltb in Hgt. apply Z.ltb_ge in Hgt. lia.
Qed.

End ParseBodyMore.

(** ** create_company.py: the clean-up of the page text *)

Section CollapseMore.
Import Create.

Lemma sub_blanks_no_tab (s : pystr) :
  forall b, Forall (fun c => c <> 9) (sub_blanks b s).
Proof.
  induction s as [|c r IH]; intros b; simpl; [constructor|].
  destruct ((c =? 32) || (c =? 9)) eqn:Hc.
  - destruct b; [apply IH|]. constructor; [discriminate | apply IH].
  - constructor; [|apply IH]. code_points. done.
Qed.

Lemma sub_blanks_no_pair (s : pystr) :
  forall b,
    no_pair 32 (sub_blanks b s) = true
    /\ (b = true -> head (sub_blanks b s) <> Some 32).
Proof.
  induction s as [|c r IH]; intros b; simpl; [split; [reflexivity | discriminate]|].
  destruct ((c =? 32) || (c =? 9)) eqn:Hc.
  - destruct (IH true) as [Hn Hh]. destruct b; [by split|].
    split; [|discriminate].
    simpl. rewrite Hn. destruct (sub_blanks true r) as [|y t] eqn:Hs; [reflexivity|].
    destruct (y =? 32) eqn:Hy; [|reflexivity].
    apply N.eqb_eq in Hy. subst y. by destruct (Hh eq_refl).
  - destruct (IH false) as [Hn _]. apply orb_false_iff in Hc as [Hc _]. split.
    + simpl. rewrite Hn, Hc. by destruct (sub_blanks false r).
    + intros _. simpl. intros H. injection H as ->. discriminate.
Qed.

Lemma sub_newlines_chars (P : N -> Prop) (s : pystr) :
  Forall P s -> forall seen, Forall P (sub_newlines seen s).
Proof.
  induction 1 as [|c r Hc Hr IH]; intros seen; simpl; [constructor|].
  destruct (c =? newline).
  - destruct (seen <? 2)%nat; [constructor|]; auto.
  - constructor; auto.
Qed.

Lemma sub_newlines_head (s : pystr) (seen : nat) :
  head (sub_newlines seen s) = Some 32 -> head s = Some 32 \/ exists r, s = newline :: r.
Proof.
  destruct s as [|c r]; simpl; [discriminate|].
  destruct (c =? newline) eqn:Hc.
  - apply N.eqb_eq in Hc. subst. intros _. right. by exists r.
  - intros H. by left.
Qed.

Lemma sub_newlines_no_pair (s : pystr) :
  no_pair 32 s = true -> forall seen, no_pair 32 (sub_newlines seen s) = true.
Proof.
  induction s as [|c r IH]; intros Hn seen; simpl; [reflexivity|].
  simpl in Hn. apply andb_true_iff in Hn as [Hn1 Hn2].
  destruct (c =? newline) eqn:Hc.
  - apply N.eqb_eq in Hc. subst c.
    destruct (seen <? 2)%nat; [|by apply IH].
    simpl. rewrite (IH Hn2). by destruct (sub_newlines (S seen) r).
  - simpl. rewrite (IH Hn2), andb_true_r.
    destruct (sub_newlines 0 r) as [|y t] eqn:Hs; [reflexivity|].
    destruct (c =? 32) eqn:Hc32; [|reflexivity].
    destruct (y =? 32) eqn:Hy; [|reflexivity].
    apply N.eqb_eq in Hy. subst y.
    destruct (sub_newlines_head r 0) as [Hh|[r' ->]].
    + by rewrite Hs.
    + destruct r as [|b r']; [discriminate|]. simpl in Hh. injection Hh as ->.
      discriminate Hn1.
    + simpl in Hs. discriminate.
Qed.

Lemma sub_newlines_no_triple (s : pystr) :
  forall seen,
    no_triple newline (sub_newlines seen s) = true
    /\ ((1 <= seen)%nat ->
        forall t, sub_newlines seen s <> newline :: newline :: t)
    /\ ((2 <= seen)%nat -> head (sub_newlines seen s) <> Some newline).
Proof.
  induction s as [|c r IH]; intros seen; simpl.
  { split; [reflexivity|]. split; [discriminate | discriminate]. }
  destruct (c =? newline) eqn:Hc.
  - apply N.eqb_eq in Hc. subst c.
    destruct (IH (S seen)) as [Hn [H1 H2]].
    destruct (seen <? 2)%nat eqn:Hs.
    + apply Nat.ltb_lt in Hs. split; [|split].
      * simpl. rewrite Hn, andb_true_r.
        destruct (sub_newlines (S seen) r) as [|b [|d t]] eqn:Ho; try reflexivity.
        destruct (b =? newline) eqn:Hb; [|reflexivity].
        destruct (d =? newline) eqn:Hd; [|reflexivity].
        apply N.eqb_eq in Hb, Hd. subst. exfalso. apply (H1 ltac:(lia) t). reflexivity.
      * intros Hge t Ht. injection Ht as Ht.
        assert (Hs2 : (2 <= S seen)%nat) by lia.
        apply (H2 Hs2). by rewrite Ht.
      * lia.
    + apply Nat.ltb_ge in Hs. split; [exact Hn|]. split.
      * intros _ t. apply H1. lia.
      * intros _. apply H2. lia.
  - destruct (IH 0%nat) as [Hn _]. split; [|split].
    + simpl. rewrite Hn, Hc. by destruct (sub_newlines 0 r) as [|b [|d t]].
    + intros _ t Ht. injection Ht as -> _. discriminate.
    + intros _ Hh. simpl in Hh. injection Hh as ->. discriminate.
Qed.

Lemma collapse_text_infix (text : pystr) :
  exists p q, sub_newlines 0 (sub_blanks false text) = p ++ collapse_text text ++ q.
Proof. apply strip_infix. Qed.

End CollapseMore.

(** ** create_company.py: more about [openai_summary] *)

Section SummaryMore.
Import Create.
Variable E : env.

Lemma fallback_nonempty company title meta_desc :
  fallback company title meta_desc <> [].
Proof.
  rewrite fallback_eq.
  destruct (40 <=? length (strip meta_desc))%nat eqn:Hm.
  - apply Nat.leb_le in Hm. destruct (strip meta_desc); [simpl in Hm; lia | discriminate].
  - destruct (nonempty title).
    + intros H. apply app_eq_nil in H as [_ H]. vm_compute in H. discriminate.
    + vm_compute. discriminate.
Qed.

Lemma attempts_nonempty fb (todo : list nat) :
  fb <> [] ->
  forall (w w' : world) s, attempts E fb todo w = (Ok s, w') -> s <> [].
Proof.
  intros Hfb. induction todo as [|a rest IH]; intros w w' s H.
  - inversion H; by subst.
  - simpl in H. unfold bind at 1 in H. unfold emit at 1 in H.
    set (w1 := mkWorld (w_fs w) (w_trace w ++ [EvPost a])) in *.
    assert (Hstop : (Ok fb, w1) = (Ok s, w') -> s <> []).
    { intros Hx. inversion Hx; by subst. }
    assert (Hgo : forall q, bind (sleep q) (fun _ => attempts E fb rest) w1 = (Ok s, w') ->
              s <> []).
    { intros q Hq. unfold bind in Hq.
      destruct (sleep q w1) as [[[]|e] w2]; [by eapply IH | discriminate]. }
    destruct (http_post E a) as [resp|].
    + destruct ((200 <=? status_code resp)%Z && (status_code resp <? 300)%Z).
      * unfold bind, lift in H.
        destruct (extract_summary (body resp)) as [summary|e]; [|discriminate].
        unfold ret in H. injection H as <- _.
        by destruct summary.
      * destruct (retryable (status_code resp)); [|by apply Hstop].
        destruct (a <? max_attempts)%nat; [|by apply Hstop].
        by eapply Hgo.
    + destruct (a <? max_attempts)%nat; [|by apply Hstop].
      by eapply Hgo.
Qed.

Lemma sleep_cases (q : Q) (w : world) :
  sleep q w = (Ok tt, mkWorld (w_fs w) (w_trace w ++ [EvSleep q]))
  \/ exists e, sleep q w = (Raise e, w).
Proof.
  unfold sleep. destruct (Qle_bool 0 q); [by left | right; by eexists].
Qed.

Lemma attempts_polling fb (n : nat) :
  forall (a : nat) (w w' : world) r,
    (a + n = 6)%nat ->
    attempts E fb (seq a n) w = (r, w') ->
    w_fs w' = w_fs w
    /\ exists tr, w_trace w' = w_trace w ++ tr
                  /\ polling tr = true /\ (posts tr <= n)%nat
                  /\ (n <> 0%nat -> exists b t, tr = EvPost b :: t).
Proof.
  induction n as [|n IH]; intros a w w' r Han H.
  - inversion H; subst. split; [reflexivity|]. exists []. rewrite app_nil_r.
    repeat split; [simpl; lia | done].
  - simpl in H. unfold bind at 1 in H. unfold emit at 1 in H.
    set (w1 := mkWorld (w_fs w) (w_trace w ++ [EvPost a])) in *.
    assert (Hstop : forall x, (x, w1) = (r, w') ->
              w_fs w' = w_fs w
              /\ exists tr, w_trace w' = w_trace w ++ tr
                            /\ polling tr = true /\ (posts tr <= S n)%nat
                            /\ (S n <> 0%nat -> exists b t, tr = EvPost b :: t)).
    { intros x Hx. inversion Hx; subst. split; [reflexivity|].
      exists [EvPost a]. repeat split; [simpl; lia|]. intros _. by eexists _, _. }
    assert (Hgo : forall q, (a < max_attempts)%nat ->
              bind (sleep q) (fun _ => attempts E fb (seq (S a) n)) w1 = (r, w') ->
              w_fs w' = w_fs w
              /\ exists tr, w_trace w' = w_trace w ++ tr
                            /\ polling tr = true /\ (posts tr <= S n)%nat
                            /\ (S n <> 0%nat -> exists b t, tr = EvPost b :: t)).
    { intros q Ha Hq. unfold bind in Hq.
      destruct (sleep_cases q w1) as [Hs|[e Hs]]; rewrite Hs in Hq.
      - apply IH in Hq as [Hf [t2 [Ht2 [Hpoll [Hp2 Hne]]]]]; [|lia].
        split; [by rewrite Hf|].
        exists (EvPost a :: EvSleep q :: t2). split.
        + rewrite Ht2. subst w1. simpl. by rewrite <- !app_assoc.
        + unfold max_attempts in Ha.
          destruct Hne as [b [t ->]]; [lia|].
          split; [exact Hpoll|]. split; [simpl in *; lia|].
          intros _. by eexists _, _.
      - by eapply Hstop. }
    destruct (http_post E a) as [resp|].
    + destruct ((200 <=? status_code resp)%Z && (status_code resp <? 300)%Z).
      * unfold bind, lift in H.
        destruct (extract_summary (body resp)); by eapply Hstop.
      * destruct (retryable (status_code resp)); [|by eapply Hstop].
        destruct (a <? max_attempts)%nat eqn:Ha; [|by eapply Hstop].
        apply Nat.ltb_lt in Ha. by eapply Hgo.
    + destruct (a <? max_attempts)%nat eqn:Ha; [|by eapply Hstop].
      apply Nat.ltb_lt in Ha. by eapply Hgo.
Qed.

Lemma retryable_not_success (status : Z) :
  retryable status = true ->
  ((200 <=? status) && (status <? 300))%Z = false.
Proof.
  unfold retryable. intros H.
  repeat (apply orb_true_iff in H as [H|H]);
    apply Z.eqb_eq in H; subst; reflexivity.
Qed.

Lemma attempt_unavailable fb (a : nat) (rest : list nat) (w : world) :
  unavailable E -> (0 <= jitter E a)%Q ->
  attempts E fb (a :: rest) w
  = if (a <? max_attempts)%nat
    then attempts E fb rest
           (mkWorld (w_fs w) (w_trace w ++ [EvPost a; EvSleep (backoff E a)]))
    else (Ok fb, mkWorld (w_fs w) (w_trace w ++ [EvPost a])).
Proof.
  intros Hun Hj. simpl. unfold bind at 1. unfold emit at 1.
  set (w1 := mkWorld (w_fs w) (w_trace w ++ [EvPost a])).
  assert (Hgo : bind (sleep (backoff E a)) (fun _ => attempts E fb rest) w1
                = attempts E fb rest
                    (mkWorld (w_fs w) (w_trace w ++ [EvPost a; EvSleep (backoff E a)]))).
  { unfold bind. rewrite sleep_ok by (by apply backoff_nonneg).
    subst w1. simpl. by rewrite <- app_assoc. }
  destruct (Hun a) as [Hx|[resp [Hx [Hr Hh]]]]; rewrite Hx.
  - destruct (a <? max_attempts)%nat; [exact Hgo | reflexivity].
  - rewrite (retryable_not_success _ Hr), Hr.
    unfold retry_hint. rewrite Hh.
    destruct (a <? max_attempts)%nat; [exact Hgo | reflexivity].
Qed.

Lemma attempts_refusing fb (todo : list nat) :
  refusing E -> (forall n, (0 <= jitter E n)%Q) ->
  forall w : world,
    exists w', attempts E fb todo w = (Ok fb, w') /\ w_fs w' = w_fs w.
Proof.
  intros Hr Hj. induction todo as [|a rest IH]; intros w.
  - by exists w.
  - simpl. unfold bind at 1. unfold emit at 1.
    set (w1 := mkWorld (w_fs w) (w_trace w ++ [EvPost a])).
    assert (Hstop : exists w', (Ok fb, w1) = (Ok fb, w') /\ w_fs w' = w_fs w)
      by (by exists w1).
    assert (Hgo : exists w',
              bind (sleep (backoff E a)) (fun _ => attempts E fb rest) w1 = (Ok fb, w')
              /\ w_fs w' = w_fs w).
    { unfold bind. rewrite sleep_ok by apply backoff_nonneg, Hj.
      destruct (IH (mkWorld (w_fs w1) (w_trace w1 ++ [EvSleep (backoff E a)])))
        as [w' [H Hf]].
      by exists w'. }
    specialize (Hr a). destruct (http_post E a) as [resp|].
    + destruct Hr as [-> Hh]. unfold retry_hint. rewrite Hh.
      destruct (retryable (status_code resp)); [|exact Hstop].
      destruct (a <? max_attempts)%nat; [exact Hgo | exact Hstop].
    + destruct (a <? max_attempts)%nat; [exact Hgo | exact Hstop].
Qed.

(** The back-off time lies between the doubled base and that plus the
    largest draw. *)
Lemma backoff_bounds (attempt : nat) :
  (0 <= jitter E attempt)%Q -> (jitter E attempt <= 3 # 4)%Q ->
  (base_sleep * inject_Z (2 ^ Z.of_nat (attempt - 1)) <= backoff E attempt)%Q
  /\ (backoff E attempt
      <= base_sleep * inject_Z (2 ^ Z.of_nat (attempt - 1)) + (3 # 4))%Q.
Proof.
  intros H0 H1. unfold backoff. split.
  - rewrite <- (Qplus_0_r (base_sleep * _)) at 1.
    apply Qplus_le_compat; [apply Qle_refl | exact H0].
  - apply Qplus_le_compat; [apply Qle_refl | exact H1].
Qed.

End SummaryMore.

(** ** create_company.py: [maybe_take_screenshot] *)

Section ScreenshotMore.
Import Create.
Variable E : env.

Lemma existsb_filter_out (slug : pystr) (l : list pystr) :
  existsb (Text.eqb slug) (List.filter (fun x => negb (Text.eqb slug x)) l) = false.
Proof.
  induction l as [|y l IH]; [reflexivity|].
  simpl. destruct (Text.eqb slug y) eqn:Hy; simpl; [exact IH|].
  by rewrite Hy.
Qed.

Lemma unlink_screenshot_gone (slug : pystr) (saved : bool) (w : world) :
  exists w',
    unlink_screenshot slug saved w = (Ok tt, w')
    /\ existsb (Text.eqb slug) (screenshots (w_fs w')) = false
    /\ root (w_fs w') = root (w_fs w)
    /\ sites_file (w_fs w') = sites_file (w_fs w).
Proof.
  unfold unlink_screenshot, bind, get_fs.
  destruct (saved || existsb (Text.eqb slug) (screenshots (w_fs w))) eqn:Hs.
  - eexists. split; [reflexivity|]. simpl.
    split; [apply existsb_filter_out | by split].
  - eexists. split; [reflexivity|].
    apply orb_false_iff in Hs as [_ Hs]. by split.
Qed.

Lemma mkdir_assets_ok (w : world) :
  lookup_node (lit "assets") (root (w_fs w)) <> Some File ->
  exists w',
    mkdir_assets w = (Ok tt, w')
    /\ sites_file (w_fs w') = sites_file (w_fs w)
    /\ screenshots (w_fs w') = screenshots (w_fs w)
    /\ (root (w_fs w') = root (w_fs w)
        \/ root (w_fs w') = root (w_fs w) ++ [(lit "assets", Dir None)]).
Proof.
  intros H. unfold mkdir_assets, bind, get_fs.
  destruct (lookup_node (lit "assets") (root (w_fs w))) as [[|idx]|]; [done| |].
  - eexists. split; [reflexivity|]. repeat split. by left.
  - eexists. split; [reflexivity|]. repeat split. by right.
Qed.

End ScreenshotMore.

(** ** create_company.py: [render_from_template] *)

Section RenderMore.
Import Create.

Lemma startswith_brace (old s : pystr) (c : N) :
  head old = Some brace -> c <> brace -> startswith old (c :: s) = false.
Proof.
  destruct old as [|o old]; [discriminate|]. simpl. intros H Hc. injection H as ->.
  apply N.eqb_neq in Hc. rewrite N.eqb_sym in Hc. by rewrite Hc.
Qed.

(** A replacement goes unchanged over a text in which the key starts
    nowhere. *)
Lemma replace_from_pass (old new a rest : pystr) :
  (forall i, (i < length a)%nat -> startswith old (drop i (a ++ rest)) = false) ->
  replace_from old new 0 (a ++ rest) = a ++ replace_from old new 0 rest.
Proof.
  induction a as [|c a IH]; intros H; [reflexivity|].
  pose proof (H 0%nat ltac:(simpl; lia)) as H0.
  change (drop 0 ((c :: a) ++ rest)) with (c :: (a ++ rest)) in H0.
  change (replace_from old new 0 ((c :: a) ++ rest))
    with (if startswith old (c :: (a ++ rest))
          then new ++ replace_from old new (length old - 1) (a ++ rest)
          else c :: replace_from old new 0 (a ++ rest)).
  rewrite H0. simpl. f_equal. apply IH.
  intros i Hi. apply (H (S i)). simpl. lia.
Qed.

Lemma pass_plain (old a rest : pystr) :
  head old = Some brace -> plain a ->
  forall i, (i < length a)%nat -> startswith old (drop i (a ++ rest)) = false.
Proof.
  intros Ho Ha. induction Ha as [|c a Hc Ha IH]; intros i Hi; [simpl in Hi; lia|].
  destruct i as [|i].
  - simpl. by apply startswith_brace.
  - simpl. apply IH. simpl in Hi. lia.
Qed.

Lemma replace_from_skip (old new a b : pystr) :
  replace_from old new (length a) (a ++ b) = replace_from old new 0 b.
Proof.
  induction a as [|c a IH]; [reflexivity | exact IH].
Qed.

Lemma replace_from_here (old new rest : pystr) :
  old <> [] ->
  replace_from old new 0 (old ++ rest) = new ++ replace_from old new 0 rest.
Proof.
  destruct old as [|o old]; [done|]. intros _.
  change (replace_from (o :: old) new 0 ((o :: old) ++ rest))
    with (if startswith (o :: old) ((o :: old) ++ rest)
          then new ++ replace_from (o :: old) new (length (o :: old) - 1) (old ++ rest)
          else o :: replace_from (o :: old) new 0 (old ++ rest)).
  rewrite startswith_app.
  replace (length (o :: old) - 1)%nat with (length old) by (simpl; lia).
  by rewrite replace_from_skip.
Qed.

Lemma replace_plain (old new s : pystr) :
  head old = Some brace -> plain s -> Text.replace old new s = s.
Proof.
  intros Ho Hs. unfold Text.replace.
  rewrite <- (app_nil_r s) at 1.
  rewrite replace_from_pass by (by apply pass_plain).
  simpl. by rewrite app_nil_r.
Qed.

Lemma sub_block_pass (o c : pystr) (keep : bool) (a rest : pystr) :
  (forall i, (i < length a)%nat -> startswith o (drop i (a ++ rest)) = false) ->
  sub_block o c keep 0 (a ++ rest) = a ++ sub_block o c keep 0 rest.
Proof.
  induction a as [|x a IH]; intros H; [reflexivity|].
  pose proof (H 0%nat ltac:(simpl; lia)) as H0.
  change (drop 0 ((x :: a) ++ rest)) with (x :: (a ++ rest)) in H0.
  change (sub_block o c keep 0 ((x :: a) ++ rest))
    with (match match_block o c (x :: (a ++ rest)) with
          | Some inner =>
              (if keep then inner else [])
                ++ sub_block o c keep (length o + length inner + length c - 1) (a ++ rest)
          | None => x :: sub_block o c keep 0 (a ++ rest)
          end).
  unfold match_block. rewrite H0. simpl. f_equal. apply IH.
  intros i Hi. apply (H (S i)). simpl. lia.
Qed.

Lemma sub_block_skip (o c : pystr) (keep : bool) (a b : pystr) :
  sub_block o c keep (length a) (a ++ b) = sub_block o c keep 0 b.
Proof.
  induction a as [|x a IH]; [reflexivity | exact IH].
Qed.

Lemma find_close_here (close post : pystr) :
  find_close close (close ++ post) = Some [].
Proof.
  destruct (close ++ post) as [|x r] eqn:Hcp.
  - destruct close; [reflexivity | discriminate].
  - simpl. by rewrite <- Hcp, startswith_app.
Qed.

Lemma find_close_inner (close inner post : pystr) :
  head close = Some brace -> plain inner ->
  find_close close (inner ++ close ++ post) = Some inner.
Proof.
  intros Hc Hi. induction Hi as [|x inner Hx Hi IH].
  - change ([] ++ close ++ post) with (close ++ post). apply find_close_here.
  - simpl. rewrite (startswith_brace close _ x Hc Hx). by rewrite IH.
Qed.

Lemma sub_block_here (o c : pystr) (keep : bool) (inner post : pystr) :
  o <> [] -> head c = Some brace -> plain inner ->
  sub_block o c keep 0 (o ++ inner ++ c ++ post)
  = (if keep then inner else []) ++ sub_block o c keep 0 post.
Proof.
  intros Ho Hc Hi. destruct o as [|o0 o]; [done|].
  change (sub_block (o0 :: o) c keep 0 ((o0 :: o) ++ inner ++ c ++ post))
    with (match match_block (o0 :: o) c ((o0 :: o) ++ inner ++ c ++ post) with
          | Some inner' =>
              (if keep then inner' else [])
                ++ sub_block (o0 :: o) c keep
                     (length (o0 :: o) + length inner' + length c - 1)
                     (o ++ inner ++ c ++ post)
          | None => o0 :: sub_block (o0 :: o) c keep 0 (o ++ inner ++ c ++ post)
          end).
  unfold match_block. rewrite startswith_app.
  rewrite drop_app_length.
  rewrite (find_close_inner c inner post Hc Hi).
  f_equal.
  replace (length (o0 :: o) + length inner + length c - 1)%nat
    with (length (o ++ inner ++ c)) by (rewrite !length_app; simpl; lia).
  replace (o ++ inner ++ c ++ post) with ((o ++ inner ++ c) ++ post)
    by (by rewrite <- !app_assoc).
  apply sub_block_skip.
Qed.

Lemma sub_block_plain (o c : pystr) (keep : bool) (s : pystr) :
  head o = Some brace -> plain s -> sub_block o c keep 0 s = s.
Proof.
  intros Ho Hs. rewrite <- (app_nil_r s) at 1.
  rewrite sub_block_pass by (by apply pass_plain).
  simpl. by rewrite app_nil_r.
Qed.

Lemma strip_block_plain (nm : pystr) (keep : bool) (s : pystr) :
  plain s -> strip_block nm keep s = s.
Proof. intros Hs. unfold strip_block. by apply sub_block_plain. Qed.

Lemma render_plain_text (s : pystr) company slug summary shot :
  plain s -> render_from_template s company slug summary shot = s.
Proof.
  intros Hs. unfold render_from_template.
  rewrite (strip_block_plain (lit "WEBSITE") _ s Hs).
  rewrite (strip_block_plain (lit "SCREENSHOT") _ s Hs).
  cbn [fold_left fst snd].
  repeat (rewrite (replace_plain _ _ s); [|reflexivity | exact Hs]).
  reflexivity.
Qed.

Lemma plain_app (a b : pystr) : plain a -> plain b -> plain (a ++ b).
Proof. unfold plain. intros Ha Hb. apply Forall_app. by split. Qed.

End RenderMore.

(** ** More about dicts *)

Section DictMore.

Lemma dict_set_same (k : pystr) (v : json) (d : dict) :
  dict_get k d = Some v -> dict_set k v d = d.
Proof.
  induction d as [|[k' v'] r IH]; simpl; [discriminate|].
  destruct (Text.eqb k k') eqn:Hk.
  - intros H. injection H as ->. apply eqb_eq in Hk. by subst.
  - intros H. by rewrite IH.
Qed.

Lemma dict_set_set (k : pystr) (v v' : json) (d : dict) :
  dict_set k v (dict_set k v' d) = dict_set k v d.
Proof.
  induction d as [|[k0 v0] r IH]; simpl.
  - by rewrite eqb_refl.
  - destruct (Text.eqb k k0) eqn:Hk; simpl.
    + by rewrite eqb_refl.
    + by rewrite Hk, IH.
Qed.

Lemma dict_setdefault_same (k : pystr) (v x : json) (d : dict) :
  dict_get k d = Some x -> dict_setdefault k v d = d.
Proof. intros H. unfold dict_setdefault. by rewrite H. Qed.

End DictMore.

(** ** create_company.py: more about [upsert_sites_json] *)

Section UpsertMore.
Import Create.
Variable E : env.

Lemma fill_entry_idem slug nm sm (d : dict) :
  fill_entry slug nm sm (fill_entry slug nm sm d) = fill_entry slug nm sm d.
Proof.
  set (d4 := fill_entry slug nm sm d).
  unfold fill_entry at 1.
  rewrite (dict_set_same (lit "name") (JStr nm) d4) by apply fill_entry_name.
  rewrite (dict_set_same (lit "description") (JStr sm) d4)
    by apply fill_entry_description.
  rewrite (dict_setdefault_same (lit "tag") _ _ d4 (fill_entry_tag slug nm sm d)).
  by rewrite (dict_setdefault_same (lit "logoUrl") _ _ d4 (fill_entry_logo slug nm sm d)).
Qed.

Lemma find_site_none (slug : pystr) (sites : list json) :
  forall k, find_site slug k sites = Ok None -> Forall (other_entry slug) sites.
Proof.
  induction sites as [|s r IH]; intros k H; [constructor|].
  destruct s as [| | | | |d0]; try discriminate.
  simpl in H. destruct (eq_str (dict_get (lit "id") d0) slug) eqn:Hd0; [discriminate|].
  constructor; [by exists d0 | by eapply IH].
Qed.

Lemma find_site_absent (slug : pystr) (sites : list json) :
  Forall (other_entry slug) sites -> forall k, find_site slug k sites = Ok None.
Proof.
  induction 1 as [|s r [d [-> Hd]] _ IH]; intros k; [reflexivity|].
  simpl. by rewrite Hd.
Qed.

Lemma upsert_value_again slug nm sm (data d1 : json) :
  upsert_value E slug nm sm data = Ok d1 ->
  upsert_value E slug nm sm d1 = Ok d1.
Proof.
  unfold upsert_value at 1.
  destruct data as [| | | | |top]; try discriminate.
  set (sites := match dict_get (lit "sites") top with
                | Some (JArr l) => l
                | _ => []
                end).
  destruct (find_site slug 0 sites) as [found|e] eqn:Hfind; [|discriminate].
  set (sites' := match found with
                 | Some (i, d) => <[i := JObj (fill_entry slug nm sm d)]> sites
                 | None => sites ++ [JObj (fill_entry slug nm sm (new_entry slug))]
                 end).
  set (top1 := dict_set (lit "sites") (JArr sites')
                 (dict_set (lit "updated") (JStr (today E)) top)).
  intros H. injection H as <-.
  assert (Hs1 : dict_get (lit "sites") top1 = Some (JArr sites'))
    by apply dict_get_set_eq.
  assert (Hu1 : dict_get (lit "updated") top1 = Some (JStr (today E))).
  { unfold top1. rewrite dict_get_set_ne by lit_ne. apply dict_get_set_eq. }
  assert (Hagain : exists i d',
            find_site slug 0 sites' = Ok (Some (i, d'))
            /\ sites' !! i = Some (JObj (fill_entry slug nm sm d'))).
  { destruct found as [[j d]|].
    - apply find_site_found in Hfind as [i [Hj [Hi [Hd Hmin]]]].
      simpl in Hj. subst j.
      assert (Hlt : (i < length sites)%nat) by (by eapply lookup_lt_Some).
      exists i, (fill_entry slug nm sm d). split.
      + apply (find_site_first slug sites' i 0).
        * unfold sites'. by apply list_lookup_insert_eq.
        * by rewrite fill_entry_id.
        * intros i' s Hi' Hs. apply (Hmin i' s Hi').
          unfold sites' in Hs. rewrite list_lookup_insert_ne in Hs by lia. exact Hs.
      + rewrite fill_entry_idem. unfold sites'. by apply list_lookup_insert_eq.
    - apply find_site_none in Hfind.
      exists (length sites), (fill_entry slug nm sm (new_entry slug)). split.
      + replace (length sites) with (0 + length sites)%nat by lia.
        apply (find_site_first slug sites' (length sites) 0).
        * unfold sites'. by rewrite lookup_app_r, Nat.sub_diag by lia.
        * rewrite fill_entry_id. apply new_entry_id.
        * intros i' s Hi' Hs. unfold sites' in Hs.
          rewrite lookup_app_l in Hs by exact Hi'.
          rewrite Forall_lookup in Hfind. by eapply Hfind.
      + rewrite fill_entry_idem. unfold sites'.
        by rewrite lookup_app_r, Nat.sub_diag by lia. }
  destruct Hagain as [i [d' [Hf Hi]]].
  unfold upsert_value. rewrite Hs1, Hf.
  rewrite (list_insert_id sites' i _ Hi).
  rewrite (dict_set_same (lit "updated") _ top1 Hu1).
  by rewrite (dict_set_same (lit "sites") _ top1 Hs1).
Qed.

End UpsertMore.

(** ** archive_company.py: more about [main] *)

Section ArchiveMore.
Import Archive.
Variable E : env.

Lemma set_archived_found company_id flag (sites : list json) :
  forall (i : nat) (d : dict),
    sites !! i = Some (JObj d) ->
    eq_str (dict_get (lit "id") d) company_id = true ->
    (forall j s, (j < i)%nat -> sites !! j = Some s -> other_entry company_id s) ->
    set_archived company_id flag sites
    = Ok (Some (<[i := JObj (dict_set (lit "archived") (JBool flag) d)]> sites)).
Proof.
  induction sites as [|s r IH]; intros i d Hi Hd Hmin; [done|].
  destruct i as [|i]; simpl in Hi.
  - injection Hi as ->. simpl. by rewrite Hd.
  - destruct (Hmin 0%nat s) as [d0 [-> Hd0]]; [lia | reflexivity |].
    simpl. rewrite Hd0.
    rewrite (IH i d Hi Hd); [reflexivity|].
    intros j s Hj Hs. apply (Hmin (S j)); [lia | exact Hs].
Qed.

Lemma set_archived_twice company_id (a b : bool) (sites : list json) :
  forall s1,
    set_archived company_id a sites = Ok (Some s1) ->
    set_archived company_id b s1 = set_archived company_id b sites.
Proof.
  induction sites as [|s r IH]; intros s1 H; [discriminate|].
  destruct s as [| | | | |d]; try discriminate.
  simpl in H. simpl.
  destruct (eq_str (dict_get (lit "id") d) company_id) eqn:Hd.
  - injection H as <-. simpl.
    rewrite dict_get_set_ne by lit_ne. rewrite Hd.
    by rewrite dict_set_set.
  - destruct (set_archived company_id a r) as [[r'|]|e]; try discriminate.
    injection H as <-. simpl. rewrite Hd.
    by rewrite (IH r' eq_refl).
Qed.

Lemma archive_main_cases (w w' : world) (r : result Z) :
  Archive.main E w = (r, w') ->
  (exists e, r = Raise e /\ w' = w)
  \/ (r = Ok 0%Z
      /\ exists text msg,
           w' = mkWorld (mkFs (root (w_fs w)) (Some text) (screenshots (w_fs w)))
                  (w_trace w ++ [EvWrite (lit "assets/sites.json") text; EvPrint msg])).
Proof.
  assert (Hfail : forall e, (Raise e, w) = (r, w') ->
            (exists e, r = Raise e /\ w' = w)
            \/ (r = Ok 0%Z
                /\ exists text msg,
                     w' = mkWorld (mkFs (root (w_fs w)) (Some text) (screenshots (w_fs w)))
                            (w_trace w
                               ++ [EvWrite (lit "assets/sites.json") text; EvPrint msg]))).
  { intros e H. injection H as <- <-. left. by exists e. }
  unfold Archive.main, bind, lift, get_fs, raise.
  destruct (parse_issue _ _ _) as [[act cid]|e0]; [|apply Hfail].
  destruct (sites_file (w_fs w)) as [text|]; [|apply Hfail].
  destruct (json_loads E text) as [[| | | | |top]|]; try apply Hfail.
  destruct (match dict_get (lit "sites") top with Some v => v | None => JArr [] end);
    try apply Hfail.
  destruct (set_archived _ _ _) as [[sites'|]|e0]; try apply Hfail.
  unfold write_sites, bind, get_fs, emit, put_fs, ret. simpl.
  intros H. injection H as <- <-. right. split; [reflexivity|].
  eexists _, _. by rewrite <- app_assoc.
Qed.

End ArchiveMore.

(** ** generate_sites.py: more about the folders and the old entries *)

Section SortedMore.

Lemma leb_total (a b : pystr) : Text.leb a b = false -> Text.leb b a = true.
Proof.
  revert b. induction a as [|x a IH]; intros [|y b]; simpl; try done.
  intros H. apply orb_false_iff in H as [Hlt H].
  apply N.ltb_ge in Hlt.
  destruct (y <? x) eqn:Hyx; [reflexivity|]. simpl.
  apply N.ltb_ge in Hyx.
  assert (Heq : x = y) by lia. subst y.
  rewrite N.eqb_refl in *. simpl in *. by apply IH.
Qed.

Lemma insert_sorted_head (x : pystr) (l : list pystr) :
  head (insert_sorted x l) = Some x
  \/ (exists y, head l = Some y /\ head (insert_sorted x l) = Some y
                /\ Text.leb x y = false).
Proof.
  destruct l as [|y r]; simpl; [by left|].
  destruct (Text.leb x y) eqn:Hxy; [by left|].
  right. by exists y.
Qed.

Lemma insert_sorted_ascending (x : pystr) (l : list pystr) :
  ascending l = true -> ascending (insert_sorted x l) = true.
Proof.
  induction l as [|y r IH]; intros Hl; [reflexivity|].
  simpl. destruct (Text.leb x y) eqn:Hxy.
  - simpl. by rewrite Hxy.
  - simpl in Hl. apply andb_true_iff in Hl as [Hyr Hr].
    specialize (IH Hr).
    change (ascending (y :: insert_sorted x r) = true).
    simpl. rewrite IH, andb_true_r.
    destruct (insert_sorted_head x r) as [Hh|[z [Hz [Hh _]]]].
    + destruct (insert_sorted x r) as [|h t]; [reflexivity|].
      simpl in Hh. injection Hh as ->. by apply leb_total.
    + destruct (insert_sorted x r) as [|h t]; [reflexivity|].
      simpl in Hh. injection Hh as ->.
      destruct r as [|z' r']; [discriminate|]. simpl in Hz. injection Hz as ->.
      exact Hyr.
Qed.

Lemma sorted_ascending (l : list pystr) : ascending (sorted l) = true.
Proof.
  induction l as [|x r IH]; [reflexivity|].
  simpl. by apply insert_sorted_ascending.
Qed.

Lemma insert_sorted_In (x y : pystr) (l : list pystr) :
  In y (insert_sorted x l) <-> y = x \/ In y l.
Proof.
  induction l as [|z r IH]; simpl.
  - split; [intros [->|[]]; by left | intros [->|[]]; by left].
  - destruct (Text.leb x z); simpl.
    + split; [intros [->|H]; [by left | by right] | intros [->|H]; [by left | by right]].
    + rewrite IH. split.
      * intros [->|[->|H]]; [right; by left | by left | right; by right].
      * intros [->|[->|H]]; [right; by left | by left | right; by right].
Qed.

Lemma sorted_In (y : pystr) (l : list pystr) : In y (sorted l) <-> In y l.
Proof.
  induction l as [|x r IH]; [reflexivity|].
  simpl. rewrite insert_sorted_In, IH.
  split; [intros [->|H]; [by left | by right] | intros [->|H]; [by left | by right]].
Qed.

Lemma sorted_length (l : list pystr) : length (sorted l) = length l.
Proof.
  induction l as [|x r IH]; [reflexivity|].
  simpl. rewrite <- IH. generalize (sorted r). clear.
  intros l. induction l as [|z t IH]; [reflexivity|].
  simpl. destruct (Text.leb x z); simpl; [reflexivity | by rewrite IH].
Qed.

End SortedMore.

Section GenerateMore.
Import Generate.
Variable E : env.

Lemma exclude_In (d : pystr) :
  existsb (Text.eqb d) EXCLUDE = false <-> ~ In d EXCLUDE.
Proof.
  split.
  - intros H Hin.
    assert (Ht : existsb (Text.eqb d) EXCLUDE = true).
    { apply existsb_exists. exists d. split; [exact Hin | apply eqb_refl]. }
    congruence.
  - intros H. destruct (existsb (Text.eqb d) EXCLUDE) eqn:Hex; [|reflexivity].
    apply existsb_exists in Hex as [x [Hin Hx]].
    apply eqb_eq in Hx. by subst.
Qed.

Lemma detect_In (f : fs) (d : pystr) :
  In d (detect_company_dirs f)
  <-> (exists html, In (d, Dir (Some html)) (root f)) /\ ~ In d EXCLUDE.
Proof.
  unfold detect_company_dirs. rewrite sorted_In, in_flat_map. split.
  - intros [[n x] [Hin Hd]]. cbn [fst snd] in Hd.
    destruct x as [|[html|]]; try done.
    destruct (existsb (Text.eqb n) EXCLUDE) eqn:Hex; [done|].
    destruct Hd as [<-|[]].
    split; [by exists html | by apply exclude_In].
  - intros [[html Hin] Hex]. exists (d, Dir (Some html)). split; [exact Hin|].
    cbn [fst snd]. apply exclude_In in Hex. rewrite Hex. by left.
Qed.

Lemma index_sites_app (a b : list json) :
  forall out,
    index_sites out (a ++ b)
    = match index_sites out a with
      | Ok o => index_sites o b
      | Raise e => Raise e
      end.
Proof.
  induction a as [|s a IH]; intros out; [reflexivity|].
  destruct s as [| | | | |d]; try reflexivity.
  simpl. destruct (dict_get (lit "id") d) as [[| | |[|c k]|[|x l]|[|x l]]|];
    try reflexivity; apply IH.
Qed.

Lemma index_sites_others (x : pystr) (l : list json) :
  Forall (other_entry x) l ->
  Forall (fun s => indexable s = true) l ->
  forall out, exists out',
    index_sites out l = Ok out' /\ existing_get x out' = existing_get x out.
Proof.
  induction 1 as [|s r [d [-> Hd]] _ IH]; intros Hix out.
  - by exists out.
  - inversion Hix as [|? ? Hs Hr]; subst. specialize (IH Hr).
    simpl in Hs. simpl.
    destruct (dict_get (lit "id") d) as [[| | |[|c k]|[|y l]|[|y l]]|] eqn:Hid;
      try discriminate; try apply IH.
    destruct (IH (existing_set (c :: k) d out)) as [out' [Ho Hg]].
    exists out'. split; [exact Ho|]. rewrite Hg.
    apply existing_get_set_ne. intros Heq.
    simpl in Hd. rewrite Heq, eqb_refl in Hd. discriminate.
Qed.

Lemma index_sites_unique (x : pystr) (pre post : list json) (d : dict) :
  x <> [] ->
  eq_str (dict_get (lit "id") d) x = true ->
  Forall (other_entry x) (pre ++ post) ->
  Forall (fun s => indexable s = true) (pre ++ post) ->
  exists out,
    index_sites [] (pre ++ JObj d :: post) = Ok out /\ existing_get x out = d.
Proof.
  intros Hx Hd Hother Hix.
  apply Forall_app in Hother as [Ho1 Ho2]. apply Forall_app in Hix as [Hi1 Hi2].
  destruct (index_sites_others x pre Ho1 Hi1 []) as [out1 [H1 _]].
  rewrite index_sites_app, H1.
  assert (Hid : dict_get (lit "id") d = Some (JStr x)).
  { unfold eq_str in Hd. destruct (dict_get (lit "id") d) as [[| | |t| |]|]; try done.
    apply eqb_eq in Hd. by subst. }
  simpl. rewrite Hid. destruct x as [|c k]; [done|].
  destruct (index_sites_others (c :: k) post Ho2 Hi2 (existing_set (c :: k) d out1))
    as [out [H2 Hg]].
  exists out. split; [exact H2|]. rewrite Hg. apply existing_get_set_eq.
Qed.

Lemma index_sites_bad (a b : list json) (s : json) :
  indexable s = false ->
  forall out, exists e, index_sites out (a ++ s :: b) = Raise e.
Proof.
  intros Hs. induction a as [|t a IH]; intros out.
  - destruct s as [| | | | |d]; try by eexists. simpl in Hs. simpl.
    destruct (dict_get (lit "id") d) as [[| | |[|c k]|[|y l]|[|y l]]|];
      try discriminate; by eexists.
  - destruct t as [| | | | |d]; try by eexists.
    simpl. destruct (dict_get (lit "id") d) as [[| | |[|c k]|[|y l]|[|y l]]|];
      try apply IH; by eexists.
Qed.

Lemma site_entry_default (d : pystr) : site_entry E [] d = default_entry E d.
Proof. reflexivity. Qed.

Lemma build_sites_ids (f : fs) :
  List.map entry_id (build_sites E f)
  = List.map (fun d => Some (JStr d)) (detect_company_dirs f).
Proof.
  unfold build_sites. rewrite List.map_map. apply List.map_ext.
  intros d. reflexivity.
Qed.

End GenerateMore.

(** * Further properties *)

(** ** [slugify] *)

(** X1. A slug never has two hyphens in a row: every run of characters
    outside [a-z0-9] has become one hyphen. *)
Theorem slugify_no_adjacent_hyphens (lower_ext : pystr -> pystr -> N -> pystr)
    (s : pystr) :
  no_pair Slug.hyphen (Slug.slugify lower_ext s) = true
  /\ forall a b : pystr,
       Slug.slugify lower_ext s <> a ++ [Slug.hyphen; Slug.hyphen] ++ b.
Proof.
  pose proof (slugify_no_double lower_ext s) as Hn.
  split; [exact Hn|].
  intros a b Heq. rewrite Heq in Hn.
  by rewrite (no_pair_infix Slug.hyphen a b) in Hn.
Qed.

(** X2. [slugify] is idempotent: the slug of a slug is that slug, so a
    slug given as company name leads back to the same slug. *)
Theorem slugify_idempotent (lower_ext : pystr -> pystr -> N -> pystr) (s : pystr) :
  Slug.slugify lower_ext (Slug.slugify lower_ext s) = Slug.slugify lower_ext s.
Proof.
  apply slugify_fixed.
  - apply slugify_format_all.
  - apply slugify_no_double.
Qed.

(** X3. A name made of ASCII punctuation, control characters and blanks
    only (no letter, no digit, no ampersand) gets the slug "company". *)
Theorem slugify_marks_company (lower_ext : pystr -> pystr -> N -> pystr) (s : pystr) :
  Forall (fun c => ascii_mark c = true) s ->
  Slug.slugify lower_ext s = lit "company".
Proof.
  intros H. unfold Slug.slugify.
  by rewrite (slug_core_marks lower_ext s H).
Qed.

Lemma slugify_marks_company_witness :
  Slug.slugify (lower_ext Sample.create_env) Sample.marks_only = lit "company".
Proof.
  apply (slugify_marks_company (lower_ext Sample.create_env) Sample.marks_only).
  each_char.
Defined.

(** ** create_company.py: the issue body and the page *)

(** X4. A request that [parse_issue_body] returns has a name and a tone
    that are not empty, a website that is never the placeholder "-", and
    all three fields are stripped of white space at both ends. *)
Theorem parse_issue_body_fields (E : env) (body : pystr) (req : Create.CompanyRequest) :
  Create.parse_issue_body E body = Ok req ->
  Create.name req <> [] /\ Create.tone req <> []
  /\ Create.website req <> lit "-"
  /\ strip (Create.name req) = Create.name req
  /\ strip (Create.website req) = Create.website req
  /\ strip (Create.tone req) = Create.tone req.
Proof.
  unfold Create.parse_issue_body. intros H.
  destruct (Create.find E body (lit "Company name")) as [|c n] eqn:Hn; [discriminate|].
  simpl in H. injection H as <-. simpl.
  split; [discriminate|].
  split; [by destruct (Create.find E body (lit "Tone"))|].
  split.
  { destruct (Text.eqb (Create.find E body (lit "Website")) (lit "-")) eqn:Hw.
    - discriminate.
    - by apply eqb_neq. }
  split; [rewrite <- Hn; apply find_stripped|].
  split.
  { destruct (Text.eqb (Create.find E body (lit "Website")) (lit "-"));
      [reflexivity | apply find_stripped]. }
  destruct (Create.find E body (lit "Tone")) as [|t ts] eqn:Ht.
  - vm_compute. reflexivity.
  - rewrite <- Ht. apply find_stripped.
Qed.

Lemma parse_issue_body_fields_witness :
  Create.name Sample.acme_request <> [] /\ Create.tone Sample.acme_request <> []
  /\ Create.website Sample.acme_request <> lit "-"
  /\ strip (Create.name Sample.acme_request) = Create.name Sample.acme_request
  /\ strip (Create.website Sample.acme_request) = Create.website Sample.acme_request
  /\ strip (Create.tone Sample.acme_request) = Create.tone Sample.acme_request.
Proof.
  apply (parse_issue_body_fields Sample.create_env (lit "**Company name:** Acme & Co")
           Sample.acme_request).
  vm_compute. reflexivity.
Defined.

(** X5. When the body starts with the name label (in any letter case),
    the name is the first text after it that is not white space, up to
    the end of its line and stripped.  The white space skipped may hold
    line breaks: a label with nothing after it on its line takes the
    next line that is not blank as the name. *)
Theorem parse_issue_body_name (E : env) (lab ws x post : pystr) (c : N) :
  List.map ascii_lower lab = List.map ascii_lower (lit "**Company name:**") ->
  Forall (fun a => isspace a = true) ws ->
  head x = Some c -> isspace c = false ->
  Forall (fun a => a <> newline) x ->
  (post = [] \/ head post = Some newline) ->
  exists req,
    Create.parse_issue_body E (lab ++ ws ++ x ++ post) = Ok req
    /\ Create.name req = strip x.
Proof.
  intros Hlab Hws Hx Hc Hnl Hpost.
  unfold Create.parse_issue_body.
  rewrite (find_at_start E (lit "Company name") lab ws x post c Hlab Hws Hx Hc Hnl Hpost).
  destruct x as [|y x]; [discriminate|]. injection Hx as ->.
  destruct (strip_head_kept c x Hc) as [t Ht]. rewrite Ht.
  eexists. split; reflexivity.
Qed.

Lemma parse_issue_body_name_witness :
  exists req,
    Create.parse_issue_body Sample.create_env Sample.late_name_body = Ok req
    /\ Create.name req = lit "Acme & Co".
Proof.
  apply (parse_issue_body_name Sample.create_env (lit "**company NAME:**")
           (lit (Sample.line_feed ++ "  ")) (lit "Acme & Co ")
           (lit (Sample.line_feed ++ "**Website:** -")) 65).
  - reflexivity.
  - each_char.
  - reflexivity.
  - reflexivity.
  - match goal with
    | |- Forall _ ?s =>
        let v := eval vm_compute in s in
        change s with v; repeat (apply Forall_cons; [discriminate|]); apply Forall_nil
    end.
  - right. reflexivity.
Defined.


(** X7. When the page of the website cannot be fetched, the create
    script raises after it has copied the template folder, and nothing
    else is written.  A second run then finds the folder and stops
    after one printed line, with nothing written: the page and the
    manifest entry are never made. *)
Theorem create_fetch_failure_blocks_retry (E : env) (w : world)
    (req : Create.CompanyRequest) (idx : option pystr) (e : exn) :
  Create.parse_issue_body E (getenv E (lit "ISSUE_BODY")) = Ok req ->
  Create.website req <> [] ->
  exists_in_root (Slug.slugify (lower_ext E) (Create.name req)) (w_fs w) = false ->
  lookup_node Create.template_name (root (w_fs w)) = Some (Dir idx) ->
  http_get E (Create.with_scheme E (Create.website req)) = Raise e ->
  let slug := Slug.slugify (lower_ext E) (Create.name req) in
  let w1 :=
    mkWorld (mkFs (Create.set_node slug (Dir idx) (root (w_fs w)))
                  (sites_file (w_fs w)) (screenshots (w_fs w)))
            (w_trace w ++ [EvCopyTree slug]
               ++ [EvGet (Create.with_scheme E (Create.website req))]) in
  Create.main E w = (Raise e, w1)
  /\ exists msg,
       Create.main E w1 = (Ok 0%Z, mkWorld (w_fs w1) (w_trace w1 ++ [EvPrint msg])).
Proof.
  intros Hp Hweb Hex Htpl Hget slug w1. subst w1 slug.
  set (slug := Slug.slugify (lower_ext E) (Create.name req)) in *.
  assert (Hnone : lookup_node slug (root (w_fs w)) = None).
  { unfold exists_in_root in Hex. by destruct (lookup_node slug (root (w_fs w))). }
  split.
  - unfold Create.main.
    rewrite (parse_issue_body_nonblank _ _ _ Hp). simpl.
    rewrite Hp. unfold bind, lift, get_fs. simpl.
    fold slug. rewrite Hex. unfold exists_in_root. rewrite Htpl. simpl.
    unfold Create.copytree, bind, get_fs, emit, put_fs. simpl. rewrite Htpl. simpl.
    unfold Create.fetch_site_text.
    destruct (Create.website req) as [|u us] eqn:Hu; [done|].
    simpl. unfold bind, emit, lift. simpl. rewrite Hget.
    by rewrite <- app_assoc.
  - eexists. unfold Create.main.
    rewrite (parse_issue_body_nonblank _ _ _ Hp). simpl.
    rewrite Hp. unfold bind, lift, get_fs. simpl.
    fold slug. unfold exists_in_root. simpl.
    by rewrite (lookup_set_node_new slug (Dir idx) _ Hnone).
Qed.

Lemma create_fetch_failure_blocks_retry_witness :
  let w1 :=
    mkWorld
      (mkFs [(lit "company-template", Dir (Some (lit "<h1>{{COMPANY_NAME}}</h1>")));
             (lit "acme-and-co", Dir (Some (lit "<h1>{{COMPANY_NAME}}</h1>")))]
            None [])
      [EvCopyTree (lit "acme-and-co"); EvGet (lit "https://acme.com")] in
  Create.main Sample.offline_env (mkWorld Sample.fresh_repo []) = (Raise HTTPError, w1)
  /\ exists msg,
       Create.main Sample.offline_env w1
       = (Ok 0%Z, mkWorld (w_fs w1) (w_trace w1 ++ [EvPrint msg])).
Proof.
  apply (create_fetch_failure_blocks_retry Sample.offline_env
           (mkWorld Sample.fresh_repo []) Sample.offline_request
           (Some (lit "<h1>{{COMPANY_NAME}}</h1>")) HTTPError).
  - vm_compute. reflexivity.
  - vm_compute. discriminate.
  - vm_compute. reflexivity.
  - vm_compute. reflexivity.
  - vm_compute. reflexivity.
Defined.

(** X8. Whatever the page holds, the four texts [fetch_site_text]
    returns for it are these: a stripped title, a stripped meta
    description, a stripped image address, and a text of at most
    [max_chars] characters plus the ellipsis. *)
Theorem fetch_site_text_bounded (E : env) (url : pystr) (max_chars : Z)
    (w w' : world) (fields : list pystr) :
  nonempty url = true ->
  (0 <= max_chars)%Z ->
  Create.fetch_site_text E url max_chars w = (Ok fields, w') ->
  exists title meta_desc text og_image,
    fields = [title; meta_desc; text; og_image]
    /\ strip title = title /\ strip meta_desc = meta_desc
    /\ strip og_image = og_image
    /\ (Z.of_nat (length text) <= max_chars + 1)%Z.
Proof.
  intros Hu Hm. unfold Create.fetch_site_text. rewrite Hu. simpl.
  unfold bind, emit, lift. simpl.
  destruct (http_get E (Create.with_scheme E url)) as [p|e]; [|discriminate].
  unfold ret. intros H. injection H as <- _.
  eexists _, _, _, _. split; [reflexivity|].
  split; [apply strip_strip|].
  split; [destruct (meta_content p) as [[|c r]|]; try reflexivity; apply strip_strip|].
  split; [destruct (og_content p) as [[|c r]|]; try reflexivity; apply strip_strip|].
  by apply clamp_text_length.
Qed.

Lemma fetch_site_text_bounded_witness :
  exists title meta_desc text og_image,
    [[]; []; lit "x " ++ [Create.ellipsis]; []] = [title; meta_desc; text; og_image]
    /\ strip title = title /\ strip meta_desc = meta_desc
    /\ strip og_image = og_image
    /\ (Z.of_nat (length text) <= 2 + 1)%Z.
Proof.
  apply (fetch_site_text_bounded Sample.short_env (lit "acme.com") 2
           (mkWorld Sample.fresh_repo [])
           (mkWorld Sample.fresh_repo [EvGet (lit "https://acme.com")])).
  - reflexivity.
  - lia.
  - vm_compute. reflexivity.
Defined.

(** X9. The text [fetch_site_text] keeps of a page is tidy: it holds no
    tab, no two blanks in a row, no three line feeds in a row, and no
    white space at either end. *)
Theorem collapse_text_tidy (text : pystr) :
  Forall (fun c => c <> 9) (Create.collapse_text text)
  /\ no_pair 32 (Create.collapse_text text) = true
  /\ no_triple newline (Create.collapse_text text) = true
  /\ strip (Create.collapse_text text) = Create.collapse_text text.
Proof.
  destruct (collapse_text_infix text) as [p [q Hpq]].
  split; [|split; [|split]].
  - pose proof (sub_newlines_chars _ _ (sub_blanks_no_tab text false) 0%nat) as H.
    rewrite Hpq in H. apply Forall_app in H as [_ H]. by apply Forall_app in H as [H _].
  - destruct (sub_blanks_no_pair text false) as [H _].
    pose proof (sub_newlines_no_pair _ H 0%nat) as H'.
    rewrite Hpq in H'. by apply no_pair_suffix, no_pair_prefix in H'.
  - destruct (sub_newlines_no_triple (sub_blanks false text) 0%nat) as [H _].
    rewrite Hpq in H. by apply no_triple_suffix, no_triple_prefix in H.
  - apply strip_strip.
Qed.

(** ** create_company.py: [openai_summary] *)

(** X10. Whatever the service answers, a run of [openai_summary] leaves
    the file system alone, makes at most five requests, and does nothing
    but requests with exactly one sleep between each two of them. *)
Theorem openai_summary_polls (E : env) (company : Create.CompanyRequest)
    (title meta_desc page_text : pystr) (w w' : world) (r : result pystr) :
  Create.openai_summary E company title meta_desc page_text w = (r, w') ->
  w_fs w' = w_fs w
  /\ exists tr, w_trace w' = w_trace w ++ tr
                /\ polling tr = true /\ (posts tr <= 5)%nat.
Proof.
  unfold Create.openai_summary.
  destruct (negb (nonempty (strip (getenv E (lit "OPENAI_API_KEY"))))).
  - intros H. inversion H; subst. split; [reflexivity|].
    exists []. rewrite app_nil_r. repeat split. simpl. lia.
  - intros H. apply (attempts_polling E _ 5 1) in H as [Hf [tr [Ht [Hp [Hn _]]]]];
      [|reflexivity].
    split; [exact Hf|]. by exists tr.
Qed.

Lemma openai_summary_polls_witness :
  w_fs (mkWorld Sample.fresh_repo
          [EvPost 1; EvSleep 2; EvPost 2; EvSleep 2; EvPost 3])
  = w_fs (mkWorld Sample.fresh_repo [])
  /\ exists tr,
       w_trace (mkWorld Sample.fresh_repo
                  [EvPost 1; EvSleep 2; EvPost 2; EvSleep 2; EvPost 3])
       = w_trace (mkWorld Sample.fresh_repo []) ++ tr
       /\ polling tr = true /\ (posts tr <= 5)%nat.
Proof.
  apply (openai_summary_polls Sample.patient_env Sample.acme_request [] [] []
           (mkWorld Sample.fresh_repo [])
           (mkWorld Sample.fresh_repo
              [EvPost 1; EvSleep 2; EvPost 2; EvSleep 2; EvPost 3])
           (Ok (lit "Acme makes anvils."))).
  vm_compute. reflexivity.
Defined.

(** X11. A summary that [openai_summary] returns is never empty: an
    empty answer of the service is replaced by the fallback text, and
    each of the three fallback texts has characters. *)
Theorem openai_summary_nonempty (E : env) (company : Create.CompanyRequest)
    (title meta_desc page_text : pystr) (w w' : world) (s : pystr) :
  Create.openai_summary E company title meta_desc page_text w = (Ok s, w') ->
  s <> [].
Proof.
  unfold Create.openai_summary.
  destruct (negb (nonempty (strip (getenv E (lit "OPENAI_API_KEY"))))).
  - intros H. inversion H; subst. apply fallback_nonempty.
  - apply attempts_nonempty, fallback_nonempty.
Qed.

Lemma openai_summary_nonempty_witness : lit "Acme makes anvils." <> [].
Proof.
  apply (openai_summary_nonempty Sample.patient_env Sample.acme_request [] [] []
           (mkWorld Sample.fresh_repo [])
           (mkWorld Sample.fresh_repo
              [EvPost 1; EvSleep 2; EvPost 2; EvSleep 2; EvPost 3])
           (lit "Acme makes anvils.")).
  vm_compute. reflexivity.
Defined.

(** X12. With a service that never answers with success and sends no
    retry-after header, [openai_summary] does not raise: with or without
    a key it returns the fallback text, and it leaves the file system
    alone. *)
Theorem openai_summary_falls_back (E : env) (company : Create.CompanyRequest)
    (title meta_desc page_text : pystr) (w : world) :
  refusing E ->
  drawn E ->
  exists w',
    Create.openai_summary E company title meta_desc page_text w
    = (Ok (Create.fallback company title meta_desc), w')
    /\ w_fs w' = w_fs w.
Proof.
  intros Hr Hd. unfold Create.openai_summary.
  destruct (negb (nonempty (strip (getenv E (lit "OPENAI_API_KEY"))))).
  - by exists w.
  - apply attempts_refusing; [exact Hr|]. intros n. apply Hd.
Qed.

Lemma openai_summary_falls_back_witness :
  exists w',
    Create.openai_summary Sample.refused_env Sample.acme_request (lit "Acme") [] []
      (mkWorld Sample.fresh_repo [])
    = (Ok (Create.fallback Sample.acme_request (lit "Acme") []), w')
    /\ w_fs w' = w_fs (mkWorld Sample.fresh_repo []).
Proof.
  apply (openai_summary_falls_back Sample.refused_env Sample.acme_request
           (lit "Acme") [] [] (mkWorld Sample.fresh_repo [])).
  - intros n. change (http_post Sample.refused_env n)
      with (if (n <? 2)%nat
            then Response (mkResponse 503 None JNull)
            else Response (mkResponse 401 None JNull)).
    destruct (n <? 2)%nat; split; reflexivity.
  - intros n. split; vm_compute; discriminate.
Defined.

(** X13. With a key, and a service that is down at every request (a
    network failure, or one of the statuses 429, 500, 502, 503, 504 with
    no retry-after header), [openai_summary] makes five requests, sleeps
    after each of the first four, and returns the fallback text.  The
    sleeps double from one to the next, up to the random draw: between
    1.5 and 2.25 seconds, then between 3 and 3.75, 6 and 6.75, 12 and
    12.75. *)
Theorem openai_summary_unavailable (E : env) (company : Create.CompanyRequest)
    (title meta_desc page_text : pystr) (w : world) :
  strip (getenv E (lit "OPENAI_API_KEY")) <> [] ->
  unavailable E ->
  drawn E ->
  exists q1 q2 q3 q4 : Q,
    Create.openai_summary E company title meta_desc page_text w
    = (Ok (Create.fallback company title meta_desc),
       mkWorld (w_fs w)
         (w_trace w
            ++ [EvPost 1; EvSleep q1; EvPost 2; EvSleep q2;
                EvPost 3; EvSleep q3; EvPost 4; EvSleep q4; EvPost 5]))
    /\ (3 # 2 <= q1)%Q /\ (q1 <= 9 # 4)%Q
    /\ (3 <= q2)%Q /\ (q2 <= 15 # 4)%Q
    /\ (6 <= q3)%Q /\ (q3 <= 27 # 4)%Q
    /\ (12 <= q4)%Q /\ (q4 <= 51 # 4)%Q.
Proof.
  intros Hk Hun Hd.
  exists (Create.backoff E 1), (Create.backoff E 2),
         (Create.backoff E 3), (Create.backoff E 4).
  split.
  - unfold Create.openai_summary.
    destruct (strip (getenv E (lit "OPENAI_API_KEY"))) as [|k ks]; [done|].
    change (negb (nonempty (k :: ks))) with false. cbv iota.
    change (seq 1 Create.max_attempts) with [1; 2; 3; 4; 5]%nat.
    rewrite !(attempt_unavailable E) by (auto; apply Hd).
    simpl. unfold ret. by rewrite <- !app_assoc.
  - destruct (backoff_bounds E 1 (proj1 (Hd 1%nat)) (proj2 (Hd 1%nat))) as [L1 U1].
    destruct (backoff_bounds E 2 (proj1 (Hd 2%nat)) (proj2 (Hd 2%nat))) as [L2 U2].
    destruct (backoff_bounds E 3 (proj1 (Hd 3%nat)) (proj2 (Hd 3%nat))) as [L3 U3].
    destruct (backoff_bounds E 4 (proj1 (Hd 4%nat)) (proj2 (Hd 4%nat))) as [L4 U4].
    repeat split.
    + eapply Qle_trans; [|exact L1]. discriminate.
    + eapply Qle_trans; [exact U1|]. discriminate.
    + eapply Qle_trans; [|exact L2]. discriminate.
    + eapply Qle_trans; [exact U2|]. discriminate.
    + eapply Qle_trans; [|exact L3]. discriminate.
    + eapply Qle_trans; [exact U3|]. discriminate.
    + eapply Qle_trans; [|exact L4]. discriminate.
    + eapply Qle_trans; [exact U4|]. discriminate.
Qed.

Lemma openai_summary_unavailable_witness :
  exists q1 q2 q3 q4 : Q,
    Create.openai_summary Sample.down_env Sample.acme_request [] [] []
      (mkWorld Sample.fresh_repo [])
    = (Ok (Create.fallback Sample.acme_request [] []),
       mkWorld (w_fs (mkWorld Sample.fresh_repo []))
         (w_trace (mkWorld Sample.fresh_repo [])
            ++ [EvPost 1; EvSleep q1; EvPost 2; EvSleep q2;
                EvPost 3; EvSleep q3; EvPost 4; EvSleep q4; EvPost 5]))
    /\ (3 # 2 <= q1)%Q /\ (q1 <= 9 # 4)%Q
    /\ (3 <= q2)%Q /\ (q2 <= 15 # 4)%Q
    /\ (6 <= q3)%Q /\ (q3 <= 27 # 4)%Q
    /\ (12 <= q4)%Q /\ (q4 <= 51 # 4)%Q.
Proof.
  apply (openai_summary_unavailable Sample.down_env Sample.acme_request [] [] []
           (mkWorld Sample.fresh_repo [])).
  - vm_compute. discriminate.
  - intros n. left. reflexivity.
  - intros n. split; vm_compute; discriminate.
Defined.

(** ** create_company.py: [maybe_take_screenshot] and [render_from_template] *)

(** X14. [maybe_take_screenshot] returns a path only when the browser
    loaded the page with a status other than 401 and 403 and the page,
    in lower case, holds none of the block markers; the path is then
    "/assets/screenshots/<slug>.png", and the image is on disk. *)
Theorem screenshot_path_means_saved (E : env) (company_slug url p : pystr)
    (w w' : world) :
  Create.maybe_take_screenshot E company_slug url w = (Ok (Some p), w') ->
  p = lit "/assets/screenshots/" ++ company_slug ++ lit ".png"
  /\ existsb (Text.eqb company_slug) (screenshots (w_fs w')) = true
  /\ exists status content,
       browser E (Create.with_scheme E url) = Loaded status content
       /\ status <> 401%Z /\ status <> 403%Z
       /\ existsb (fun m => contains m (lower (lower_ext E) content))
            Create.deny_markers = false.
Proof.
  unfold Create.maybe_take_screenshot.
  destruct (nonempty url); cbn [negb]; [|by inversion 1].
  unfold bind at 1.
  destruct (mkdir_assets w) as [[[]|e] w1]; [|by inversion 1].
  destruct (browser E (Create.with_scheme E url)) as [|saved|status content] eqn:Hb.
  - by inversion 1.
  - unfold bind.
    destruct (Create.unlink_screenshot company_slug saved w1) as [[[]|e] w2];
      by inversion 1.
  - destruct ((status =? 401) || (status =? 403))%Z eqn:Hst; [by inversion 1|].
    destruct (existsb (fun m => contains m (lower (lower_ext E) content))
                Create.deny_markers) eqn:Hm.
    + unfold bind.
      destruct (Create.unlink_screenshot company_slug false w1) as [[[]|e] w2];
        by inversion 1.
    + unfold bind, get_fs, emit, put_fs, ret. simpl.
      intros H. injection H as <- <-.
      split; [reflexivity|]. split; [simpl; by rewrite eqb_refl|].
      exists status, content. split; [reflexivity|].
      apply orb_false_iff in Hst as [H1 H2].
      apply Z.eqb_neq in H1, H2. by repeat split.
Qed.

Lemma screenshot_path_means_saved_witness :
  lit "/assets/screenshots/acme-and-co.png"
  = lit "/assets/screenshots/" ++ lit "acme-and-co" ++ lit ".png"
  /\ existsb (Text.eqb (lit "acme-and-co"))
       (screenshots
          (w_fs (mkWorld Sample.stale_repo
                   [EvWrite (lit "assets/screenshots/acme-and-co.png") []]))) = true
  /\ exists status content,
       browser Sample.browsing_env (Create.with_scheme Sample.browsing_env (lit "acme.com"))
       = Loaded status content
       /\ status <> 401%Z /\ status <> 403%Z
       /\ existsb (fun m => contains m (lower (lower_ext Sample.browsing_env) content))
            Create.deny_markers = false.
Proof.
  apply (screenshot_path_means_saved Sample.browsing_env (lit "acme-and-co")
           (lit "acme.com") (lit "/assets/screenshots/acme-and-co.png")
           (mkWorld Sample.stale_repo [])
           (mkWorld Sample.stale_repo
              [EvWrite (lit "assets/screenshots/acme-and-co.png") []])).
  vm_compute. reflexivity.
Defined.

(** X15. When the browser raises, or loads a page (with a status other
    than 401 and 403) that holds a block marker, [maybe_take_screenshot]
    returns no path and leaves no image of the company on disk: an image
    saved by an earlier run is removed.  The manifest is not touched. *)
Theorem screenshot_blocked_removed (E : env) (company_slug url : pystr) (w : world) :
  nonempty url = true ->
  lookup_node (lit "assets") (root (w_fs w)) <> Some File ->
  ((exists saved, browser E (Create.with_scheme E url) = BrowserThrows saved)
   \/ exists status content,
        browser E (Create.with_scheme E url) = Loaded status content
        /\ ((status =? 401) || (status =? 403))%Z = false
        /\ existsb (fun m => contains m (lower (lower_ext E) content))
             Create.deny_markers = true) ->
  exists w',
    Create.maybe_take_screenshot E company_slug url w = (Ok None, w')
    /\ existsb (Text.eqb company_slug) (screenshots (w_fs w')) = false
    /\ sites_file (w_fs w') = sites_file (w_fs w).
Proof.
  intros Hu Ha Hb. unfold Create.maybe_take_screenshot. rewrite Hu. cbn [negb].
  unfold bind at 1.
  destruct (mkdir_assets_ok w Ha) as [w1 [Hm [Hs1 _]]]. rewrite Hm.
  destruct Hb as [[saved Hb]|[status [content [Hb [Hst Hmk]]]]]; rewrite Hb.
  - destruct (unlink_screenshot_gone company_slug saved w1) as [w2 [Hun [Hg [_ Hs2]]]].
    exists w2. unfold bind. rewrite Hun. unfold ret.
    split; [reflexivity|]. split; [exact Hg | by rewrite Hs2].
  - rewrite Hst, Hmk.
    destruct (unlink_screenshot_gone company_slug false w1) as [w2 [Hun [Hg [_ Hs2]]]].
    exists w2. unfold bind. rewrite Hun. unfold ret.
    split; [reflexivity|]. split; [exact Hg | by rewrite Hs2].
Qed.

Lemma screenshot_blocked_removed_witness :
  exists w',
    Create.maybe_take_screenshot Sample.blocked_env (lit "acme-and-co") (lit "acme.com")
      (mkWorld Sample.stale_repo []) = (Ok None, w')
    /\ existsb (Text.eqb (lit "acme-and-co")) (screenshots (w_fs w')) = false
    /\ sites_file (w_fs w') = sites_file (w_fs (mkWorld Sample.stale_repo [])).
Proof.
  apply (screenshot_blocked_removed Sample.blocked_env (lit "acme-and-co")
           (lit "acme.com") (mkWorld Sample.stale_repo [])).
  - reflexivity.
  - vm_compute. discriminate.
  - right. exists 200%Z, (lit "<h1>Access Denied</h1>").
    split; [reflexivity|]. split; vm_compute; reflexivity.
Defined.

(** X16. A template without an opening brace holds no placeholder and no
    block marker: it is rendered as it is, whatever the request. *)
Theorem render_plain_template (template_html : pystr)
    (company : Create.CompanyRequest) (slug summary : pystr)
    (screenshot_path : option pystr) :
  plain template_html ->
  Create.render_from_template template_html company slug summary screenshot_path
  = template_html.
Proof. intros H. by apply render_plain_text. Qed.

Lemma render_plain_template_witness :
  Create.render_from_template (lit "<h1>Demo</h1>") Sample.acme_request
    (lit "acme-and-co") (lit "Anvils.") None
  = lit "<h1>Demo</h1>".
Proof.
  apply (render_plain_template (lit "<h1>Demo</h1>") Sample.acme_request
           (lit "acme-and-co") (lit "Anvils.") None).
  unfold plain. plain_chars.
Defined.

(** X17. A conditional block of a template is kept, without its two
    markers, when its condition holds, and removed with its content
    otherwise: the WEBSITE block by whether the request has a website,
    the SCREENSHOT block by whether there is a screenshot path. *)
Theorem render_conditional_blocks (pre inner post : pystr)
    (company : Create.CompanyRequest) (slug summary : pystr)
    (screenshot_path : option pystr) :
  plain pre -> plain inner -> plain post ->
  Create.render_from_template
    (pre ++ lit "{#IF_WEBSITE}" ++ inner ++ lit "{/IF_WEBSITE}" ++ post)
    company slug summary screenshot_path
  = pre ++ (if nonempty (Create.website company) then inner else []) ++ post
  /\ Create.render_from_template
       (pre ++ lit "{#IF_SCREENSHOT}" ++ inner ++ lit "{/IF_SCREENSHOT}" ++ post)
       company slug summary screenshot_path
     = pre ++ (if nonempty (Create.or_empty screenshot_path) then inner else [])
           ++ post.
Proof.
  intros Hpre Hin Hpost.
  assert (Hkept : forall b : bool, plain (pre ++ (if b then inner else []) ++ post)).
  { intros b. apply plain_app; [exact Hpre|].
    apply plain_app; [|exact Hpost]. destruct b; [exact Hin | constructor]. }
  split.
  - unfold Create.render_from_template.
    set (t := pre ++ (if nonempty (Create.website company) then inner else []) ++ post).
    assert (Hw : Create.strip_block (lit "WEBSITE") (nonempty (Create.website company))
                   (pre ++ lit "{#IF_WEBSITE}" ++ inner ++ lit "{/IF_WEBSITE}" ++ post)
                 = t).
    { unfold Create.strip_block.
      rewrite sub_block_pass by (apply pass_plain; [reflexivity | exact Hpre]).
      change (lit "{#IF_" ++ lit "WEBSITE" ++ lit "}") with (lit "{#IF_WEBSITE}").
      change (lit "{/IF_" ++ lit "WEBSITE" ++ lit "}") with (lit "{/IF_WEBSITE}").
      rewrite sub_block_here; [|discriminate | reflexivity | exact Hin].
      rewrite sub_block_plain; [reflexivity | reflexivity | exact Hpost]. }
    rewrite Hw.
    rewrite (strip_block_plain (lit "SCREENSHOT") _ t (Hkept _)).
    cbn [fold_left fst snd].
    repeat (rewrite (replace_plain _ _ t); [|reflexivity | exact (Hkept _)]).
    reflexivity.
  - unfold Create.render_from_template.
    set (t := pre ++ (if nonempty (Create.or_empty screenshot_path) then inner else [])
                  ++ post).
    assert (Hw : Create.strip_block (lit "WEBSITE") (nonempty (Create.website company))
                   (pre ++ lit "{#IF_SCREENSHOT}" ++ inner ++ lit "{/IF_SCREENSHOT}"
                        ++ post)
                 = pre ++ lit "{#IF_SCREENSHOT}" ++ inner ++ lit "{/IF_SCREENSHOT}"
                       ++ post).
    { unfold Create.strip_block.
      rewrite sub_block_pass by (apply pass_plain; [reflexivity | exact Hpre]).
      rewrite sub_block_pass by literal_pass.
      rewrite sub_block_pass by (apply pass_plain; [reflexivity | exact Hin]).
      rewrite sub_block_pass by literal_pass.
      rewrite sub_block_plain; [reflexivity | reflexivity | exact Hpost]. }
    rewrite Hw.
    assert (Hs : Create.strip_block (lit "SCREENSHOT")
                   (nonempty (Create.or_empty screenshot_path))
                   (pre ++ lit "{#IF_SCREENSHOT}" ++ inner ++ lit "{/IF_SCREENSHOT}"
                        ++ post)
                 = t).
    { unfold Create.strip_block.
      rewrite sub_block_pass by (apply pass_plain; [reflexivity | exact Hpre]).
      change (lit "{#IF_" ++ lit "SCREENSHOT" ++ lit "}") with (lit "{#IF_SCREENSHOT}").
      change (lit "{/IF_" ++ lit "SCREENSHOT" ++ lit "}") with (lit "{/IF_SCREENSHOT}").
      rewrite sub_block_here; [|discriminate | reflexivity | exact Hin].
      rewrite sub_block_plain; [reflexivity | reflexivity | exact Hpost]. }
    rewrite Hs.
    cbn [fold_left fst snd].
    repeat (rewrite (replace_plain _ _ t); [|reflexivity | exact (Hkept _)]).
    reflexivity.
Qed.

Lemma render_conditional_blocks_witness :
  Create.render_from_template
    (lit "<p>" ++ lit "{#IF_WEBSITE}" ++ lit "site" ++ lit "{/IF_WEBSITE}" ++ lit "</p>")
    Sample.acme_request (lit "acme-and-co") (lit "Anvils.") (Some (lit "/shot.png"))
  = lit "<p>" ++ (if nonempty (Create.website Sample.acme_request) then lit "site" else [])
        ++ lit "</p>"
  /\ Create.render_from_template
       (lit "<p>" ++ lit "{#IF_SCREENSHOT}" ++ lit "site" ++ lit "{/IF_SCREENSHOT}"
            ++ lit "</p>")
       Sample.acme_request (lit "acme-and-co") (lit "Anvils.") (Some (lit "/shot.png"))
     = lit "<p>"
         ++ (if nonempty (Create.or_empty (Some (lit "/shot.png"))) then lit "site" else [])
         ++ lit "</p>".
Proof.
  apply (render_conditional_blocks (lit "<p>") (lit "site") (lit "</p>")
           Sample.acme_request (lit "acme-and-co") (lit "Anvils.")
           (Some (lit "/shot.png")));
    unfold plain; plain_chars.
Defined.

(** X18. The summary placeholder of a template is replaced by the
    summary: with no brace in the text around the placeholder nor in the
    summary, the page is that text with the summary in the place of
    the placeholder. *)
Theorem render_summary_placeholder (pre post : pystr)
    (company : Create.CompanyRequest) (slug summary : pystr)
    (screenshot_path : option pystr) :
  plain pre -> plain post -> plain summary ->
  Create.render_from_template (pre ++ lit "{{COMPANY_SUMMARY}}" ++ post)
    company slug summary screenshot_path
  = pre ++ summary ++ post.
Proof.
  intros Hpre Hpost Hsum.
  assert (Hout : plain (pre ++ summary ++ post)).
  { apply plain_app; [exact Hpre|]. by apply plain_app. }
  unfold Create.render_from_template.
  set (s := pre ++ lit "{{COMPANY_SUMMARY}}" ++ post).
  assert (Hblock : forall nm keep, Create.strip_block nm keep s = s).
  { intros nm keep. unfold Create.strip_block, s.
    rewrite sub_block_pass by (apply pass_plain; [reflexivity | exact Hpre]).
    rewrite sub_block_pass by literal_pass.
    rewrite sub_block_plain; [reflexivity | reflexivity | exact Hpost]. }
  rewrite !Hblock.
  cbn [fold_left fst snd].
  assert (Hskip : forall old new,
            head old = Some brace ->
            (forall i, (i < length (lit "{{COMPANY_SUMMARY}}"))%nat ->
               startswith old (drop i (lit "{{COMPANY_SUMMARY}}" ++ post)) = false) ->
            Text.replace old new s = s).
  { intros old new Ho Hl. unfold Text.replace, s.
    rewrite replace_from_pass by (apply pass_plain; [exact Ho | exact Hpre]).
    rewrite replace_from_pass by exact Hl.
    fold (Text.replace old new post). by rewrite replace_plain. }
  rewrite (Hskip (lit "{{COMPANY_NAME}}")); [|reflexivity | literal_pass].
  rewrite (Hskip (lit "{{COMPANY_WEBSITE}}")); [|reflexivity | literal_pass].
  assert (Hhere : Text.replace (lit "{{COMPANY_SUMMARY}}") summary s
                  = pre ++ summary ++ post).
  { unfold Text.replace, s.
    rewrite replace_from_pass by (apply pass_plain; [reflexivity | exact Hpre]).
    rewrite replace_from_here by discriminate.
    fold (Text.replace (lit "{{COMPANY_SUMMARY}}") summary post).
    by rewrite replace_plain. }
  rewrite Hhere.
  repeat (rewrite (replace_plain _ _ (pre ++ summary ++ post));
          [|reflexivity | exact Hout]).
  reflexivity.
Qed.

Lemma render_summary_placeholder_witness :
  Create.render_from_template (lit "<p>" ++ lit "{{COMPANY_SUMMARY}}" ++ lit "</p>")
    Sample.acme_request (lit "acme-and-co") (lit "Anvils.") None
  = lit "<p>" ++ lit "Anvils." ++ lit "</p>".
Proof.
  apply (render_summary_placeholder (lit "<p>") (lit "</p>") Sample.acme_request
           (lit "acme-and-co") (lit "Anvils.") None);
    unfold plain; plain_chars.
Defined.

(** ** create_company.py: [upsert_sites_json] *)

(** X19. When the manifest file is missing, or holds a text that does
    not decode, [upsert_sites_json] starts from an empty manifest: the
    file it writes holds today's date and one entry, with the id, the
    path "/<slug>/", the name, the description, the tag "Demo" and the
    default logo address, in that order. *)
Theorem upsert_fresh_manifest (E : env) (w : world)
    (company_slug company_name summary : pystr) :
  lookup_node (lit "assets") (root (w_fs w)) <> Some File ->
  (sites_file (w_fs w) = None
   \/ exists text, sites_file (w_fs w) = Some text /\ json_loads E text = None) ->
  exists w',
    Create.upsert_sites_json E company_slug company_name summary w = (Ok tt, w')
    /\ sites_file (w_fs w')
       = Some (json_dumps E
                 (JObj [(lit "updated", JStr (today E));
                        (lit "sites",
                         JArr [JObj [(lit "id", JStr company_slug);
                                     (lit "path",
                                      JStr (lit "/" ++ company_slug ++ lit "/"));
                                     (lit "name", JStr company_name);
                                     (lit "description", JStr summary);
                                     (lit "tag", JStr (lit "Demo"));
                                     (lit "logoUrl",
                                      JStr (Create.S3_BASE ++ lit "/" ++ company_slug
                                              ++ lit "/logo.png"))]])])
                 ++ [newline]).
Proof.
  intros Ha Hfile.
  destruct (mkdir_assets_ok w Ha) as [w1 [Hm [Hs1 _]]].
  unfold Create.upsert_sites_json. unfold bind at 1. rewrite Hm.
  unfold bind, get_fs, lift.
  assert (Hinit : Create.initial_manifest E (w_fs w1)
                  = JObj [(lit "updated", JStr (today E)); (lit "sites", JArr [])]).
  { unfold Create.initial_manifest. rewrite Hs1.
    destruct Hfile as [->|[text [-> ->]]]; reflexivity. }
  rewrite Hinit.
  eexists. split; [reflexivity|]. reflexivity.
Qed.

Lemma upsert_fresh_manifest_witness :
  exists w',
    Create.upsert_sites_json Sample.create_env (lit "acme-and-co") (lit "Acme & Co")
      (lit "Anvils.") (mkWorld Sample.corrupt_repo []) = (Ok tt, w')
    /\ sites_file (w_fs w')
       = Some (json_dumps Sample.create_env
                 (JObj [(lit "updated", JStr (today Sample.create_env));
                        (lit "sites",
                         JArr [JObj [(lit "id", JStr (lit "acme-and-co"));
                                     (lit "path",
                                      JStr (lit "/" ++ lit "acme-and-co" ++ lit "/"));
                                     (lit "name", JStr (lit "Acme & Co"));
                                     (lit "description", JStr (lit "Anvils."));
                                     (lit "tag", JStr (lit "Demo"));
                                     (lit "logoUrl",
                                      JStr (Create.S3_BASE ++ lit "/" ++ lit "acme-and-co"
                                              ++ lit "/logo.png"))]])])
                 ++ [newline]).
Proof.
  apply (upsert_fresh_manifest Sample.create_env (mkWorld Sample.corrupt_repo [])
           (lit "acme-and-co") (lit "Acme & Co") (lit "Anvils.")).
  - vm_compute. discriminate.
  - right. exists (lit "{"). split; reflexivity.
Defined.

(** X20. The update of the manifest is idempotent: updating the updated
    manifest on the same day with the same slug, name and summary changes
    nothing.  In particular a second update never adds a second entry. *)
Theorem upsert_value_idempotent (E : env)
    (company_slug company_name summary : pystr) (data updated : json) :
  Create.upsert_value E company_slug company_name summary data = Ok updated ->
  Create.upsert_value E company_slug company_name summary updated = Ok updated.
Proof. apply upsert_value_again. Qed.

Lemma upsert_value_idempotent_witness :
  Create.upsert_value Sample.create_env (lit "globex") (lit "Globex") (lit "Rockets.")
    (JObj [(lit "updated", JStr (lit "2024-05-01"));
           (lit "sites",
            JArr [JObj Sample.one_entry;
                  JObj (Create.fill_entry (lit "globex") (lit "Globex") (lit "Rockets.")
                          (Create.new_entry (lit "globex")))])])
  = Ok (JObj [(lit "updated", JStr (lit "2024-05-01"));
              (lit "sites",
               JArr [JObj Sample.one_entry;
                     JObj (Create.fill_entry (lit "globex") (lit "Globex")
                             (lit "Rockets.") (Create.new_entry (lit "globex")))])]).
Proof.
  apply (upsert_value_idempotent Sample.create_env (lit "globex") (lit "Globex")
           (lit "Rockets.") Sample.one_manifest).
  vm_compute. reflexivity.
Defined.

(** ** archive_company.py *)

(** X21. For an id that the manifest holds, the archive script sets the
    archived flag of the first entry with that id (true for an archive
    issue, false for a restore issue), leaves the other keys of that
    entry and the other entries as they are, stamps today's date, writes
    the file once and prints the confirmation. *)
Theorem archive_sets_flag (E : env) (w : world) (act : Archive.action)
    (company_id text : pystr) (top : dict) (sites : list json) (i : nat) (d : dict) :
  Archive.parse_issue E (getenv E (lit "ISSUE_TITLE")) (getenv E (lit "ISSUE_BODY"))
    = Ok (act, company_id) ->
  sites_file (w_fs w) = Some text ->
  json_loads E text = Some (JObj top) ->
  dict_get (lit "sites") top = Some (JArr sites) ->
  sites !! i = Some (JObj d) ->
  eq_str (dict_get (lit "id") d) company_id = true ->
  (forall j s, (j < i)%nat -> sites !! j = Some s -> other_entry company_id s) ->
  let flag := match act with
              | Archive.ArchiveAction => true
              | Archive.RestoreAction => false
              end in
  let d' := dict_set (lit "archived") (JBool flag) d in
  let sites' := <[i := JObj d']> sites in
  let text' := json_dumps E
                 (JObj (dict_set (lit "sites") (JArr sites')
                          (dict_set (lit "updated") (JStr (today E)) top)))
                 ++ [newline] in
  Archive.main E w
  = (Ok 0%Z,
     mkWorld (mkFs (root (w_fs w)) (Some text') (screenshots (w_fs w)))
       (w_trace w
          ++ [EvWrite (lit "assets/sites.json") text';
              EvPrint (List.map ascii_upper (Archive.action_text act)
                         ++ lit " OK: " ++ company_id)]))
  /\ dict_get (lit "archived") d' = Some (JBool flag)
  /\ (forall k, k <> lit "archived" -> dict_get k d' = dict_get k d)
  /\ (forall j, j <> i -> sites' !! j = sites !! j).
Proof.
  intros Hp Hf Hl Hs Hi Hd Hmin flag d' sites' text'.
  split; [|split; [|split]].
  - unfold Archive.main, bind, lift, get_fs.
    rewrite Hp, Hf, Hl, Hs.
    rewrite (set_archived_found company_id _ sites i d Hi Hd Hmin).
    unfold write_sites, bind, get_fs, emit, put_fs, ret. simpl.
    by rewrite <- app_assoc.
  - apply dict_get_set_eq.
  - intros k Hk. apply dict_get_set_ne. congruence.
  - intros j Hj. apply list_lookup_insert_ne. congruence.
Qed.

Lemma archive_sets_flag_witness :
  let d' := dict_set (lit "archived") (JBool true) Sample.one_entry in
  let sites' := <[0%nat := JObj d']> [JObj Sample.one_entry] in
  let text' := json_dumps Sample.archive_acme_env
                 (JObj (dict_set (lit "sites") (JArr sites')
                          (dict_set (lit "updated")
                             (JStr (today Sample.archive_acme_env))
                             [(lit "updated", JStr (lit "2024-04-30"));
                              (lit "sites", JArr [JObj Sample.one_entry])])))
                 ++ [newline] in
  Archive.main Sample.archive_acme_env (mkWorld Sample.manifest_repo [])
  = (Ok 0%Z,
     mkWorld (mkFs (root (w_fs (mkWorld Sample.manifest_repo []))) (Some text')
                (screenshots (w_fs (mkWorld Sample.manifest_repo []))))
       (w_trace (mkWorld Sample.manifest_repo [])
          ++ [EvWrite (lit "assets/sites.json") text';
              EvPrint (List.map ascii_upper (Archive.action_text Archive.ArchiveAction)
                         ++ lit " OK: " ++ lit "acme")]))
  /\ dict_get (lit "archived") d' = Some (JBool true)
  /\ (forall k, k <> lit "archived" -> dict_get k d' = dict_get k Sample.one_entry)
  /\ (forall j, j <> 0%nat -> sites' !! j = [JObj Sample.one_entry] !! j).
Proof.
  apply (archive_sets_flag Sample.archive_acme_env (mkWorld Sample.manifest_repo [])
           Archive.ArchiveAction (lit "acme")
           (Sample.show Sample.one_manifest ++ [newline])
           [(lit "updated", JStr (lit "2024-04-30"));
            (lit "sites", JArr [JObj Sample.one_entry])]
           [JObj Sample.one_entry] 0%nat Sample.one_entry).
  - vm_compute. reflexivity.
  - reflexivity.
  - vm_compute. reflexivity.
  - vm_compute. reflexivity.
  - reflexivity.
  - vm_compute. reflexivity.
  - intros j s Hj. lia.
Defined.

(** X22. The flag of an entry is decided by the last action alone:
    setting the flag of a company after it has been set gives the list
    that setting it at once would have given.  So archiving twice is
    archiving once, and a restore undoes an archive whatever came
    before. *)
Theorem set_archived_last_wins (company_id : pystr) (a b : bool)
    (sites sites1 : list json) :
  Archive.set_archived company_id a sites = Ok (Some sites1) ->
  Archive.set_archived company_id b sites1 = Archive.set_archived company_id b sites.
Proof. intros H. by apply (set_archived_twice company_id a b sites). Qed.

Lemma set_archived_last_wins_witness :
  Archive.set_archived (lit "acme") false
    [JObj (dict_set (lit "archived") (JBool true) Sample.one_entry)]
  = Archive.set_archived (lit "acme") false [JObj Sample.one_entry].
Proof.
  apply (set_archived_last_wins (lit "acme") true false [JObj Sample.one_entry]
           [JObj (dict_set (lit "archived") (JBool true) Sample.one_entry)]).
  vm_compute. reflexivity.
Defined.

(** X23. [main] of the archive script touches the manifest file only:
    whatever the outcome, the children of the repository root and the
    screenshots are as they were.  It returns 0 only after one write of
    the manifest file followed by the one line it prints, and when it
    raises it has printed nothing. *)
Theorem archive_main_manifest_only (E : env) (w w' : world) (r : result Z) :
  Archive.main E w = (r, w') ->
  root (w_fs w') = root (w_fs w)
  /\ screenshots (w_fs w') = screenshots (w_fs w)
  /\ ((r = Ok 0%Z
       /\ exists text msg,
            sites_file (w_fs w') = Some text
            /\ w_trace w'
               = w_trace w ++ [EvWrite (lit "assets/sites.json") text; EvPrint msg])
      \/ (exists e, r = Raise e)
         /\ exists tr, w_trace w' = w_trace w ++ tr /\ silent tr).
Proof.
  intros H. apply archive_main_cases in H as [[e [-> ->]]|[-> [text [msg ->]]]].
  - split; [reflexivity|]. split; [reflexivity|]. right.
    split; [by exists e|]. exists []. split; [by rewrite app_nil_r | constructor].
  - split; [reflexivity|]. split; [reflexivity|]. left.
    split; [reflexivity|]. by exists text, msg.
Qed.

Lemma archive_main_manifest_only_witness :
  root (w_fs (mkWorld Sample.manifest_repo []))
  = root (w_fs (mkWorld Sample.manifest_repo []))
  /\ screenshots (w_fs (mkWorld Sample.manifest_repo []))
     = screenshots (w_fs (mkWorld Sample.manifest_repo []))
  /\ ((@Raise Z (Archive.not_found (lit "globex")) = Ok 0%Z
       /\ exists text msg,
            sites_file (w_fs (mkWorld Sample.manifest_repo [])) = Some text
            /\ w_trace (mkWorld Sample.manifest_repo [])
               = w_trace (mkWorld Sample.manifest_repo [])
                   ++ [EvWrite (lit "assets/sites.json") text; EvPrint msg])
      \/ (exists e, @Raise Z (Archive.not_found (lit "globex")) = Raise e)
         /\ exists tr, w_trace (mkWorld Sample.manifest_repo [])
                       = w_trace (mkWorld Sample.manifest_repo []) ++ tr
                       /\ silent tr).
Proof.
  apply (archive_main_manifest_only Sample.archive_env
           (mkWorld Sample.manifest_repo []) (mkWorld Sample.manifest_repo [])
           (Raise (Archive.not_found (lit "globex")))).
  vm_compute. reflexivity.
Defined.

(** X24. The slug under which the create script files a company is an id
    the archive script accepts: an issue whose title starts with
    "archive company:" or "restore company:" and whose body is the id
    label followed by the slug parses to that action and that slug,
    whatever the company name was. *)
Theorem created_slug_is_archivable (E : env) (act : Archive.action)
    (company_name rest : pystr) :
  Archive.parse_issue E
    (Archive.action_text act ++ lit " company: " ++ rest)
    (lit "**Company id:** " ++ Slug.slugify (lower_ext E) company_name)
  = Ok (act, Slug.slugify (lower_ext E) company_name).
Proof.
  pose proof (slugify_format_all (lower_ext E) company_name) as [Hne [Hok _]].
  pose proof (parse_issue_first E act [] (Archive.action_text act ++ lit " company:")
                (lit " " ++ rest) [] Archive.id_label [32]
                (Slug.slugify (lower_ext E) company_name) []) as H.
  rewrite app_nil_r in H.
  replace (Archive.action_text act ++ lit " company: " ++ rest)
    with ([] ++ (Archive.action_text act ++ lit " company:") ++ lit " " ++ rest).
  2: { simpl. rewrite <- app_assoc. reflexivity. }
  apply H.
  - constructor.
  - by destruct act.
  - reflexivity.
  - by repeat constructor.
  - exact Hne.
  - exact Hok.
  - by left.
  - intros i Hi. simpl in Hi. lia.
Qed.

(** ** generate_sites.py *)

(** X25. [detect_company_dirs] lists, in ascending order, exactly the
    names of the folders of the repository root that hold an index.html
    and are none of ".github", "assets" and "scripts". *)
Theorem detect_company_dirs_listing (f : fs) :
  ascending (Generate.detect_company_dirs f) = true
  /\ forall d : pystr,
       In d (Generate.detect_company_dirs f)
       <-> (exists html, In (d, Dir (Some html)) (root f))
           /\ ~ In d Generate.EXCLUDE.
Proof.
  split.
  - unfold Generate.detect_company_dirs. apply sorted_ascending.
  - intros d. apply detect_In.
Qed.

(** X26. The manifest built by a regeneration has one entry for each
    detected folder, in the order of the folders, with the folder name
    as id, whatever the old manifest holds: entries of folders that are
    gone are dropped, and new folders get an entry. *)
Theorem regenerated_ids_are_folders (E : env) (f : fs) :
  List.map entry_id (Generate.build_sites E f)
  = List.map (fun d => Some (JStr d)) (Generate.detect_company_dirs f)
  /\ length (Generate.build_sites E f) = length (Generate.detect_company_dirs f).
Proof.
  split; [apply build_sites_ids|].
  unfold Generate.build_sites. apply length_map.
Qed.

(** X27. An archived flag survives a regeneration.  When the entry of a
    company is the only one with its id and the other entries can be
    indexed, then after the archive script has set the flag of that
    entry, the entry that the regeneration builds for the folder of the
    company carries the same flag. *)
Theorem archived_flag_survives_regeneration (E : env) (f : fs) (text : pystr)
    (top : dict) (pre post : list json) (d : dict) (company_id : pystr) (flag : bool) :
  company_id <> [] ->
  eq_str (dict_get (lit "id") d) company_id = true ->
  Forall (other_entry company_id) (pre ++ post) ->
  Forall (fun s => indexable s = true) (pre ++ post) ->
  sites_file f = Some text ->
  json_loads E text = Some (JObj top) ->
  dict_get (lit "sites") top
    = Some (JArr (pre ++ JObj (dict_set (lit "archived") (JBool flag) d) :: post)) ->
  In company_id (Generate.detect_company_dirs f) ->
  Archive.set_archived company_id flag (pre ++ JObj d :: post)
    = Ok (Some (pre ++ JObj (dict_set (lit "archived") (JBool flag) d) :: post))
  /\ In (JObj (Generate.site_dict E (Generate.load_existing E f) company_id))
        (Generate.build_sites E f)
  /\ dict_get (lit "archived")
       (Generate.site_dict E (Generate.load_existing E f) company_id)
     = Some (JBool flag).
Proof.
  intros Hx Hd Hother Hix Hf Hl Hs Hin.
  split; [|split].
  - pose proof Hother as Ho. apply Forall_app in Ho as [Ho1 Ho2].
    assert (Hi : (pre ++ JObj d :: post) !! length pre = Some (JObj d)).
    { by rewrite lookup_app_r, Nat.sub_diag by lia. }
    rewrite (set_archived_found company_id flag _ (length pre) d Hi Hd).
    + by rewrite insert_app_r_alt, Nat.sub_diag by lia.
    + intros j s Hj Hsj. rewrite lookup_app_l in Hsj by exact Hj.
      rewrite Forall_lookup in Ho1. by eapply Ho1.
  - unfold Generate.build_sites. apply in_map_iff.
    exists company_id. by split.
  - rewrite site_dict_archived.
    assert (Hd' : eq_str (dict_get (lit "id")
                            (dict_set (lit "archived") (JBool flag) d)) company_id
                  = true).
    { rewrite dict_get_set_ne by lit_ne. exact Hd. }
    destruct (index_sites_unique company_id pre post _ Hx Hd' Hother Hix)
      as [out [Hout Hget]].
    assert (Hex : Generate.load_existing E f = out).
    { unfold Generate.load_existing. rewrite Hf, Hl, Hs. cbn [py_iter].
      by rewrite Hout. }
    rewrite Hex, Hget, dict_get_set_eq. reflexivity.
Qed.

Lemma archived_flag_survives_regeneration_witness :
  Archive.set_archived (lit "acme") true ([] ++ JObj Sample.one_entry :: [])
    = Ok (Some ([] ++ JObj (dict_set (lit "archived") (JBool true) Sample.one_entry)
                   :: []))
  /\ In (JObj (Generate.site_dict Sample.archived_env
                 (Generate.load_existing Sample.archived_env Sample.archived_repo)
                 (lit "acme")))
        (Generate.build_sites Sample.archived_env Sample.archived_repo)
  /\ dict_get (lit "archived")
       (Generate.site_dict Sample.archived_env
          (Generate.load_existing Sample.archived_env Sample.archived_repo)
          (lit "acme"))
     = Some (JBool true).
Proof.
  apply (archived_flag_survives_regeneration Sample.archived_env Sample.archived_repo
           (Sample.show Sample.archived_manifest ++ [newline])
           [(lit "updated", JStr (lit "2024-05-01"));
            (lit "sites",
             JArr [JObj (dict_set (lit "archived") (JBool true) Sample.one_entry)])]
           [] [] Sample.one_entry (lit "acme") true).
  - vm_compute. discriminate.
  - vm_compute. reflexivity.
  - constructor.
  - constructor.
  - reflexivity.
  - vm_compute. reflexivity.
  - vm_compute. reflexivity.
  - vm_compute. left. reflexivity.
Defined.

(** X28. One entry of the old manifest that is not a dict, or whose id
    is a list or a dict with elements, makes [load_existing] drop
    everything it had read: the regeneration then gives every folder its
    default entry, and the names, descriptions, tags and archived flags
    of the old manifest are lost. *)
Theorem load_existing_bad_entry (E : env) (f : fs) (text : pystr) (top : dict)
    (before after : list json) (s : json) :
  sites_file f = Some text ->
  json_loads E text = Some (JObj top) ->
  dict_get (lit "sites") top = Some (JArr (before ++ s :: after)) ->
  indexable s = false ->
  Generate.load_existing E f = []
  /\ Generate.build_sites E f
     = List.map (default_entry E) (Generate.detect_company_dirs f).
Proof.
  intros Hf Hl Hs Hbad.
  assert (Hex : Generate.load_existing E f = []).
  { unfold Generate.load_existing. rewrite Hf, Hl, Hs. cbn [py_iter].
    destruct (index_sites_bad before after s Hbad []) as [e ->]. reflexivity. }
  split; [exact Hex|].
  unfold Generate.build_sites. rewrite Hex. apply List.map_ext.
  intros d. apply site_entry_default.
Qed.

Lemma load_existing_bad_entry_witness :
  Generate.load_existing Sample.damaged_env Sample.damaged_repo = []
  /\ Generate.build_sites Sample.damaged_env Sample.damaged_repo
     = List.map (default_entry Sample.damaged_env)
         (Generate.detect_company_dirs Sample.damaged_repo).
Proof.
  apply (load_existing_bad_entry Sample.damaged_env Sample.damaged_repo
           (Sample.show Sample.damaged_manifest ++ [newline])
           [(lit "updated", JStr (lit "2024-05-01"));
            (lit "sites", JArr [JObj Sample.one_entry; JNum 7])]
           [JObj Sample.one_entry] [] (JNum 7)).
  - reflexivity.
  - vm_compute. reflexivity.
  - vm_compute. reflexivity.
  - reflexivity.
Defined.
